(** * A shallow embedding of the text-plus-tabular classifier

    The development follows the two source files of the repository:

    - [model/model_03/model.py]: [AttentionWithContext], [AttentionBiGRU],
      [DocumentEncoder] and the single-source [CorpusEncoder] (here
      [CorpusEncoder03], the name under which the framework imports it);
    - [model/framework_model.py]: [ClassificationHead], [NontextualNetwork],
      the dual [CorpusEncoder] and [MyModel].

    Every class is a module holding the record of its instances, what
    [__init__] builds and [forward].

    Conventions of the embedding.

    - A float tensor is a nested list of real numbers ([R]): the arithmetic
      is exact, rounding and overflow of 32-bit floats are not modelled.
      The properties stated on these tensors are properties of the
      computation over the reals.  Where a property is about NaN and the
      infinities ([AttentionWithContext32]) a float is a value of [F32.t]:
      a finite real, an infinity or NaN, with overflow and the special
      values of IEEE 754 and without rounding.
      Token and mask tensors are nested lists of integers ([Z]).
    - A Python exception is a value of [exn]; a call that may raise returns
      a [result], threaded with [x <- c ;; k].
    - An [nn.Module] instance is a record of its hyper-parameters, of its
      trainable tensors and of its sub-modules.  A sub-module whose class is
      not part of the two files (the pretrained transformer, [nn.GRU],
      [CNN1D], [VectorAttention], the MLPs) is a function-valued field acting
      on one sample: what it computes is left open.  The source calls these
      layers on the whole batch; [Batched] states the passes with such
      calls, for the property that compares batches.
    - [nn.Dropout] depends on the mode of the module ([training]) and, in
      training mode, on random draws: the draws are an explicit argument. *)

From Stdlib Require Import String Reals Lra Lia ZArith Bool Arith List.
From Stdlib Require Import Permutation.
Import ListNotations.

(* ================================================================== *)
(** * Exceptions and results *)
(* ================================================================== *)

Inductive exn : Type :=
| ValueError (msg : string)
| TypeError
| AttributeError
| IndexError
| RuntimeError.

Definition result (A : Type) : Type := (exn + A)%type.

Definition Ok {A : Type} (a : A) : result A := inr a.
Definition Raise {A : Type} (e : exn) : result A := inl e.

Definition bind {A B : Type} (c : result A) (k : A -> result B) : result B :=
  match c with
  | inl e => inl e
  | inr a => k a
  end.

Declare Scope result_scope.
Delimit Scope result_scope with result.
Notation "x <- c ;; k" := (bind c (fun x => k))
  (at level 61, c at next level, right associativity) : result_scope.
Open Scope result_scope.

(** [mapM f l] runs [f] on the elements of [l] from left to right and stops
    at the first exception. *)
Fixpoint mapM {A B : Type} (f : A -> result B) (l : list A) : result (list B) :=
  match l with
  | [] => Ok []
  | a :: l' => b <- f a ;; bs <- mapM f l' ;; Ok (b :: bs)
  end.

(** [zipWithM f la lb] combines two tensors along one axis; the sizes along
    that axis have to agree, as for an elementwise tensor operation. *)
Fixpoint zipWithM {A B C : Type} (f : A -> B -> result C)
         (la : list A) (lb : list B) : result (list C) :=
  match la, lb with
  | [], [] => Ok []
  | a :: la', b :: lb' =>
      c <- f a b ;; cs <- zipWithM f la' lb' ;; Ok (c :: cs)
  | _, _ => Raise RuntimeError
  end.

(** [broadcastM f la lb] combines two tensors along one axis under the
    broadcasting rule of torch: the two sizes agree, or one of them is 1
    and its only entry is used at every position; other sizes raise. *)
Definition broadcastM {A B C : Type} (f : A -> B -> result C)
           (la : list A) (lb : list B) : result (list C) :=
  if (length la =? length lb)%nat then zipWithM f la lb
  else match la, lb with
       | [a], _ => mapM (f a) lb
       | _, [b] => mapM (fun a => f a b) la
       | _, _ => Raise RuntimeError
       end.

(* ================================================================== *)
(** * Tensors as nested lists *)
(* ================================================================== *)

Open Scope R_scope.

Definition Rsum (l : list R) : R := fold_right Rplus 0 l.

Fixpoint dot (w x : list R) : R :=
  match w, x with
  | a :: w', b :: x' => a * b + dot w' x'
  | _, _ => 0
  end.

Fixpoint map2 {A B C : Type} (f : A -> B -> C) (la : list A) (lb : list B) : list C :=
  match la, lb with
  | a :: la', b :: lb' => f a b :: map2 f la' lb'
  | _, _ => []
  end.

Definition vadd (x y : list R) : list R := map2 Rplus x y.
Definition vscale (c : R) (x : list R) : list R := map (Rmult c) x.

(** Sum of a sequence of vectors of width [d] ([torch.sum] along the
    sequence axis; the sum of no vector is the zero vector). *)
Definition vsum (d : nat) (rows : list (list R)) : list R :=
  fold_right vadd (repeat 0 d) rows.

(** [chunks n k l]: [k] consecutive rows of [n] entries cut from [l]. *)
Fixpoint chunks {A : Type} (n k : nat) (l : list A) : list (list A) :=
  match k with
  | O => []
  | S k' => firstn n l :: chunks n k' (skipn n l)
  end.

(** [tensor.view(rows, -1)] on a contiguous tensor given by its entries in
    memory order: the width is inferred as [numel / rows]; torch refuses the
    call when [rows] is 0 (the width would be ambiguous) and when [rows]
    does not divide the number of entries. *)
Definition view2 {A : Type} (rows : nat) (flat : list A) : result (list (list A)) :=
  if (rows =? 0)%nat then Raise RuntimeError
  else if (length flat mod rows =? 0)%nat
       then Ok (chunks (length flat / rows) rows flat)
       else Raise RuntimeError.

(** [tensor.view(b, m, -1)]: as [view2] with [b * m] rows, then grouped by
    [m]. *)
Definition view3 {A : Type} (b m : nat) (flat : list A) : result (list (list (list A))) :=
  rows <- view2 (b * m) flat ;;
  Ok (chunks m b rows).

(** Sample [i] of a batched tensor, as a batch of one sample. *)
Definition sample {A : Type} (i : nat) (x : list (list A)) : list (list A) :=
  [nth i x []].

(** A 3-D tensor of sizes [(b, m, t)]. *)
Definition rect3 {A : Type} (b m t : nat) (x : list (list (list A))) : Prop :=
  length x = b
  /\ Forall (fun s => length s = m /\ Forall (fun d => length d = t) s) x.

(** ** [nn.Linear] *)

Record Linear : Type := mkLinear {
  in_features : nat;
  out_features : nat;
  weight : list (list R);      (* out_features rows of in_features entries *)
  bias : option (list R)       (* [None] for [bias=False] *)
}.

Definition matvec (w : list (list R)) (x : list R) : list R :=
  map (fun row => dot row x) w.

(** [x @ weight.T + bias] for one vector [x]. *)
Definition affine (l : Linear) (x : list R) : list R :=
  match bias l with
  | Some b => vadd (matvec (weight l) x) b
  | None => matvec (weight l) x
  end.

(** The layer acts on the last axis and raises when its width is not
    [in_features]. *)
Definition linear (l : Linear) (x : list R) : result (list R) :=
  if (length x =? in_features l)%nat then Ok (affine l x)
  else Raise RuntimeError.

Definition Linear_wf (l : Linear) : bool :=
  (length (weight l) =? out_features l)%nat
  && forallb (fun row => (length row =? in_features l)%nat) (weight l)
  && match bias l with
     | Some b => (length b =? out_features l)%nat
     | None => true
     end.

(** ** 32-bit floats with their special values

    Where a property is about NaN and the infinities, a float is a finite
    real number, an infinity or NaN.  The special values follow IEEE 754,
    and a finite result beyond the largest float32 becomes an infinity.
    Finite results are exact: rounding and underflow are not modelled, and
    zero carries no sign. *)

Module F32.

Inductive t : Type :=
| Fin (r : R)
| PInf
| NInf
| NaN.

Definition is_finite (a : t) : Prop :=
  match a with
  | Fin _ => True
  | _ => False
  end.

(** The largest float32, [(2 - 2^-23) * 2^127]. *)
Definition max_value : R := (2 - / 2 ^ 23) * 2 ^ 127.

Definition overflow (r : R) : t :=
  if Rlt_dec max_value r then PInf
  else if Rlt_dec r (- max_value) then NInf
  else Fin r.

Definition inf (positive : bool) : t := if positive then PInf else NInf.

(** An infinity times a finite [r]: the sign of [r] decides, and
    [inf * 0] is NaN. *)
Definition inf_mul (positive : bool) (r : R) : t :=
  if Req_dec_T r 0 then NaN
  else if Rlt_dec 0 r then inf positive
       else inf (negb positive).

Definition add (a b : t) : t :=
  match a, b with
  | NaN, _ | _, NaN => NaN
  | Fin x, Fin y => overflow (x + y)
  | PInf, NInf | NInf, PInf => NaN
  | PInf, _ | _, PInf => PInf
  | NInf, _ | _, NInf => NInf
  end.

Definition mul (a b : t) : t :=
  match a, b with
  | NaN, _ | _, NaN => NaN
  | Fin x, Fin y => overflow (x * y)
  | PInf, Fin r | Fin r, PInf => inf_mul true r
  | NInf, Fin r | Fin r, NInf => inf_mul false r
  | PInf, PInf | NInf, NInf => PInf
  | PInf, NInf | NInf, PInf => NInf
  end.

(** [x / 0] is an infinity of the sign of [x], and [0 / 0] is NaN; a
    finite value over an infinity is 0; [inf / inf] is NaN. *)
Definition div (a b : t) : t :=
  match a, b with
  | NaN, _ | _, NaN => NaN
  | Fin x, Fin y => if Req_dec_T y 0 then inf_mul true x else overflow (x / y)
  | Fin _, _ => Fin 0
  | PInf, Fin y => if Rlt_dec y 0 then NInf else PInf
  | NInf, Fin y => if Rlt_dec y 0 then PInf else NInf
  | _, _ => NaN
  end.

Definition exp (a : t) : t :=
  match a with
  | Fin x => overflow (Rtrigo_def.exp x)
  | PInf => PInf
  | NInf => Fin 0
  | NaN => NaN
  end.

Definition tanh (a : t) : t :=
  match a with
  | Fin x => Fin (Rtrigo_def.tanh x)
  | PInf => Fin 1
  | NInf => Fin (-1)
  | NaN => NaN
  end.

(** [tensor.float()] of an integer tensor: a 64-bit integer is within the
    range of the floats. *)
Definition of_Z (z : Z) : t := Fin (IZR z).

Definition sum (l : list t) : t := fold_right add (Fin 0) l.

Fixpoint dot (w : list R) (x : list t) : t :=
  match w, x with
  | a :: w', b :: x' => add (mul (Fin a) b) (dot w' x')
  | _, _ => Fin 0
  end.

Definition vadd (x y : list t) : list t := map2 add x y.
Definition vscale (c : t) (x : list t) : list t := map (mul c) x.

Definition vsum (d : nat) (rows : list (list t)) : list t :=
  fold_right vadd (repeat (Fin 0) d) rows.

(** [nn.Linear] on a vector of floats; the trainable tensors of the layer
    hold finite values. *)
Definition affine (l : Linear) (x : list t) : list t :=
  match bias l with
  | Some b => vadd (map (fun row => dot row x) (weight l)) (map Fin b)
  | None => map (fun row => dot row x) (weight l)
  end.

Definition linear (l : Linear) (x : list t) : result (list t) :=
  if (length x =? in_features l)%nat then Ok (affine l x)
  else Raise RuntimeError.

End F32.

(** ** Layers defined outside the two files

    The pretrained transformer comes from the [transformers] library: for
    one document (its token ids and, when given, its attention mask) it
    returns one hidden vector per step, or raises. *)
Definition TextEncoder : Type :=
  list Z -> option (list Z) -> result (list (list R)).

(** Modelled from the spec: [SimpleMLP] and [CompactMLP] of [model/mlp.py],
    the MLP of the classification head (contract [nontext_dim -> 1],
    adjustable depth, hidden width and dropout).  It acts on the last axis
    of its input, one feature vector at a time. *)
Definition MLP : Type := list R -> result (list R).

(** Modelled from the spec: [VectorAttention] of
    [model/vector_attention.py], which combines the nontextual sequence of
    one sample into one vector under the query vector of that sample. *)
Definition VectorAttention : Type := list (list R) -> list R -> result (list R).

(** Modelled from the spec: [CNN1D] of [model/vector_attention.py], the
    multi-layer 1-D convolutional extractor; it maps the channels of one
    sample to its sequence of per-step embeddings. *)
Definition CNN1D : Type := list (list R) -> result (list (list R)).

(** ** [nn.Dropout]

    In evaluation mode the layer is the identity.  In training mode entry
    [(i, j)] of a 2-D input is kept and rescaled by [1 / (1 - p)] when the
    draw [keep i j] is [true], and zeroed otherwise. *)
Definition dropout_row (p : R) (keep : nat -> bool) (row : list R) : list R :=
  map2 (fun j v => if keep j then v / (1 - p) else 0) (seq 0 (length row)) row.

Definition dropout (training : bool) (p : R) (keep : nat -> nat -> bool)
           (x : list (list R)) : list (list R) :=
  if training
  then map2 (fun i row => dropout_row p (keep i) row) (seq 0 (length x)) x
  else x.

(* ================================================================== *)
(** * model/model_03/model.py *)
(* ================================================================== *)

(** ** [AttentionWithContext] *)

Module AttentionWithContext.

Record t : Type := mk {
  input_shape : nat;
  return_coefficients : bool;
  W : Linear;                  (* nn.Linear(input_shape, input_shape, bias) *)
  u : Linear                   (* nn.Linear(input_shape, 1, bias=False) *)
}.

(** What [__init__] builds, given the values of the trainable tensors
    (with [bias=False] the constructor fails in [init_weights]). *)
Definition init (input_shape : nat) (return_coefficients : bool)
           (W_weight : list (list R)) (W_bias : list R) (u_weight : list R) : t :=
  mk input_shape return_coefficients
     (mkLinear input_shape input_shape W_weight (Some W_bias))
     (mkLinear input_shape 1 [u_weight] None).

Definition wf (m : t) : bool :=
  Linear_wf (W m) && Linear_wf (u m)
  && (in_features (W m) =? input_shape m)%nat
  && (out_features (W m) =? input_shape m)%nat
  && (in_features (u m) =? input_shape m)%nat
  && (out_features (u m) =? 1)%nat.

Definition eps : R := 1e-9.

(** The tensors of size [(samples, steps, 1)] ([ait], [a], the mask) are
    carried without their trailing unit axis. *)
Definition unit_axis (r : list R) : result R :=
  match r with
  | [s] => Ok s
  | _ => Raise RuntimeError
  end.

(** [a = torch.exp(self.u(self.tanh(self.W(x))))]. *)
Definition exp_scores (m : t) (x : list (list (list R))) : result (list (list R)) :=
  uit <- mapM (mapM (linear (W m))) x ;;
  let uit := map (map (map tanh)) uit in
  ait <- mapM (mapM (fun r => s <- linear (u m) r ;; unit_axis s)) uit ;;
  Ok (map (map exp) ait).

(** [if mask is not None: a = a * mask.float()].  The mask has three
    axes, the last one of size 1 as the source states; along the samples
    and along the steps the product broadcasts. *)
Definition apply_mask (a : list (list R)) (mask : option (list (list Z)))
  : result (list (list R)) :=
  match mask with
  | Some msk => broadcastM (broadcastM (fun v z => Ok (v * IZR z))) a msk
  | None => Ok a
  end.

(** [a = a / (torch.sum(a, axis=1, keepdim=True) + eps)]. *)
Definition normalize (a : list (list R)) : list (list R) :=
  map (fun row => map (fun v => v / (Rsum row + eps)) row) a.

(** [torch.sum(a * x, axis=1)]; the product broadcasts along the samples
    and along the steps (and along the features, where [a] has size 1). *)
Definition weighted_input (d : nat) (a : list (list R)) (x : list (list (list R)))
  : result (list (list R)) :=
  broadcastM (fun arow xs =>
                prods <- broadcastM (fun c xr => Ok (vscale c xr)) arow xs ;;
                Ok (vsum d prods)) a x.

(** The second component is the coefficient tensor, returned when
    [return_coefficients] is set. *)
Definition forward (m : t) (x : list (list (list R))) (mask : option (list (list Z)))
  : result (list (list R) * option (list (list R))) :=
  a <- exp_scores m x ;;
  a <- apply_mask a mask ;;
  let a := normalize a in
  wi <- weighted_input (in_features (W m)) a x ;;
  if return_coefficients m then Ok (wi, Some a) else Ok (wi, None).

(** The entry of [a] computed for one step [r] of the right width. *)
Definition score (m : t) (r : list R) : R :=
  exp (hd 0 (affine (u m) (map tanh (affine (W m) r)))).

(** [a * mask.float()] for inputs of the right shape. *)
Definition masked_scores (m : t) (x : list (list (list R))) (mask : list (list Z))
  : list (list R) :=
  map2 (map2 (fun v z => v * IZR z)) (map (map (score m)) x) mask.

(** *** [init_weights] and the constructor

    [tensor.uniform_(a, b)] replaces every entry by a fresh draw of the
    uniform distribution on [[a, b)]: entry [j] becomes
    [a + (b - a) * draw j] for a draw of [[0, 1)]; the shape is kept. *)
Definition uniform_ (a b : R) (draw : nat -> R) (x : list R) : list R :=
  map2 (fun j _ => a + (b - a) * draw j) (seq 0 (length x)) x.

Definition uniform2_ (a b : R) (draw : nat -> nat -> R) (x : list (list R))
  : list (list R) :=
  map2 (fun i row => uniform_ a b (draw i) row) (seq 0 (length x)) x.

Definition initrange : R := 0.1.

(** [self.W.bias] is [None] for a layer built with [bias=False]: reading
    [.data] on it raises. *)
Definition init_weights (m : t) (draw_W : nat -> nat -> R) (draw_b : nat -> R)
           (draw_u : nat -> nat -> R) : result t :=
  let W_weight := uniform2_ (- initrange) initrange draw_W (weight (W m)) in
  W_bias <- match bias (W m) with
            | Some b => Ok (uniform_ (- initrange) initrange draw_b b)
            | None => Raise AttributeError
            end ;;
  let u_weight := uniform2_ (- initrange) initrange draw_u (weight (u m)) in
  Ok (mk (input_shape m) (return_coefficients m)
         (mkLinear (in_features (W m)) (out_features (W m)) W_weight (Some W_bias))
         (mkLinear (in_features (u m)) (out_features (u m)) u_weight (bias (u m)))).

(** [nn.Linear(i, o, bias)] before [init_weights] runs: only the shapes of
    its tensors matter, every value is overwritten (zeros stand for the
    values of torch's own initialisation). *)
Definition new_Linear (i o : nat) (with_bias : bool) : Linear :=
  mkLinear i o (repeat (repeat 0 i) o)
           (if with_bias then Some (repeat 0 o) else None).

(** [AttentionWithContext(input_shape, return_coefficients, bias)], with the
    draws of [init_weights] as arguments. *)
Definition construct (input_shape : nat) (return_coefficients with_bias : bool)
           (draw_W : nat -> nat -> R) (draw_b : nat -> R)
           (draw_u : nat -> nat -> R) : result t :=
  init_weights (mk input_shape return_coefficients
                   (new_Linear input_shape input_shape with_bias)
                   (new_Linear input_shape 1 false))
               draw_W draw_b draw_u.

(** *** [generate_square_subsequent_mask]

    The result holds [float("-inf")]: its entries are floats that may be
    minus infinity. *)
Inductive xfloat : Type :=
| Finite (r : R)
| NegInf.

(** [torch.ones(rows, cols)]. *)
Definition ones (rows cols : nat) : list (list R) :=
  repeat (repeat 1 cols) rows.

(** [torch.triu(x)]: the entries under the main diagonal become 0. *)
Definition triu (x : list (list R)) : list (list R) :=
  map2 (fun i row =>
          map2 (fun j v => if (i <=? j)%nat then v else 0) (seq 0 (length row)) row)
       (seq 0 (length x)) x.

Definition Reqb (a b : R) : bool :=
  if Req_dec_T a b then true else false.

(** [x == c] on a float tensor and on a boolean tensor. *)
Definition eq_scalar (x : list (list R)) (c : R) : list (list bool) :=
  map (map (fun v => Reqb v c)) x.

Definition eq_bool (x : list (list bool)) (c : bool) : list (list bool) :=
  map (map (fun v => Bool.eqb v c)) x.

(** [x.transpose(0, 1)] of a 2-D tensor. *)
Definition transpose {A : Type} (d : A) (x : list (list A)) : list (list A) :=
  map (fun j => map (fun row => nth j row d) x)
      (seq 0 (match x with [] => 0%nat | row :: _ => length row end)).

(** [mask.float()] of a boolean tensor. *)
Definition float (x : list (list bool)) : list (list xfloat) :=
  map (map (fun v : bool => Finite (if v then 1 else 0))) x.

(** [x.masked_fill(cond, value)]. *)
Definition masked_fill (x : list (list xfloat)) (cond : list (list bool))
           (value : xfloat) : list (list xfloat) :=
  map2 (map2 (fun v (c : bool) => if c then value else v)) x cond.

Definition generate_square_subsequent_mask (sz : nat) : list (list xfloat) :=
  let mask := transpose false (eq_scalar (triu (ones sz sz)) 1) in
  masked_fill (masked_fill (float mask) (eq_bool mask false) NegInf)
              (eq_bool mask true) (Finite 0).

End AttentionWithContext.

(** ** [AttentionWithContext.forward] on floats with special values

    The [forward] of the layer above, line by line, on tensors of [F32.t]:
    a score can overflow to an infinity, and an infinity times a mask
    entry 0 is NaN. *)

Module AttentionWithContext32.

Definition eps : F32.t := F32.Fin AttentionWithContext.eps.

Definition unit_axis (r : list F32.t) : result F32.t :=
  match r with
  | [s] => Ok s
  | _ => Raise RuntimeError
  end.

(** [a = torch.exp(self.u(self.tanh(self.W(x))))]. *)
Definition exp_scores (m : AttentionWithContext.t) (x : list (list (list F32.t)))
  : result (list (list F32.t)) :=
  uit <- mapM (mapM (F32.linear (AttentionWithContext.W m))) x ;;
  let uit := map (map (map F32.tanh)) uit in
  ait <- mapM (mapM (fun r => s <- F32.linear (AttentionWithContext.u m) r ;;
                              unit_axis s)) uit ;;
  Ok (map (map F32.exp) ait).

(** [if mask is not None: a = a * mask.float()]. *)
Definition apply_mask (a : list (list F32.t)) (mask : option (list (list Z)))
  : result (list (list F32.t)) :=
  match mask with
  | Some msk => broadcastM (broadcastM (fun v z => Ok (F32.mul v (F32.of_Z z)))) a msk
  | None => Ok a
  end.

(** [a = a / (torch.sum(a, axis=1, keepdim=True) + eps)]. *)
Definition normalize (a : list (list F32.t)) : list (list F32.t) :=
  map (fun row => map (fun v => F32.div v (F32.add (F32.sum row) eps)) row) a.

(** [torch.sum(a * x, axis=1)]. *)
Definition weighted_input (d : nat) (a : list (list F32.t))
           (x : list (list (list F32.t))) : result (list (list F32.t)) :=
  broadcastM (fun arow xs =>
                prods <- broadcastM (fun c xr => Ok (F32.vscale c xr)) arow xs ;;
                Ok (F32.vsum d prods)) a x.

Definition forward (m : AttentionWithContext.t) (x : list (list (list F32.t)))
           (mask : option (list (list Z)))
  : result (list (list F32.t) * option (list (list F32.t))) :=
  a <- exp_scores m x ;;
  a <- apply_mask a mask ;;
  let a := normalize a in
  wi <- weighted_input (in_features (AttentionWithContext.W m)) a x ;;
  if AttentionWithContext.return_coefficients m then Ok (wi, Some a) else Ok (wi, None).

(** The entry of [a] computed for one step [r] of the right width. *)
Definition score (m : AttentionWithContext.t) (r : list F32.t) : F32.t :=
  F32.exp (hd (F32.Fin 0)
              (F32.affine (AttentionWithContext.u m)
                          (map F32.tanh (F32.affine (AttentionWithContext.W m) r)))).

(** [a * mask.float()] for inputs of the right shape. *)
Definition masked_scores (m : AttentionWithContext.t)
           (x : list (list (list F32.t))) (mask : list (list Z))
  : list (list F32.t) :=
  map2 (map2 (fun v z => F32.mul v (F32.of_Z z))) (map (map (score m)) x) mask.

(** A step that the mask cancels, with finite features and a score that
    did not overflow. *)
Definition cancelled (m : AttentionWithContext.t) (z : Z) (r : list F32.t) : Prop :=
  z = 0%Z /\ Forall F32.is_finite r /\ F32.is_finite (score m r).

(** Two inputs agree outside the steps that the mask cancels. *)
Definition agree_on_valid (m : AttentionWithContext.t) (mask : list (list Z))
           (x x' : list (list (list F32.t))) : Prop :=
  Forall2 (fun ms pairs =>
             Forall2 (fun (z : Z) (rr : list F32.t * list F32.t) =>
                        fst rr = snd rr
                        \/ (cancelled m z (fst rr) /\ cancelled m z (snd rr)))
                     ms pairs)
          mask (map2 (@combine (list F32.t) (list F32.t)) x x').

End AttentionWithContext32.

(** ** [AttentionBiGRU]

    [nn.GRU] comes from torch.  With [batch_first=True] and
    [bidirectional=True] its first result holds, for every sample, one
    vector of [2 * hidden_size] features per step (the two directions side
    by side); what it computes is left open. *)
Definition GRU : Type := list (list R) -> result (list (list R)).

(** [nn.Dropout] on a 3-D tensor: one draw per entry. *)
Definition dropout3 (training : bool) (p : R) (keep : nat -> nat -> nat -> bool)
           (x : list (list (list R))) : list (list (list R)) :=
  if training
  then map2 (fun i s => dropout true p (keep i) s) (seq 0 (length x)) x
  else x.

Module AttentionBiGRU.

Record t : Type := mk {
  p : R;                       (* nn.Dropout(dropout) *)
  training : bool;
  bigru : GRU;                 (* nn.GRU(input_shape, output_shape_2, ...) *)
  attention : AttentionWithContext.t
}.

(** [nn.Dropout(p)] refuses a probability outside [[0, 1]] (the message of
    torch ends with the value of [p]). *)
Definition new_Dropout (p : R) : result R :=
  if Rle_dec 0 p
  then if Rle_dec p 1
       then Ok p
       else Raise (ValueError "dropout probability has to be between 0 and 1")
  else Raise (ValueError "dropout probability has to be between 0 and 1").

(** [nn.GRU(input_size, hidden_size, ...)] refuses [hidden_size = 0];
    [bigru] is the recurrent layer that it returns otherwise. *)
Definition new_GRU (hidden_size : nat) (bigru : GRU) : result GRU :=
  if (hidden_size =? 0)%nat
  then Raise (ValueError "hidden_size must be greater than zero")
  else Ok bigru.

(** [AttentionBiGRU(input_shape, output_shape_2, dropout, bias)]: the
    dropout layer is built first, then the recurrent layer, then the
    attention. *)
Definition construct (input_shape output_shape_2 : nat) (dropout : R)
           (with_bias : bool) (bigru : GRU)
           (draw_W : nat -> nat -> R) (draw_b : nat -> R)
           (draw_u : nat -> nat -> R) : result t :=
  p <- new_Dropout dropout ;;
  bigru <- new_GRU output_shape_2 bigru ;;
  attention <- AttentionWithContext.construct (2 * output_shape_2) false with_bias
                                              draw_W draw_b draw_u ;;
  Ok (mk p true bigru attention).

Definition eval (m : t) : t := mk (p m) false (bigru m) (attention m).

Definition forward (m : t) (keep : nat -> nat -> nat -> bool)
           (x : list (list (list R))) (mask : option (list (list Z)))
  : result (list (list R) * option (list (list R))) :=
  x <- mapM (bigru m) x ;;
  let x := dropout3 (training m) (p m) keep x in
  AttentionWithContext.forward (attention m) x mask.

(** The recurrent layer keeps the steps of a sample and returns vectors of
    [2 * output_shape_2] features. *)
Definition bigru_shape (g : GRU) (output_shape_2 : nat) : Prop :=
  forall s hs, g s = Ok hs ->
               length hs = length s
               /\ Forall (fun v => length v = (2 * output_shape_2)%nat) hs.

End AttentionBiGRU.

(** ** [DocumentEncoder] *)

Module DocumentEncoder.

(** [text_encoder] stands for the pretrained DistilBERT model followed by
    [.last_hidden_state]. *)
Record t : Type := mk {
  text_encoder : TextEncoder;
  p : R;                       (* nn.Dropout(dropout) *)
  training : bool
}.

(** [DocumentEncoder(hidden_dim=64, bias=True, dropout=.5)]; a fresh module
    is in training mode. *)
Definition init (text_encoder : TextEncoder) (dropout : R) : t :=
  mk text_encoder dropout true.

Definition eval (m : t) : t := mk (text_encoder m) (p m) false.

(** [h[0, :]] for the hidden states [h] of one document. *)
Definition first_step (h : list (list R)) : result (list R) :=
  match h with
  | h0 :: _ => Ok h0
  | [] => Raise IndexError
  end.

Definition forward (m : t) (keep : nat -> nat -> bool)
           (x : list (list Z)) (attention_mask : option (list (list Z)))
  : result (list (list R)) :=
  x <- match attention_mask with
       | Some msk => zipWithM (fun r k => text_encoder m r (Some k)) x msk
       | None => mapM (fun r => text_encoder m r None) x
       end ;;
  (* x[:, 0, :] *)
  x <- mapM first_step x ;;
  Ok (dropout (training m) (p m) keep x).

(** The hidden vectors returned by the text encoder all have [h]
    features. *)
Definition hidden_width (m : t) (h : nat) : Prop :=
  forall doc msk hs,
    text_encoder m doc msk = Ok hs -> Forall (fun v => length v = h) hs.

End DocumentEncoder.

(** ** [CorpusEncoder] of model_03 (imported as [CorpusEncoder03]) *)

Module CorpusEncoder03.

Record t : Type := mk {
  doc_encoder : DocumentEncoder.t;
  W : Linear;                  (* nn.Linear(in_features=768, out_features=32) *)
  corpus_emb_dim : nat
}.

(** [CorpusEncoder(bias=True, dropout=.5)]: the keyword [dropout] is not
    handed to the document encoder, which keeps its default 0.5. *)
Definition init (text_encoder : TextEncoder)
           (W_weight : list (list R)) (W_bias : list R) : t :=
  mk (DocumentEncoder.init text_encoder 0.5)
     (mkLinear 768 32 W_weight (Some W_bias))
     32.

Definition eval (m : t) : t :=
  mk (DocumentEncoder.eval (doc_encoder m)) (W m) (corpus_emb_dim m).

(** [x.size(1)] of a 3-D tensor. *)
Definition size1 {A : Type} (x : list (list A)) : nat :=
  match x with
  | [] => 0
  | s :: _ => length s
  end.

(** [torch.max(x, dim=1)[0]] for one sample: the elementwise maximum of its
    document vectors. *)
Definition max_docs (docs : list (list R)) : result (list R) :=
  match docs with
  | [] => Raise RuntimeError
  | d :: ds => Ok (fold_left (map2 Rmax) ds d)
  end.

Definition forward (m : t) (keep : nat -> nat -> bool)
           (x : list (list (list Z))) (attention_mask : option (list (list (list Z))))
  : result (list (list R)) :=
  let batch_size := length x in
  let nb_docs := size1 x in
  x <- view2 (batch_size * nb_docs) (concat (concat x)) ;;
  attention_mask_ <- match attention_mask with
                     | None => Raise AttributeError
                     | Some msk => view2 (batch_size * nb_docs) (concat (concat msk))
                     end ;;
  x <- DocumentEncoder.forward (doc_encoder m) keep x (Some attention_mask_) ;;
  x <- view3 batch_size nb_docs (concat x) ;;
  x <- mapM max_docs x ;;
  mapM (linear (W m)) x.

(** The hidden states of one document under its mask. *)
Definition encode_doc (m : t) (doc mask : list Z) : result (list (list R)) :=
  DocumentEncoder.text_encoder (doc_encoder m) doc (Some mask).

Definition wf (m : t) : bool :=
  Linear_wf (W m)
  && (in_features (W m) =? 768)%nat
  && (out_features (W m) =? 32)%nat
  && (corpus_emb_dim m =? 32)%nat.

End CorpusEncoder03.

(* ================================================================== *)
(** * model/framework_model.py *)
(* ================================================================== *)

Definition nontextual_cols : list string :=
  ["Index - 9"; "Index - 8"; "Index - 7"; "Index - 6"; "Index - 5";
   "Index - 4"; "Index - 3"; "Index - 2"; "Index - 1"; "Index - 0";
   "Index Name_CVIX Index"; "Index Name_EURUSD Curncy";
   "Index Name_EURUSDV1M Curncy"; "Index Name_MOVE Index";
   "Index Name_SPX Index"; "Index Name_SRVIX Index";
   "Index Name_SX5E Index"; "Index Name_V2X Index";
   "Index Name_VIX Index"]%string.

Definition nontext_dim : nat := length nontextual_cols.

Definition is_None {A : Type} (o : option A) : bool :=
  match o with
  | None => true
  | Some _ => false
  end.

(** Calling a tensor method or a layer on [None] raises [TypeError]. *)
Definition not_None {A : Type} (o : option A) : result A :=
  match o with
  | Some a => Ok a
  | None => Raise TypeError
  end.

(** Reading an attribute that [__init__] did not set to a module. *)
Definition attr {A : Type} (o : option A) : result A :=
  match o with
  | Some a => Ok a
  | None => Raise AttributeError
  end.

(** [t[k]] on a tuple. *)
Definition item {A : Type} (t : list A) (k : nat) : result A :=
  match nth_error t k with
  | Some a => Ok a
  | None => Raise IndexError
  end.

(** ** [ClassificationHead] *)

Module ClassificationHead.

(** The value handed to the MLP is a 2-D or a 3-D tensor. *)
Inductive tensor : Type :=
| T2 (x : list (list R))
| T3 (x : list (list (list R))).

(** [mlp] is the [SimpleMLP] or [CompactMLP] chosen by [residual], built
    with [nontext_dim] input and one output feature; [vector_attention] is
    [VectorAttention(nontext_dim)]. *)
Record t : Type := mk {
  corpus_emb_dim : nat;
  nontext_dim : nat;
  mlp : MLP;
  vector_attention : VectorAttention;
  proj : Linear                (* nn.Linear(corpus_emb_dim, nontext_dim, bias=False) *)
}.

Definition init (corpus_emb_dim nontext_dim : nat)
           (mlp : MLP) (vector_attention : VectorAttention)
           (proj_weight : list (list R)) : t :=
  mk corpus_emb_dim nontext_dim mlp vector_attention
     (mkLinear corpus_emb_dim nontext_dim proj_weight None).

Definition mlp_call (h : t) (x : option tensor) : result tensor :=
  x <- not_None x ;;
  match x with
  | T2 rows => out <- mapM (mlp h) rows ;; Ok (T2 out)
  | T3 seqs => out <- mapM (mapM (mlp h)) seqs ;; Ok (T3 out)
  end.

(** [out.view(-1)]. *)
Definition view_flat (out : tensor) : list R :=
  match out with
  | T2 rows => concat rows
  | T3 seqs => concat (concat seqs)
  end.

Definition forward (h : t) (x_corpus : option (list (list R)))
           (x_nontext : option (list (list (list R)))) : result (list R) :=
  if (is_None x_corpus || (corpus_emb_dim h =? 0)%nat)
     && (is_None x_nontext || (nontext_dim h =? 0)%nat)
  then Raise (ValueError "Both entries are None.")
  else
    x <- (if is_None x_corpus || (corpus_emb_dim h =? 0)%nat
          then Ok (option_map T3 x_nontext)
          else if is_None x_nontext || (nontext_dim h =? 0)%nat
          then Ok (option_map T2 x_corpus)
          else
            x_corpus <- not_None x_corpus ;;
            x_corpus <- mapM (linear (proj h)) x_corpus ;;
            x_nontext <- not_None x_nontext ;;
            x <- zipWithM (vector_attention h) x_nontext x_corpus ;;
            Ok (Some (T2 x))) ;;
    out <- mlp_call h x ;;
    Ok (view_flat out).

End ClassificationHead.

(** ** [NontextualNetwork] *)

Module NontextualNetwork.

(** [cnn] is [CNN1D(input_channels, output_dim, layers_nontext, dropout)]. *)
Record t : Type := mk {
  layers_nontext : nat;
  input_dim : nat;
  input_channels : nat;
  output_dim : nat;
  category_embedding : Linear; (* nn.Linear(9, input_channels-1, bias=True) *)
  cnn : CNN1D
}.

(** [nn.Linear(9, input_channels-1)] cannot be built with a negative
    width. *)
Definition init (input_dim input_channels output_dim layers_nontext : nat)
           (ce_weight : list (list R)) (ce_bias : list R)
           (cnn : CNN1D) : result t :=
  if (input_channels =? 0)%nat then Raise RuntimeError
  else Ok (mk layers_nontext input_dim input_channels output_dim
              (mkLinear 9 (input_channels - 1) ce_weight (Some ce_bias))
              cnn).

Definition forward (m : t) (x : option (list (list R)))
  : result (list (list (list R))) :=
  x <- not_None x ;;
  let x_ := map (firstn 10) x in
  let category := map (skipn 10) x in
  cat_feat <- mapM (linear (category_embedding m)) category ;;
  let cat_feat := map (map (fun c => repeat c (CorpusEncoder03.size1 x_))) cat_feat in
  x <- zipWithM (fun cf xr => Ok (cf ++ [xr])) cat_feat x_ ;;
  mapM (cnn m) x.

Definition wf (m : t) : bool :=
  Linear_wf (category_embedding m)
  && (in_features (category_embedding m) =? 9)%nat
  && (out_features (category_embedding m) =? input_channels m - 1)%nat
  && (1 <=? input_channels m)%nat.

(** The [(input_channels, 10)] tensor handed to the extractor for one
    sample of width 19: the embedded categories, each repeated over the 10
    positions, then the numeric series. *)
Definition channels (m : t) (row : list R) : list (list R) :=
  map (fun c => repeat c 10) (affine (category_embedding m) (skipn 10 row))
  ++ [firstn 10 row].

End NontextualNetwork.

(** ** The dual [CorpusEncoder] *)

Module CorpusEncoder.

(** An attribute that [__init__] leaves unset, or sets to [None], is
    [None]. *)
Record t : Type := mk {
  method : option string;
  separate : bool;
  encoder : option CorpusEncoder03.t;
  encoder_ecb : option CorpusEncoder03.t;
  encoder_fed : option CorpusEncoder03.t;
  corpus_emb_dim : option nat
}.

(** [new_encoder k] is the module returned by the [k]-th call
    [CorpusEncoder03( **kwargs_ce)]. *)
Definition init (new_encoder : nat -> CorpusEncoder03.t)
           (method : option string) (separate : bool) : t :=
  match method with
  | Some s =>
      if (s =? "bow")%string
      then mk method separate None None None (Some (1 * (1 + Nat.b2n separate))%nat)
      else if (s =? "max_pooling")%string
      then mk method separate None None None (Some (1 * (1 + Nat.b2n separate))%nat)
      else if (s =? "hierbert")%string
      then mk method separate None None None (Some (1 * (1 + Nat.b2n separate))%nat)
      else if (s =? "model_03")%string
      then
        if negb separate
        then mk method separate (Some (new_encoder 0%nat)) None None
                (Some (CorpusEncoder03.corpus_emb_dim (new_encoder 0%nat)))
        else mk method separate None
                (Some (new_encoder 0%nat)) (Some (new_encoder 1%nat))
                (Some (2 * CorpusEncoder03.corpus_emb_dim (new_encoder 0%nat))%nat)
      else mk method separate None None None None
  | None => mk method separate None None None (Some 0%nat)
  end.

Definition eval (m : t) : t :=
  mk (method m) (separate m)
     (option_map CorpusEncoder03.eval (encoder m))
     (option_map CorpusEncoder03.eval (encoder_ecb m))
     (option_map CorpusEncoder03.eval (encoder_fed m))
     (corpus_emb_dim m).

(** [torch.cat([x_ecb, x_fed], dim=1)]. *)
Definition cat1 (x_ecb x_fed : list (list R)) : result (list (list R)) :=
  zipWithM (fun a b => Ok (a ++ b)) x_ecb x_fed.

(** [keep 0] are the dropout draws of the first encoder call of the pass,
    [keep 1] those of the second. *)
Definition forward (m : t) (keep : nat -> nat -> nat -> bool)
           (x : list (list (list (list Z))))
           (x_masks : list (option (list (list (list Z)))))
  : result (option (list (list R))) :=
  match method m with
  | None => Ok None
  | Some _ =>
      if separate m then
        encoder_ecb <- attr (encoder_ecb m) ;;
        x0 <- item x 0 ;;
        m0 <- item x_masks 0 ;;
        x_ecb <- CorpusEncoder03.forward encoder_ecb (keep 0%nat) x0 m0 ;;
        encoder_fed <- attr (encoder_fed m) ;;
        x1 <- item x 1 ;;
        m1 <- item x_masks 1 ;;
        x_fed <- CorpusEncoder03.forward encoder_fed (keep 1%nat) x1 m1 ;;
        out <- cat1 x_ecb x_fed ;;
        Ok (Some out)
      else
        encoder <- attr (encoder m) ;;
        x0 <- item x 0 ;;
        m0 <- item x_masks 0 ;;
        out <- CorpusEncoder03.forward encoder (keep 0%nat) x0 m0 ;;
        Ok (Some out)
  end.

(** The sub-encoders that exist are in evaluation mode. *)
Definition evaluating (m : t) : Prop :=
  forall e, encoder m = Some e \/ encoder_ecb m = Some e \/ encoder_fed m = Some e ->
            DocumentEncoder.training (CorpusEncoder03.doc_encoder e) = false.

(** Each text encoder returns hidden vectors of one width. *)
Definition uniform_hidden (m : t) : Prop :=
  forall e, encoder m = Some e \/ encoder_ecb m = Some e \/ encoder_fed m = Some e ->
            exists h, DocumentEncoder.hidden_width (CorpusEncoder03.doc_encoder e) h.

End CorpusEncoder.

(** ** [MyModel] *)

Module MyModel.

Record t : Type := mk {
  method : option string;
  nontext_network : NontextualNetwork.t;
  nontext_dim : nat;
  corpus_encoder : CorpusEncoder.t;
  classifier : ClassificationHead.t
}.

(** [nontext_network] and [classifier] are the modules built from
    [kwargs_nontext] and [kwargs_classification]; reading
    [corpus_encoder.corpus_emb_dim] fails for a method that does not set
    it. *)
Definition init (new_encoder : nat -> CorpusEncoder03.t)
           (method : option string) (separate : bool)
           (nontext_network : NontextualNetwork.t)
           (classifier : ClassificationHead.t) : result t :=
  let corpus_encoder := CorpusEncoder.init new_encoder method separate in
  corpus_emb_dim <- attr (CorpusEncoder.corpus_emb_dim corpus_encoder) ;;
  Ok (mk method nontext_network (NontextualNetwork.output_dim nontext_network)
         corpus_encoder classifier).

Definition eval (m : t) : t :=
  mk (method m) (nontext_network m) (nontext_dim m)
     (CorpusEncoder.eval (corpus_encoder m)) (classifier m).

Definition forward (m : t) (keep : nat -> nat -> nat -> bool)
           (x_text : list (list (list (list Z))))
           (x_masks : list (option (list (list (list Z)))))
           (x_nontext : option (list (list R))) : result (list R) :=
  x_nontext <- NontextualNetwork.forward (nontext_network m) x_nontext ;;
  x_corpus <- match method m with
              | None => Ok None
              | Some _ => CorpusEncoder.forward (corpus_encoder m) keep x_text x_masks
              end ;;
  ClassificationHead.forward (classifier m) x_corpus (Some x_nontext).

(** The inputs of a pass restricted to sample [i]. *)
Definition sample_text (i : nat) (x_text : list (list (list (list Z))))
  : list (list (list (list Z))) :=
  map (sample i) x_text.

Definition sample_masks (i : nat) (x_masks : list (option (list (list (list Z)))))
  : list (option (list (list (list Z)))) :=
  map (option_map (sample i)) x_masks.

Definition sample_nontext (i : nat) (x_nontext : option (list (list R)))
  : option (list (list R)) :=
  option_map (sample i) x_nontext.

(** The inputs form a batch of [b >= 1] samples: every token tensor has
    sizes [(b, nb_docs, t)] with at least one document, every mask is a
    tensor with the sizes [(b, nb_docs, t')] of its token tensor, and the
    nontextual tensor has [b] rows. *)
Definition batch (b : nat)
           (x_text : list (list (list (list Z))))
           (x_masks : list (option (list (list (list Z)))))
           (x_nontext : option (list (list R))) : Prop :=
  (1 <= b)%nat
  /\ (exists xn, x_nontext = Some xn /\ length xn = b)
  /\ Forall2 (fun x mask =>
                exists nb_docs t t' msk,
                  (1 <= nb_docs)%nat
                  /\ rect3 b nb_docs t x
                  /\ mask = Some msk
                  /\ rect3 b nb_docs t' msk)
             x_text x_masks.

End MyModel.

(* ================================================================== *)
(** * The layers outside the two files, called on a whole batch *)
(* ================================================================== *)

(** The source calls the pretrained transformer, [CNN1D], [VectorAttention]
    and the MLP once per pass, on the tensors of the whole batch.  In the
    modules above each of them is a function of one sample.  [Batched]
    states the same passes with the batched calls, for layers given as
    functions of the batch: that a row of their result is computed from
    the matching row of their input alone is then a hypothesis
    ([rowwise]). *)

Module Batched.

(** The transformer on the token tensor [(rows, steps)] of a call, with the
    mask of the same sizes when one is given. *)
Definition BatchTextEncoder : Type :=
  list (list Z) -> option (list (list Z)) -> result (list (list (list R))).

(** [text_encoder], [text_encoder_ecb] and [text_encoder_fed] are the
    transformers of the document encoders under [encoder], [encoder_ecb]
    and [encoder_fed]; [cnn] maps [(batch, channels, 10)] to the sequences
    of the batch; [vector_attention] takes the sequences and the query
    vectors of the batch; [mlp] acts on a 2-D or a 3-D tensor. *)
Record layers : Type := mk {
  text_encoder : BatchTextEncoder;
  text_encoder_ecb : BatchTextEncoder;
  text_encoder_fed : BatchTextEncoder;
  cnn : list (list (list R)) -> result (list (list (list R)));
  vector_attention : list (list (list R)) -> list (list R) -> result (list (list R));
  mlp : ClassificationHead.tensor -> result ClassificationHead.tensor
}.

(** [DocumentEncoder.forward]:
    [x = self.text_encoder(x, attention_mask=attention_mask).last_hidden_state]
    is one call. *)
Definition DocumentEncoder_forward (enc : BatchTextEncoder) (m : DocumentEncoder.t)
           (keep : nat -> nat -> bool)
           (x : list (list Z)) (attention_mask : option (list (list Z)))
  : result (list (list R)) :=
  x <- enc x attention_mask ;;
  (* x[:, 0, :] *)
  x <- mapM DocumentEncoder.first_step x ;;
  Ok (dropout (DocumentEncoder.training m) (DocumentEncoder.p m) keep x).

(** [CorpusEncoder.forward] of model_03. *)
Definition CorpusEncoder03_forward (enc : BatchTextEncoder) (m : CorpusEncoder03.t)
           (keep : nat -> nat -> bool)
           (x : list (list (list Z))) (attention_mask : option (list (list (list Z))))
  : result (list (list R)) :=
  let batch_size := length x in
  let nb_docs := CorpusEncoder03.size1 x in
  x <- view2 (batch_size * nb_docs) (concat (concat x)) ;;
  attention_mask_ <- match attention_mask with
                     | None => Raise AttributeError
                     | Some msk => view2 (batch_size * nb_docs) (concat (concat msk))
                     end ;;
  x <- DocumentEncoder_forward enc (CorpusEncoder03.doc_encoder m) keep x
                               (Some attention_mask_) ;;
  x <- view3 batch_size nb_docs (concat x) ;;
  x <- mapM CorpusEncoder03.max_docs x ;;
  mapM (linear (CorpusEncoder03.W m)) x.

(** [CorpusEncoder.forward] of the framework. *)
Definition CorpusEncoder_forward (L : layers) (m : CorpusEncoder.t)
           (keep : nat -> nat -> nat -> bool)
           (x : list (list (list (list Z))))
           (x_masks : list (option (list (list (list Z)))))
  : result (option (list (list R))) :=
  match CorpusEncoder.method m with
  | None => Ok None
  | Some _ =>
      if CorpusEncoder.separate m then
        encoder_ecb <- attr (CorpusEncoder.encoder_ecb m) ;;
        x0 <- item x 0 ;;
        m0 <- item x_masks 0 ;;
        x_ecb <- CorpusEncoder03_forward (text_encoder_ecb L) encoder_ecb
                                         (keep 0%nat) x0 m0 ;;
        encoder_fed <- attr (CorpusEncoder.encoder_fed m) ;;
        x1 <- item x 1 ;;
        m1 <- item x_masks 1 ;;
        x_fed <- CorpusEncoder03_forward (text_encoder_fed L) encoder_fed
                                         (keep 1%nat) x1 m1 ;;
        out <- CorpusEncoder.cat1 x_ecb x_fed ;;
        Ok (Some out)
      else
        encoder <- attr (CorpusEncoder.encoder m) ;;
        x0 <- item x 0 ;;
        m0 <- item x_masks 0 ;;
        out <- CorpusEncoder03_forward (text_encoder L) encoder (keep 0%nat) x0 m0 ;;
        Ok (Some out)
  end.

(** [NontextualNetwork.forward]: [x = self.cnn(x)] is one call. *)
Definition NontextualNetwork_forward (L : layers) (m : NontextualNetwork.t)
           (x : option (list (list R))) : result (list (list (list R))) :=
  x <- not_None x ;;
  let x_ := map (firstn 10) x in
  let category := map (skipn 10) x in
  cat_feat <- mapM (linear (NontextualNetwork.category_embedding m)) category ;;
  let cat_feat := map (map (fun c => repeat c (CorpusEncoder03.size1 x_))) cat_feat in
  x <- zipWithM (fun cf xr => Ok (cf ++ [xr])) cat_feat x_ ;;
  cnn L x.

(** [ClassificationHead.forward]: [self.vector_attention(...)] and
    [self.mlp(x)] are one call each. *)
Definition ClassificationHead_forward (L : layers) (h : ClassificationHead.t)
           (x_corpus : option (list (list R)))
           (x_nontext : option (list (list (list R)))) : result (list R) :=
  if (is_None x_corpus || (ClassificationHead.corpus_emb_dim h =? 0)%nat)
     && (is_None x_nontext || (ClassificationHead.nontext_dim h =? 0)%nat)
  then Raise (ValueError "Both entries are None.")
  else
    x <- (if is_None x_corpus || (ClassificationHead.corpus_emb_dim h =? 0)%nat
          then Ok (option_map ClassificationHead.T3 x_nontext)
          else if is_None x_nontext || (ClassificationHead.nontext_dim h =? 0)%nat
          then Ok (option_map ClassificationHead.T2 x_corpus)
          else
            x_corpus <- not_None x_corpus ;;
            x_corpus <- mapM (linear (ClassificationHead.proj h)) x_corpus ;;
            x_nontext <- not_None x_nontext ;;
            x <- vector_attention L x_nontext x_corpus ;;
            Ok (Some (ClassificationHead.T2 x))) ;;
    x <- not_None x ;;
    out <- mlp L x ;;
    Ok (ClassificationHead.view_flat out).

(** [MyModel.forward]. *)
Definition MyModel_forward (L : layers) (m : MyModel.t)
           (keep : nat -> nat -> nat -> bool)
           (x_text : list (list (list (list Z))))
           (x_masks : list (option (list (list (list Z)))))
           (x_nontext : option (list (list R))) : result (list R) :=
  x_nontext <- NontextualNetwork_forward L (MyModel.nontext_network m) x_nontext ;;
  x_corpus <- match MyModel.method m with
              | None => Ok None
              | Some _ => CorpusEncoder_forward L (MyModel.corpus_encoder m)
                                                keep x_text x_masks
              end ;;
  ClassificationHead_forward L (MyModel.classifier m) x_corpus (Some x_nontext).

(** A batched transformer that encodes every document by itself, as [f]
    does. *)
Definition rows_text (f : TextEncoder) : BatchTextEncoder :=
  fun x attention_mask =>
    match attention_mask with
    | Some msk => zipWithM (fun r k => f r (Some k)) x msk
    | None => mapM (fun r => f r None) x
    end.

(** An MLP that acts on the last axis, one feature vector at a time, as
    [f] does. *)
Definition rows_mlp (f : MLP) (x : ClassificationHead.tensor)
  : result ClassificationHead.tensor :=
  match x with
  | ClassificationHead.T2 rows =>
      out <- mapM f rows ;; Ok (ClassificationHead.T2 out)
  | ClassificationHead.T3 seqs =>
      out <- mapM (mapM f) seqs ;; Ok (ClassificationHead.T3 out)
  end.

(** Every layer of [L] computes each row of its result from the matching
    row of its input alone: it is the layer of [m] applied sample by
    sample. *)
Definition rowwise (L : layers) (m : MyModel.t) : Prop :=
  (forall e, CorpusEncoder.encoder (MyModel.corpus_encoder m) = Some e ->
             forall x msk,
               text_encoder L x msk
               = rows_text (DocumentEncoder.text_encoder (CorpusEncoder03.doc_encoder e))
                           x msk)
  /\ (forall e, CorpusEncoder.encoder_ecb (MyModel.corpus_encoder m) = Some e ->
                forall x msk,
                  text_encoder_ecb L x msk
                  = rows_text (DocumentEncoder.text_encoder (CorpusEncoder03.doc_encoder e))
                              x msk)
  /\ (forall e, CorpusEncoder.encoder_fed (MyModel.corpus_encoder m) = Some e ->
                forall x msk,
                  text_encoder_fed L x msk
                  = rows_text (DocumentEncoder.text_encoder (CorpusEncoder03.doc_encoder e))
                              x msk)
  /\ (forall x, cnn L x = mapM (NontextualNetwork.cnn (MyModel.nontext_network m)) x)
  /\ (forall s q, vector_attention L s q
                  = zipWithM (ClassificationHead.vector_attention (MyModel.classifier m)) s q)
  /\ (forall x, mlp L x = rows_mlp (ClassificationHead.mlp (MyModel.classifier m)) x).

End Batched.

(* ================================================================== *)
(** * Concrete modules and inputs for the examples *)
(* ================================================================== *)

Module Examples.

(** An attention layer over one feature with a steep scoring weight. *)
Definition att_steep : AttentionWithContext.t :=
  AttentionWithContext.init 1 true [[1]] [0] [-20].

Definition att_x : list (list (list R)) := [[[1]]].
Definition att_mask : list (list Z) := [[1%Z]].

(** An attention layer over two features, two samples of three steps. *)
Definition att_flat : AttentionWithContext.t :=
  AttentionWithContext.init 2 true [[0; 0]; [0; 0]] [0; 0] [0; 0].

Definition att_flat_x : list (list (list R)) :=
  [[[1; 2]; [3; 4]; [5; 6]]; [[0; 1]; [1; 0]; [2; 2]]].
Definition att_flat_mask : list (list Z) := [[1; 1; 0]; [0; 1; 0]]%Z.
Definition att_zero_mask : list (list Z) := [[0; 0; 0]; [0; 0; 0]]%Z.

(** The same input as a tensor of floats. *)
Definition att_flat_x32 : list (list (list F32.t)) :=
  map (map (map F32.Fin)) att_flat_x.

(** An attention layer over one feature whose scoring weight makes the
    score overflow, and one sample of one step. *)
Definition att_overflow : AttentionWithContext.t :=
  AttentionWithContext.init 1 true [[1]] [0] [200].

Definition att_x32 : list (list (list F32.t)) := [[[F32.Fin 1]]].

(** Stand-ins for the sub-modules whose classes are outside the two
    files. *)
Definition cnn_stub (output_dim : nat) : CNN1D := fun chans =>
  Ok (map (fun t => repeat (Rsum (map (fun ch => nth t ch 0) chans)) output_dim)
          (seq 0 (CorpusEncoder03.size1 chans))).

Definition mlp_stub (in_features : nat) : MLP := fun v =>
  if (length v =? in_features)%nat then Ok [Rsum v] else Raise RuntimeError.

Definition attention_stub : VectorAttention := fun sequence vector =>
  Ok (vsum (length vector) (map (fun s => vscale (dot s vector) s) sequence)).

(** A nontextual network with two channels and 19 output features. *)
Definition nontext_net : NontextualNetwork.t :=
  NontextualNetwork.mk 3 19 2 19
    (mkLinear 9 1 [[1; 0; 0; 0; 0; 0; 0; 0; 0]] (Some [0]))
    (cnn_stub 19).

Definition row19 : list R :=
  [1; 2; 3; 4; 5; 6; 7; 8; 9; 10; 1; 0; 0; 0; 0; 0; 0; 0; 0].
Definition row20 : list R := row19 ++ [0].
Definition row19' : list R :=
  [2; 2; 2; 2; 2; 2; 2; 2; 2; 2; 0; 1; 0; 0; 0; 0; 0; 0; 0].

(** A head fusing a corpus embedding of width 2 with steps of width 3. *)
Definition head_small : ClassificationHead.t :=
  ClassificationHead.init 2 3 (mlp_stub 3) attention_stub
                          [[1; 0]; [0; 1]; [1; 1]].

Definition corpus_small : list (list R) := [[1; 2]; [3; 4]].
Definition nontext_small : list (list (list R)) :=
  [[[1; 0; 0]; [0; 1; 0]]; [[0; 0; 1]; [1; 1; 1]]].

(** The pretrained encoder replaced by a map sending every token to a
    constant hidden vector, and a projection reading the first hidden
    feature. *)
Definition text_stub : TextEncoder := fun doc attention_mask =>
  Ok (map (fun tok => repeat (IZR tok) 768) doc).

Definition encoder_stub : CorpusEncoder03.t :=
  CorpusEncoder03.init text_stub
    ((1 :: repeat 0 767) :: repeat (repeat 0 768) 31)
    (repeat 0 32).

(** A nontextual network with two channels and one output feature, and a
    head for corpus embeddings of width 32 and steps of width 1. *)
Definition nontext_net1 : NontextualNetwork.t :=
  NontextualNetwork.mk 3 19 2 1
    (mkLinear 9 1 [[1; 0; 0; 0; 0; 0; 0; 0; 0]] (Some [0]))
    (cnn_stub 1).

Definition head_32_1 : ClassificationHead.t :=
  ClassificationHead.init 32 1 (mlp_stub 1) attention_stub
                          [1 :: repeat 0 31].

(** [MyModel('model_03', ..., separate=False)] over the stand-ins, as built
    (training mode), and after [.eval()]. *)
Definition model_single : MyModel.t :=
  MyModel.mk (Some "model_03"%string) nontext_net1 1
             (CorpusEncoder.init (fun _ => encoder_stub) (Some "model_03"%string) false)
             head_32_1.

Definition model_single_eval : MyModel.t := MyModel.eval model_single.

(** One sample, one document of two tokens. *)
Definition text_one : list (list (list (list Z))) := [[[[5; 7]%Z]]].
Definition masks_one : list (option (list (list (list Z)))) := [Some [[[1; 1]%Z]]].

(** Two corpora of one document each, and their masks. *)
Definition docs_ecb : list (list (list Z)) := [[[5; 7]%Z]].
Definition docs_fed : list (list (list Z)) := [[[6; 7]%Z]].
Definition docs_mask : option (list (list (list Z))) := Some [[[1; 1]%Z]].

(** A batch of two samples, and its second sample alone. *)
Definition text_two : list (list (list (list Z))) := [[[[5; 7]]; [[6; 7]]]]%Z.
Definition masks_two : list (option (list (list (list Z)))) :=
  [Some [[[1; 1]]; [[1; 1]]]%Z].
Definition nontext_two : option (list (list R)) := Some [row19; row19'].

Definition text_alone : list (list (list (list Z))) := [[[[6; 7]]]]%Z.
Definition masks_alone : list (option (list (list (list Z)))) :=
  [Some [[[1; 1]]]%Z].
Definition nontext_alone : option (list (list R)) := Some [row19'].

Definition keep_all : nat -> nat -> nat -> bool := fun _ _ _ => true.

Definition returned (r : result (list R)) : list R :=
  match r with
  | inr v => v
  | inl _ => []
  end.

Definition out_two : list R :=
  returned (MyModel.forward model_single_eval keep_all text_two masks_two nontext_two).
Definition out_alone : list R :=
  returned (MyModel.forward model_single_eval keep_all
                            text_alone masks_alone nontext_alone).

(** The stand-ins called on a whole batch, every row by itself. *)
Definition layers_stub : Batched.layers :=
  Batched.mk (Batched.rows_text text_stub) (Batched.rows_text text_stub)
             (Batched.rows_text text_stub)
             (mapM (cnn_stub 1)) (zipWithM attention_stub)
             (Batched.rows_mlp (mlp_stub 1)).

(** An extractor whose result depends on the number of samples of the
    batch (as a layer normalising with the statistics of the batch does),
    and a model without corpus encoder built on it. *)
Definition layers_batch_size : Batched.layers :=
  Batched.mk (Batched.rows_text text_stub) (Batched.rows_text text_stub)
             (Batched.rows_text text_stub)
             (fun x => Ok (map (fun _ => [[INR (length x)]]) x))
             (zipWithM attention_stub)
             (Batched.rows_mlp (mlp_stub 1)).

Definition model_no_text : MyModel.t :=
  MyModel.mk None nontext_net1 1
             (CorpusEncoder.init (fun _ => encoder_stub) None false)
             head_32_1.

(** A recurrent layer replaced by a map that repeats the sum of the
    features of every step in both directions. *)
Definition gru_stub : GRU := fun s =>
  Ok (map (fun r => [Rsum r; Rsum r]) s).

(** A single-source encoder in evaluation mode over hidden vectors of one
    feature: every token is sent to its value, the projection is the
    identity. *)
Definition encoder_small : CorpusEncoder03.t :=
  CorpusEncoder03.mk
    (DocumentEncoder.mk (fun doc _ => Ok (map (fun tok => [IZR tok]) doc)) 0.5 false)
    (mkLinear 1 1 [[1]] (Some [0]))
    1.

End Examples.

(* ================================================================== *)
(** * Properties *)
(* ================================================================== *)

(** ** The example modules are what the constructors build *)

Example nontext_net1_built :
  NontextualNetwork.init 19 2 1 3 [[1; 0; 0; 0; 0; 0; 0; 0; 0]] [0]
                         (Examples.cnn_stub 1)
  = Ok Examples.nontext_net1.
Proof. reflexivity. Qed.

Example model_single_built :
  MyModel.init (fun _ => Examples.encoder_stub) (Some "model_03"%string) false
               Examples.nontext_net1 Examples.head_32_1
  = Ok Examples.model_single.
Proof. reflexivity. Qed.

Example model_single_training :
  CorpusEncoder.encoder (MyModel.corpus_encoder Examples.model_single)
  = Some Examples.encoder_stub
  /\ DocumentEncoder.training (CorpusEncoder03.doc_encoder Examples.encoder_stub)
     = true
  /\ DocumentEncoder.p (CorpusEncoder03.doc_encoder Examples.encoder_stub) = 0.5.
Proof. repeat split. Qed.

Example nontext_dim_19 : nontext_dim = 19%nat.
Proof. reflexivity. Qed.

(** ** The result monad and the list combinators *)

Lemma bind_Ok {A B : Type} (c : result A) (k : A -> result B) (b : B) :
  bind c k = Ok b <-> exists a, c = Ok a /\ k a = Ok b.
Proof.
  destruct c as [e | a]; simpl; split.
  - discriminate.
  - intros (a & H & _). discriminate.
  - intros H. exists a. split; [reflexivity | exact H].
  - intros (a' & H & Hk). injection H as ->. exact Hk.
Qed.

Lemma mapM_Ok {A B : Type} (f : A -> result B) (l : list A) (out : list B) :
  mapM f l = Ok out <-> Forall2 (fun a b => f a = Ok b) l out.
Proof.
  revert out. induction l as [| a l IH]; intros out; simpl.
  - split.
    + intros H. injection H as <-. constructor.
    + intros H. inversion H. reflexivity.
  - split.
    + intros H. apply bind_Ok in H. destruct H as (b & Hb & H).
      apply bind_Ok in H. destruct H as (bs & Hbs & H).
      injection H as <-. constructor; [exact Hb | apply IH; exact Hbs].
    + intros H. inversion H as [| a' b l' bs Hb Hbs]; subst.
      rewrite Hb. simpl. apply IH in Hbs. rewrite Hbs. reflexivity.
Qed.

Lemma mapM_total {A B : Type} (f : A -> result B) (g : A -> B) (l : list A) :
  (forall a, In a l -> f a = Ok (g a)) -> mapM f l = Ok (map g l).
Proof.
  induction l as [| a l IH]; intros H; simpl.
  - reflexivity.
  - rewrite (H a (or_introl eq_refl)). simpl.
    rewrite IH; [reflexivity |].
    intros b Hb. apply H. right. exact Hb.
Qed.

Lemma mapM_length {A B : Type} (f : A -> result B) (l : list A) (out : list B) :
  mapM f l = Ok out -> length out = length l.
Proof.
  intros H. apply mapM_Ok in H. symmetry. eapply Forall2_length. exact H.
Qed.

Lemma mapM_app {A B : Type} (f : A -> result B) (l1 l2 : list A) :
  mapM f (l1 ++ l2) = (o1 <- mapM f l1 ;; o2 <- mapM f l2 ;; Ok (o1 ++ o2)).
Proof.
  induction l1 as [| a l1 IH]; simpl.
  - destruct (mapM f l2); reflexivity.
  - destruct (f a) as [e | b]; simpl; [reflexivity |].
    rewrite IH. destruct (mapM f l1) as [e | o1]; simpl; [reflexivity |].
    destruct (mapM f l2); reflexivity.
Qed.

Lemma zipWithM_length {A B C : Type} (f : A -> B -> result C)
      (la : list A) (lb : list B) (out : list C) :
  zipWithM f la lb = Ok out -> length la = length lb /\ length out = length la.
Proof.
  revert lb out. induction la as [| a la IH]; intros [| b lb] out H; simpl in H;
    try discriminate.
  - injection H as <-. split; reflexivity.
  - apply bind_Ok in H. destruct H as (c & _ & H).
    apply bind_Ok in H. destruct H as (cs & Hcs & H).
    injection H as <-. apply IH in Hcs. simpl. split; lia.
Qed.

Lemma zipWithM_total {A B C : Type} (f : A -> B -> result C) (g : A -> B -> C)
      (la : list A) (lb : list B) :
  length la = length lb ->
  (forall a b, In (a, b) (combine la lb) -> f a b = Ok (g a b)) ->
  zipWithM f la lb = Ok (map2 g la lb).
Proof.
  revert lb. induction la as [| a la IH]; intros [| b lb] Hlen H; simpl in *;
    try discriminate; [reflexivity |].
  rewrite (H a b (or_introl eq_refl)). simpl.
  rewrite IH; [reflexivity | lia |].
  intros a' b' Hin. apply H. right. exact Hin.
Qed.

(** ** [ClassificationHead]: both modalities absent *)

(** C4. When the corpus input is [None] or [corpus_emb_dim] is 0, and the
    nontextual input is [None] or [nontext_dim] is 0, [forward] raises
    [ValueError("Both entries are None.")] instead of returning a value. *)
Theorem head_both_absent_raises
        (h : ClassificationHead.t)
        (x_corpus : option (list (list R)))
        (x_nontext : option (list (list (list R)))) :
  x_corpus = None \/ ClassificationHead.corpus_emb_dim h = 0%nat ->
  x_nontext = None \/ ClassificationHead.nontext_dim h = 0%nat ->
  ClassificationHead.forward h x_corpus x_nontext
  = Raise (ValueError "Both entries are None.").
Proof.
  intros Hc Hn. unfold ClassificationHead.forward.
  replace (is_None x_corpus || (ClassificationHead.corpus_emb_dim h =? 0)%nat)
    with true.
  2:{ destruct Hc as [-> | ->]; simpl; [reflexivity |].
      rewrite orb_true_r. reflexivity. }
  replace (is_None x_nontext || (ClassificationHead.nontext_dim h =? 0)%nat)
    with true.
  2:{ destruct Hn as [-> | ->]; simpl; [reflexivity |].
      rewrite orb_true_r. reflexivity. }
  reflexivity.
Qed.

(** ** [CorpusEncoder03]: the mask is mandatory *)

(** C10. Whatever the token tensor, a call of the model_03 corpus encoder
    with [attention_mask = None] raises: the reshape of the tokens fails
    ([RuntimeError]) or the mask is dereferenced ([AttributeError]); the
    document encoder is never reached. *)
Theorem corpus_encoder03_mask_None_raises
        (m : CorpusEncoder03.t) (keep : nat -> nat -> bool)
        (x : list (list (list Z))) :
  exists e, CorpusEncoder03.forward m keep x None = Raise e
            /\ (e = AttributeError \/ e = RuntimeError).
Proof.
  unfold CorpusEncoder03.forward.
  destruct (view2 (length x * CorpusEncoder03.size1 x) (concat (concat x)))
    as [e | rows] eqn:Hview.
  - exists e. split; [reflexivity |]. right.
    unfold view2 in Hview.
    destruct (length x * CorpusEncoder03.size1 x =? 0)%nat.
    + injection Hview as <-. reflexivity.
    + destruct (length (concat (concat x)) mod (length x * CorpusEncoder03.size1 x) =? 0)%nat.
      * discriminate.
      * injection Hview as <-. reflexivity.
  - exists AttributeError. split; [reflexivity | left; reflexivity].
Qed.

Lemma zipWithM_Forall2 {A B C : Type} (f : A -> B -> result C) (g : A -> B -> C)
      (la : list A) (lb : list B) :
  Forall2 (fun a b => f a b = Ok (g a b)) la lb ->
  zipWithM f la lb = Ok (map2 g la lb).
Proof.
  induction 1 as [| a b la lb Hab _ IH]; simpl.
  - reflexivity.
  - rewrite Hab. simpl. rewrite IH. reflexivity.
Qed.

Lemma Forall2_same_length {A B : Type} (P : A -> B -> Prop)
      (la : list A) (lb : list B) :
  Forall2 P la lb -> length la = length lb.
Proof.
  induction 1; simpl; [reflexivity | f_equal; assumption].
Qed.

Lemma broadcastM_same_length {A B C : Type} (f : A -> B -> result C)
      (la : list A) (lb : list B) :
  length la = length lb -> broadcastM f la lb = zipWithM f la lb.
Proof.
  intros H. unfold broadcastM. rewrite H, Nat.eqb_refl. reflexivity.
Qed.

Lemma broadcastM_Forall2 {A B C : Type} (f : A -> B -> result C) (g : A -> B -> C)
      (la : list A) (lb : list B) :
  Forall2 (fun a b => f a b = Ok (g a b)) la lb ->
  broadcastM f la lb = Ok (map2 g la lb).
Proof.
  intros H. rewrite broadcastM_same_length.
  - apply zipWithM_Forall2. exact H.
  - apply (Forall2_same_length _ _ _ H).
Qed.

Lemma broadcastM_total {A B C : Type} (f : A -> B -> result C) (g : A -> B -> C)
      (la : list A) (lb : list B) :
  length la = length lb ->
  (forall a b, In (a, b) (combine la lb) -> f a b = Ok (g a b)) ->
  broadcastM f la lb = Ok (map2 g la lb).
Proof.
  intros H Hf. rewrite broadcastM_same_length by exact H.
  apply zipWithM_total; assumption.
Qed.

Lemma map2_length {A B C : Type} (f : A -> B -> C) (la : list A) (lb : list B) :
  length la = length lb -> length (map2 f la lb) = length la.
Proof.
  revert lb. induction la as [| a la IH]; intros [| b lb] H; simpl in *;
    try discriminate; [reflexivity |].
  rewrite IH; [reflexivity | lia].
Qed.

(** ** [nn.Linear] *)

Lemma matvec_length (w : list (list R)) (x : list R) :
  length (matvec w x) = length w.
Proof. unfold matvec. apply length_map. Qed.

Lemma affine_length (l : Linear) (x : list R) :
  Linear_wf l = true -> length (affine l x) = out_features l.
Proof.
  unfold Linear_wf, affine. intros H.
  apply andb_prop in H. destruct H as [H Hb].
  apply andb_prop in H. destruct H as [Hw _].
  apply Nat.eqb_eq in Hw.
  destruct (bias l) as [b |].
  - apply Nat.eqb_eq in Hb. unfold vadd.
    rewrite map2_length; rewrite matvec_length; lia.
  - rewrite matvec_length. exact Hw.
Qed.

Lemma linear_Ok (l : Linear) (x : list R) :
  length x = in_features l -> linear l x = Ok (affine l x).
Proof.
  intros H. unfold linear. rewrite H, Nat.eqb_refl. reflexivity.
Qed.

Lemma linear_Ok_inv (l : Linear) (x y : list R) :
  linear l x = Ok y -> length x = in_features l /\ y = affine l x.
Proof.
  unfold linear. destruct (length x =? in_features l)%nat eqn:E; [| discriminate].
  intros H. injection H as <-. apply Nat.eqb_eq in E. split; [exact E | reflexivity].
Qed.

(** ** [AttentionWithContext] *)

Section Attention.

Import AttentionWithContext.

Variable m : AttentionWithContext.t.
Hypothesis m_wf : wf m = true.

Lemma wf_parts :
  Linear_wf (W m) = true /\ Linear_wf (u m) = true
  /\ in_features (W m) = input_shape m /\ out_features (W m) = input_shape m
  /\ in_features (u m) = input_shape m /\ out_features (u m) = 1%nat.
Proof.
  pose proof m_wf as H. unfold wf in H.
  apply andb_prop in H. destruct H as [H H6]. apply Nat.eqb_eq in H6.
  apply andb_prop in H. destruct H as [H H5]. apply Nat.eqb_eq in H5.
  apply andb_prop in H. destruct H as [H H4]. apply Nat.eqb_eq in H4.
  apply andb_prop in H. destruct H as [H H3]. apply Nat.eqb_eq in H3.
  apply andb_prop in H. destruct H as [H1 H2].
  repeat split; assumption.
Qed.

Lemma step_score (r : list R) :
  length r = input_shape m ->
  (s <- linear (u m) (map tanh (affine (W m) r)) ;; unit_axis s)
  = Ok (hd 0 (affine (u m) (map tanh (affine (W m) r)))).
Proof.
  destruct wf_parts as (HW & Hu & HWi & HWo & Hui & Huo).
  intros Hr. rewrite linear_Ok.
  2:{ rewrite length_map, affine_length by exact HW. lia. }
  simpl.
  pose proof (affine_length (u m) (map tanh (affine (W m) r)) Hu) as Hlen.
  rewrite Huo in Hlen.
  destruct (affine (u m) (map tanh (affine (W m) r))) as [| s [| ? ?]];
    simpl in Hlen; try discriminate.
  reflexivity.
Qed.

Lemma exp_scores_wf (x : list (list (list R))) :
  Forall (Forall (fun r => length r = input_shape m)) x ->
  exp_scores m x = Ok (map (map (score m)) x).
Proof.
  destruct wf_parts as (HW & Hu & HWi & HWo & Hui & Huo).
  intros Hx. unfold exp_scores.
  rewrite (mapM_total _ (map (affine (W m)))).
  2:{ intros xs Hin. apply mapM_total. intros r Hr.
      apply linear_Ok. rewrite Forall_forall in Hx.
      specialize (Hx xs Hin). rewrite Forall_forall in Hx.
      rewrite (Hx r Hr). symmetry. exact HWi. }
  simpl.
  rewrite (mapM_total _ (map (fun r => hd 0 (affine (u m) r)))).
  2:{ intros us Hin. apply mapM_total. intros r Hr.
      apply in_map_iff in Hin. destruct Hin as (us' & <- & Hin).
      apply in_map_iff in Hin. destruct Hin as (xs & <- & Hin).
      rewrite map_map in Hr. apply in_map_iff in Hr.
      destruct Hr as (r0 & <- & Hr0).
      apply step_score. rewrite Forall_forall in Hx.
      specialize (Hx xs Hin). rewrite Forall_forall in Hx. apply Hx. exact Hr0. }
  simpl. f_equal. rewrite !map_map. apply map_ext. intros xs.
  rewrite !map_map. reflexivity.
Qed.

End Attention.

(** *** Real-number facts used for the normalisation *)

Lemma div_le_iff (a b c : R) : 0 < c -> (a / c <= b <-> a <= b * c).
Proof.
  intros Hc. split; intros H.
  - replace a with (a / c * c) by (field; lra).
    apply Rmult_le_compat_r; lra.
  - replace b with (b * c / c) by (field; lra).
    unfold Rdiv. apply Rmult_le_compat_r; [| exact H].
    apply Rlt_le, Rinv_0_lt_compat, Hc.
Qed.

Lemma tanh_1_lower : 3 / 5 <= tanh 1.
Proof.
  unfold tanh, sinh, cosh. rewrite exp_Ropp.
  pose proof (exp_ineq1 1 ltac:(lra)) as He.
  set (e := exp 1) in *.
  assert (He0 : 0 < e) by lra.
  assert (Hi : 0 < / e) by (apply Rinv_0_lt_compat; lra).
  assert (Hie : e * / e = 1) by (apply Rinv_r; lra).
  assert (Hd : 0 < (e + / e) / 2) by lra.
  apply Rnot_lt_le. intros Hlt.
  apply Rlt_le in Hlt. apply (proj1 (div_le_iff _ _ _ Hd)) in Hlt.
  assert (H2 : 2 * e <= 8 * / e) by lra.
  assert (H3 : 2 * e * e <= 8 * (e * / e)) by nra.
  nra.
Qed.

Lemma exp_12_lower : 4096 < exp 12.
Proof.
  pose proof (exp_ineq1 1 ltac:(lra)) as He.
  replace 12 with ((1 + 1 + 1) + (1 + 1 + 1) + ((1 + 1 + 1) + (1 + 1 + 1))) by lra.
  rewrite !exp_plus. set (e := exp 1) in *.
  assert (4 < e * e) by nra.
  assert (8 < e * e * e) by nra.
  assert (64 < (e * e * e) * (e * e * e)) by nra.
  nra.
Qed.

(** With [S] the sum of the surviving scores, the coefficients sum to
    [S / (S + eps)]: the distance to 1 is [eps / (S + eps)]. *)
Lemma normalized_sum_bound (S : R) :
  0 < S ->
  Rabs (S / (S + AttentionWithContext.eps) - 1) <= 1e-6 <-> 1e-3 - 1e-9 <= S.
Proof.
  unfold AttentionWithContext.eps. intros HS.
  replace (S / (S + 1e-9) - 1) with (- (1e-9 / (S + 1e-9))) by (field; lra).
  rewrite Rabs_Ropp, Rabs_pos_eq.
  2:{ apply Rlt_le, Rdiv_lt_0_compat; lra. }
  rewrite div_le_iff by lra. split; intros H; lra.
Qed.

Lemma Rsum_nonneg (l : list R) : Forall (fun v => 0 <= v) l -> 0 <= Rsum l.
Proof.
  induction 1 as [| v l Hv _ IH]; simpl; lra.
Qed.

Lemma Rsum_map_div (d : R) (l : list R) :
  Rsum (map (fun v => v / d) l) = Rsum l / d.
Proof.
  induction l as [| v l IH]; simpl.
  - unfold Rdiv. ring.
  - rewrite IH. unfold Rdiv. ring.
Qed.

(** *** Masking, normalisation and pooling, step by step *)

Section AttentionPooling.

Import AttentionWithContext.

Let mul (v : R) (z : Z) : R := v * IZR z.

Lemma apply_mask_Some (a : list (list R)) (mask : list (list Z)) :
  Forall2 (fun row ms => length row = length ms) a mask ->
  apply_mask a (Some mask) = Ok (map2 (map2 mul) a mask).
Proof.
  intros H. unfold apply_mask. apply broadcastM_Forall2.
  eapply Forall2_impl; [| exact H].
  intros row ms Hlen. simpl in Hlen.
  apply broadcastM_total; [exact Hlen | reflexivity].
Qed.

Lemma masked_nonneg (row : list R) (ms : list Z) :
  Forall (fun v => 0 < v) row ->
  Forall (fun z => z = 0 \/ z = 1)%Z ms ->
  Forall (fun v => 0 <= v) (map2 mul row ms).
Proof.
  intros Hrow. revert ms.
  induction Hrow as [| v row Hv _ IH]; intros [| z ms] Hms; simpl;
    try constructor.
  - inversion Hms as [| ? ? Hz _]; subst. unfold mul.
    destruct Hz as [-> | ->]; simpl; lra.
  - apply IH. inversion Hms; assumption.
Qed.

Lemma masked_sum_pos (row : list R) (ms : list Z) :
  length row = length ms ->
  Forall (fun v => 0 < v) row ->
  Forall (fun z => z = 0 \/ z = 1)%Z ms ->
  Exists (fun z => z = 1%Z) ms ->
  0 < Rsum (map2 mul row ms).
Proof.
  intros Hlen Hrow. revert ms Hlen.
  induction Hrow as [| v row Hv Hrow IH]; intros [| z ms] Hlen Hms Hex;
    simpl in *; try discriminate.
  - inversion Hex.
  - inversion Hms as [| ? ? Hz Hms']; subst.
    pose proof (Rsum_nonneg _ (masked_nonneg _ _ Hrow Hms')) as Hrest.
    inversion Hex as [? ? H1 | ? ? Hex']; subst.
    + unfold mul at 1. simpl. lra.
    + assert (0 < Rsum (map2 mul row ms)) by (apply IH; [lia | assumption ..]).
      unfold mul at 1. destruct Hz as [-> | ->]; simpl; lra.
Qed.

(** The coefficients of one sample, from its masked scores [row]. *)
Lemma coefficients_of_row (row : list R) :
  Forall (fun v => 0 <= v) row ->
  0 < Rsum row ->
  let coeffs := map (fun v => v / (Rsum row + eps)) row in
  Forall (fun c => 0 <= c) coeffs
  /\ Rsum coeffs = Rsum row / (Rsum row + eps)
  /\ 0 < Rsum coeffs < 1
  /\ (Rabs (Rsum coeffs - 1) <= 1e-6 <-> 1e-3 - 1e-9 <= Rsum row).
Proof.
  intros Hrow HS coeffs.
  assert (Heps : 0 < eps) by (unfold eps; lra).
  assert (Hsum : Rsum coeffs = Rsum row / (Rsum row + eps))
    by apply Rsum_map_div.
  repeat split.
  - unfold coeffs. apply Forall_map.
    eapply Forall_impl; [| exact Hrow].
    intros v Hv. simpl. apply Rle_mult_inv_pos; lra.
  - exact Hsum.
  - rewrite Hsum. apply Rdiv_lt_0_compat; lra.
  - rewrite Hsum. apply Rnot_le_lt. intros H.
    apply Rle_ge in H. apply Rge_le in H.
    assert (H' : Rsum row / (Rsum row + eps) <= 1 -> False).
    { intros _.
      assert (Hd : 1 * (Rsum row + eps) <= Rsum row).
      { replace (Rsum row) with (Rsum row / (Rsum row + eps) * (Rsum row + eps)) at 2
          by (field; lra).
        apply Rmult_le_compat_r; lra. }
      lra. }
    apply H'. apply div_le_iff; lra.
  - rewrite Hsum. apply (proj1 (normalized_sum_bound _ HS)).
  - rewrite Hsum. apply (proj2 (normalized_sum_bound _ HS)).
Qed.

Lemma weighted_input_total (d : nat) (a : list (list R)) (x : list (list (list R))) :
  Forall2 (fun arow xs => length arow = length xs) a x ->
  weighted_input d a x
  = Ok (map2 (fun arow xs => vsum d (map2 vscale arow xs)) a x).
Proof.
  intros H. unfold weighted_input. apply broadcastM_Forall2.
  eapply Forall2_impl; [| exact H].
  intros arow xs Hlen. simpl in Hlen.
  rewrite (broadcastM_total _ vscale); [reflexivity | exact Hlen |].
  reflexivity.
Qed.

End AttentionPooling.

Lemma Forall_map2 {A B C : Type} (P : C -> Prop) (f : A -> B -> C)
      (la : list A) (lb : list B) :
  Forall2 (fun a b => P (f a b)) la lb -> Forall P (map2 f la lb).
Proof.
  induction 1; simpl; constructor; assumption.
Qed.

Section AttentionClaims.

Import AttentionWithContext.

Variable m : AttentionWithContext.t.
Hypothesis m_wf : wf m = true.

Lemma scores_mask_shape (x : list (list (list R))) (mask : list (list Z)) :
  Forall2 (fun xs ms => length xs = length ms) x mask ->
  Forall2 (fun row ms => length row = length ms) (map (map (score m)) x) mask.
Proof.
  induction 1 as [| xs ms x' mask' H _ IH]; simpl; constructor.
  - rewrite length_map. exact H.
  - exact IH.
Qed.

Lemma masked_shape (x : list (list (list R))) (mask : list (list Z)) :
  Forall2 (fun xs ms => length xs = length ms) x mask ->
  Forall2 (fun arow xs => length arow = length xs)
          (normalize (masked_scores m x mask)) x.
Proof.
  unfold masked_scores, normalize.
  induction 1 as [| xs ms x' mask' H _ IH]; simpl; constructor.
  - rewrite length_map, map2_length; rewrite length_map; [reflexivity | exact H].
  - exact IH.
Qed.

Lemma masked_scores_eq (x : list (list (list R))) (mask : list (list Z)) :
  Forall (Forall (fun r => length r = input_shape m)) x ->
  Forall2 (fun xs ms => length xs = length ms) x mask ->
  (a <- exp_scores m x ;; apply_mask a (Some mask)) = Ok (masked_scores m x mask).
Proof.
  intros Hx Hm. rewrite (exp_scores_wf _ m_wf _ Hx). simpl.
  apply apply_mask_Some. apply scores_mask_shape. exact Hm.
Qed.

Lemma forward_masked (x : list (list (list R))) (mask : list (list Z)) :
  Forall (Forall (fun r => length r = input_shape m)) x ->
  Forall2 (fun xs ms => length xs = length ms) x mask ->
  forward m x (Some mask)
  = Ok (map2 (fun arow xs => vsum (in_features (W m)) (map2 vscale arow xs))
             (normalize (masked_scores m x mask)) x,
        if return_coefficients m
        then Some (normalize (masked_scores m x mask)) else None).
Proof.
  intros Hx Hm. unfold forward.
  pose proof (masked_scores_eq x mask Hx Hm) as H.
  destruct (exp_scores m x) as [e | a0]; simpl in H; [discriminate |].
  simpl. rewrite H. simpl.
  rewrite (weighted_input_total _ _ _ (masked_shape x mask Hm)). simpl.
  destruct (return_coefficients m); reflexivity.
Qed.

Lemma masked_rows_valid (x : list (list (list R))) (mask : list (list Z)) :
  Forall2 (fun xs ms => length xs = length ms) x mask ->
  Forall (Forall (fun z => z = 0 \/ z = 1)%Z) mask ->
  Forall (Exists (fun z => z = 1%Z)) mask ->
  Forall (fun row => Forall (fun v => 0 <= v) row /\ 0 < Rsum row)
         (masked_scores m x mask).
Proof.
  intros Hm H01 Hex. unfold masked_scores. apply Forall_map2.
  induction Hm as [| xs ms x' mask' Hlen _ IH]; simpl; constructor.
  - inversion H01; inversion Hex; subst.
    assert (Hpos : Forall (fun v => 0 < v) (map (score m) xs)).
    { apply Forall_map. apply Forall_forall. intros r _. apply exp_pos. }
    split.
    + apply masked_nonneg; assumption.
    + apply masked_sum_pos; [rewrite length_map; exact Hlen | assumption ..].
  - apply IH; [inversion H01 | inversion Hex]; assumption.
Qed.

End AttentionClaims.

Lemma exp_le (a b : R) : a <= b -> exp a <= exp b.
Proof.
  intros [H | ->]; [apply Rlt_le, exp_increasing, H | apply Rle_refl].
Qed.

(** With one feature, [W = 1], no offset and scoring weight -20, the single
    valid step of the input [1] has score [exp (-20 * tanh 1)], below
    1/4096: the only coefficient is well under [1 - 1e-6]. *)
Lemma steep_score_small :
  AttentionWithContext.score Examples.att_steep [1] < / 4096.
Proof.
  unfold AttentionWithContext.score, Examples.att_steep,
    AttentionWithContext.init, affine, matvec, vadd. simpl.
  replace (1 * 1 + 0 + 0) with 1 by ring.
  pose proof tanh_1_lower as Ht. pose proof exp_12_lower as He.
  apply Rle_lt_trans with (exp (Ropp 12)).
  - apply exp_le. lra.
  - rewrite exp_Ropp. apply Rinv_lt_contravar; [| exact He].
    apply Rmult_lt_0_compat; lra.
Qed.

Lemma attention_sum_counterexample :
  Forall (Exists (fun z => z = 1%Z)) Examples.att_mask
  /\ exists pooled coeffs,
      AttentionWithContext.forward Examples.att_steep Examples.att_x
                                   (Some Examples.att_mask)
      = Ok (pooled, Some coeffs)
      /\ ~ Forall (fun row => Forall (fun c => 0 <= c) row
                              /\ Rabs (Rsum row - 1) <= 1e-6) coeffs.
Proof.
  split.
  { repeat constructor. }
  eexists. eexists. split.
  - rewrite (forward_masked Examples.att_steep eq_refl);
      [reflexivity | repeat constructor ..].
  - intros H. inversion H as [| row rows [_ Hsum] _]; subst. clear H.
    pose proof steep_score_small as Hs.
    pose proof (exp_pos (hd 0 (affine (AttentionWithContext.u Examples.att_steep)
                                 (map tanh (affine (AttentionWithContext.W Examples.att_steep) [1])))))
      as Hp.
    fold (AttentionWithContext.score Examples.att_steep [1]) in Hp.
    set (s := AttentionWithContext.score Examples.att_steep [1]) in *.
    simpl in Hsum. fold s in Hsum.
    replace (s * 1 / (s * 1 + 0 + AttentionWithContext.eps) + 0 - 1)
      with (s / (s + AttentionWithContext.eps) - 1) in Hsum
      by (unfold AttentionWithContext.eps; field; lra).
    apply normalized_sum_bound in Hsum; [| exact Hp].
    assert (/ 4096 < 1e-3 - 1e-9) by lra.
    lra.
Qed.

(** ** [NontextualNetwork] *)

Lemma firstn_skipn_19 (row : list R) :
  length row = 19%nat ->
  length (firstn 10 row) = 10%nat /\ length (skipn 10 row) = 9%nat.
Proof.
  intros H. rewrite length_firstn, length_skipn, H. split; reflexivity.
Qed.

Lemma nontextual_wf_parts (m : NontextualNetwork.t) :
  NontextualNetwork.wf m = true ->
  Linear_wf (NontextualNetwork.category_embedding m) = true
  /\ in_features (NontextualNetwork.category_embedding m) = 9%nat
  /\ out_features (NontextualNetwork.category_embedding m)
     = (NontextualNetwork.input_channels m - 1)%nat
  /\ (1 <= NontextualNetwork.input_channels m)%nat.
Proof.
  unfold NontextualNetwork.wf. intros H.
  apply andb_prop in H. destruct H as [H H4]. apply Nat.leb_le in H4.
  apply andb_prop in H. destruct H as [H H3]. apply Nat.eqb_eq in H3.
  apply andb_prop in H. destruct H as [H1 H2]. apply Nat.eqb_eq in H2.
  repeat split; assumption.
Qed.

Lemma zipWithM_map_l {A A' B C : Type} (f : A' -> B -> result C) (g : A -> A')
      (la : list A) (lb : list B) :
  zipWithM f (map g la) lb = zipWithM (fun a b => f (g a) b) la lb.
Proof.
  revert lb. induction la as [| a la IH]; intros [| b lb]; simpl;
    try reflexivity.
  rewrite IH. reflexivity.
Qed.

Lemma zipWithM_map_r {A B B' C : Type} (f : A -> B' -> result C) (g : B -> B')
      (la : list A) (lb : list B) :
  zipWithM f la (map g lb) = zipWithM (fun a b => f a (g b)) la lb.
Proof.
  revert lb. induction la as [| a la IH]; intros [| b lb]; simpl;
    try reflexivity.
  rewrite IH. reflexivity.
Qed.

Lemma zipWithM_diag {A C : Type} (f : A -> A -> result C) (l : list A) :
  zipWithM f l l = mapM (fun a => f a a) l.
Proof.
  induction l as [| a l IH]; simpl; [reflexivity | rewrite IH; reflexivity].
Qed.

Lemma mapM_map {A A' B : Type} (f : A' -> result B) (g : A -> A') (l : list A) :
  mapM f (map g l) = mapM (fun a => f (g a)) l.
Proof.
  induction l as [| a l IH]; simpl; [reflexivity | rewrite IH; reflexivity].
Qed.

Lemma mapM_bind_Ok {A B C : Type} (f : A -> B) (g : B -> result C) (l : list A) :
  (bs <- mapM (fun a => Ok (f a)) l ;; mapM g bs) = mapM (fun a => g (f a)) l.
Proof.
  rewrite (mapM_total _ f) by reflexivity. simpl. apply mapM_map.
Qed.

Opaque firstn skipn.

(** A batch whose rows all have 19 entries is processed row by row. *)
Lemma nontextual_forward_rows (m : NontextualNetwork.t) (x : list (list R)) :
  NontextualNetwork.wf m = true ->
  Forall (fun row => length row = 19%nat) x ->
  NontextualNetwork.forward m (Some x)
  = mapM (fun row => NontextualNetwork.cnn m (NontextualNetwork.channels m row)) x.
Proof.
  intros Hwf Hx. destruct (nontextual_wf_parts m Hwf) as (_ & Hin & _ & _).
  unfold NontextualNetwork.forward. simpl.
  rewrite mapM_map.
  rewrite (mapM_total _ (fun row => affine (NontextualNetwork.category_embedding m)
                                      (skipn 10 row))).
  2:{ intros row Hrow. apply linear_Ok. rewrite Forall_forall in Hx.
      rewrite (proj2 (firstn_skipn_19 row (Hx row Hrow))). symmetry. exact Hin. }
  simpl.
  assert (Hsize : x <> [] -> CorpusEncoder03.size1 (map (firstn 10) x) = 10%nat).
  { destruct x as [| row x']; [congruence |]. intros _. simpl.
    inversion Hx; subst. apply firstn_skipn_19. assumption. }
  destruct x as [| row0 x0]; [reflexivity |].
  rewrite (Hsize ltac:(discriminate)). clear Hsize.
  rewrite !map_map, zipWithM_map_l, zipWithM_map_r, zipWithM_diag.
  rewrite (mapM_bind_Ok (fun a => map (fun c => repeat c 10)
                                     (affine (NontextualNetwork.category_embedding m)
                                             (skipn 10 a)) ++ [firstn 10 a])).
  reflexivity.
Qed.

Lemma Forall2_In_l {A B : Type} (R : A -> B -> Prop) (la : list A) (lb : list B)
      (a : A) :
  Forall2 R la lb -> In a la -> exists b, In b lb /\ R a b.
Proof.
  induction 1 as [| a' b' la lb Hab _ IH]; intros Hin; [contradiction |].
  destruct Hin as [<- | Hin].
  - exists b'. split; [left; reflexivity | exact Hab].
  - destruct (IH Hin) as (b & Hb & HR). exists b. split; [right |]; assumption.
Qed.

Lemma Forall2_In_r {A B : Type} (R : A -> B -> Prop) (la : list A) (lb : list B)
      (b : B) :
  Forall2 R la lb -> In b lb -> exists a, In a la /\ R a b.
Proof.
  induction 1 as [| a' b' la lb Hab _ IH]; intros Hin; [contradiction |].
  destruct Hin as [<- | Hin].
  - exists a'. split; [left; reflexivity | exact Hab].
  - destruct (IH Hin) as (a & Ha & HR). exists a. split; [right |]; assumption.
Qed.

Lemma nontextual_forward_only_19 (m : NontextualNetwork.t) (x : list (list R))
      (out : list (list (list R))) :
  NontextualNetwork.wf m = true ->
  NontextualNetwork.forward m (Some x) = Ok out ->
  Forall (fun row => length row = 19%nat) x.
Proof.
  intros Hwf H. destruct (nontextual_wf_parts m Hwf) as (_ & Hin & _ & _).
  unfold NontextualNetwork.forward in H. simpl in H.
  apply bind_Ok in H. destruct H as (cat & Hcat & _).
  rewrite mapM_map in Hcat. apply mapM_Ok in Hcat.
  apply Forall_forall. intros row Hrow.
  destruct (Forall2_In_l _ _ _ _ Hcat Hrow) as (c & _ & Hc).
  apply linear_Ok_inv in Hc. destruct Hc as [Hlen _].
  rewrite Hin, length_skipn in Hlen. lia.
Qed.

Lemma channels_shape (m : NontextualNetwork.t) (row : list R) :
  NontextualNetwork.wf m = true ->
  length row = 19%nat ->
  length (NontextualNetwork.channels m row) = NontextualNetwork.input_channels m
  /\ Forall (fun ch => length ch = 10%nat) (NontextualNetwork.channels m row)
  /\ last (NontextualNetwork.channels m row) [] = firstn 10 row.
Proof.
  intros Hwf Hrow.
  destruct (nontextual_wf_parts m Hwf) as (Hl & _ & Hout & Hge).
  unfold NontextualNetwork.channels. repeat split.
  - rewrite length_app, length_map, affine_length by exact Hl. simpl. lia.
  - apply Forall_app. split.
    + apply Forall_map. apply Forall_forall. intros c _. apply repeat_length.
    + constructor; [| constructor]. apply firstn_skipn_19. exact Hrow.
  - apply last_last.
Qed.

(** C8 (amended). The network accepts exactly the rows of 19 entries: the
    first 10 are the time series, the 9 others are embedded to
    [input_channels - 1] values, each repeated over the 10 positions and
    stacked before the series into [input_channels] channels, on which the
    convolutional extractor runs; a row of any other length makes the call
    fail.  When the extractor maps [input_channels] channels of 10
    positions to 10 steps of width [output_dim], so does the network. *)
Theorem nontextual_network_rows_of_19
        (m : NontextualNetwork.t) (x : list (list R)) :
  NontextualNetwork.wf m = true ->
  (forall out, NontextualNetwork.forward m (Some x) = Ok out ->
               Forall (fun row => length row = 19%nat) x)
  /\ (Forall (fun row => length row = 19%nat) x ->
      NontextualNetwork.forward m (Some x)
      = mapM (fun row => NontextualNetwork.cnn m (NontextualNetwork.channels m row)) x
      /\ Forall (fun row =>
                   length (NontextualNetwork.channels m row)
                   = NontextualNetwork.input_channels m
                   /\ Forall (fun ch => length ch = 10%nat)
                             (NontextualNetwork.channels m row)
                   /\ last (NontextualNetwork.channels m row) [] = firstn 10 row) x
      /\ ((forall chans o,
              length chans = NontextualNetwork.input_channels m ->
              Forall (fun ch => length ch = 10%nat) chans ->
              NontextualNetwork.cnn m chans = Ok o ->
              length o = 10%nat
              /\ Forall (fun e => length e = NontextualNetwork.output_dim m) o) ->
          forall out, NontextualNetwork.forward m (Some x) = Ok out ->
                      length out = length x
                      /\ Forall (fun s =>
                                   length s = 10%nat
                                   /\ Forall (fun e => length e
                                                       = NontextualNetwork.output_dim m) s)
                                out)).
Proof.
  intros Hwf. split.
  - intros out. apply nontextual_forward_only_19. exact Hwf.
  - intros Hx. split; [| split].
    + apply nontextual_forward_rows; assumption.
    + eapply Forall_impl; [| exact Hx].
      intros row Hrow. apply channels_shape; assumption.
    + intros Hcnn out Hout.
      rewrite (nontextual_forward_rows m x Hwf Hx) in Hout.
      split; [apply (mapM_length _ _ _ Hout) |].
      apply mapM_Ok in Hout.
      apply Forall_forall. intros s Hs.
      destruct (Forall2_In_r _ _ _ _ Hout Hs) as (row & Hrow & Hc).
      rewrite Forall_forall in Hx.
      destruct (channels_shape m row Hwf (Hx row Hrow)) as (H1 & H2 & _).
      apply (Hcnn _ _ H1 H2 Hc).
Qed.

Transparent firstn skipn.

(** A row of 20 entries is rejected by the 9-input category embedding. *)
Lemma nontextual_row20_counterexample :
  (19 <= length Examples.row20)%nat
  /\ NontextualNetwork.wf Examples.nontext_net = true
  /\ NontextualNetwork.forward Examples.nontext_net (Some [Examples.row20])
     = Raise RuntimeError.
Proof.
  split; [simpl; lia |]. split; reflexivity.
Qed.

Lemma nontextual_network_rows_of_19_witness :
  NontextualNetwork.forward Examples.nontext_net (Some [Examples.row19])
  = mapM (fun row => NontextualNetwork.cnn Examples.nontext_net
                       (NontextualNetwork.channels Examples.nontext_net row))
         [Examples.row19].
Proof.
  apply (nontextual_network_rows_of_19 Examples.nontext_net [Examples.row19]).
  - reflexivity.
  - repeat constructor.
Defined.

Lemma head_both_absent_raises_witness :
  ClassificationHead.forward Examples.head_small None None
  = Raise (ValueError "Both entries are None.").
Proof.
  apply (head_both_absent_raises Examples.head_small None None);
    left; reflexivity.
Defined.

(** ** [ClassificationHead]: one modality absent, both present *)

Lemma orb_absent {A : Type} (x : option A) (d : nat) :
  x = None \/ d = 0%nat -> is_None x || (d =? 0)%nat = true.
Proof.
  intros [-> | ->]; [reflexivity | apply orb_true_r].
Qed.

Lemma orb_present {A : Type} (a : A) (d : nat) :
  d <> 0%nat -> is_None (Some a) || (d =? 0)%nat = false.
Proof.
  intros H. simpl. apply Nat.eqb_neq. exact H.
Qed.

Lemma head_corpus_absent (h : ClassificationHead.t)
      (x_corpus : option (list (list R))) (x_nontext : list (list (list R))) :
  x_corpus = None \/ ClassificationHead.corpus_emb_dim h = 0%nat ->
  ClassificationHead.nontext_dim h <> 0%nat ->
  ClassificationHead.forward h x_corpus (Some x_nontext)
  = (out <- mapM (mapM (ClassificationHead.mlp h)) x_nontext ;;
     Ok (concat (concat out))).
Proof.
  intros Hc Hn. unfold ClassificationHead.forward.
  rewrite (orb_absent _ _ Hc), (orb_present x_nontext _ Hn).
  unfold ClassificationHead.mlp_call. simpl.
  destruct (mapM (mapM (ClassificationHead.mlp h)) x_nontext); reflexivity.
Qed.

Lemma head_nontext_absent (h : ClassificationHead.t)
      (x_corpus : list (list R)) (x_nontext : option (list (list (list R)))) :
  x_nontext = None \/ ClassificationHead.nontext_dim h = 0%nat ->
  ClassificationHead.corpus_emb_dim h <> 0%nat ->
  ClassificationHead.forward h (Some x_corpus) x_nontext
  = (out <- mapM (ClassificationHead.mlp h) x_corpus ;; Ok (concat out)).
Proof.
  intros Hn Hc. unfold ClassificationHead.forward.
  rewrite (orb_absent _ _ Hn), (orb_present x_corpus _ Hc).
  unfold ClassificationHead.mlp_call. simpl.
  destruct (mapM (ClassificationHead.mlp h) x_corpus); reflexivity.
Qed.

Lemma head_both_present (h : ClassificationHead.t)
      (x_corpus : list (list R)) (x_nontext : list (list (list R))) :
  ClassificationHead.corpus_emb_dim h <> 0%nat ->
  ClassificationHead.nontext_dim h <> 0%nat ->
  ClassificationHead.forward h (Some x_corpus) (Some x_nontext)
  = (q <- mapM (linear (ClassificationHead.proj h)) x_corpus ;;
     v <- zipWithM (ClassificationHead.vector_attention h) x_nontext q ;;
     out <- mapM (ClassificationHead.mlp h) v ;;
     Ok (concat out)).
Proof.
  intros Hc Hn. unfold ClassificationHead.forward.
  rewrite (orb_present x_corpus _ Hc), (orb_present x_nontext _ Hn).
  unfold ClassificationHead.mlp_call. simpl.
  destruct (mapM (linear (ClassificationHead.proj h)) x_corpus) as [e | q];
    simpl; [reflexivity |].
  destruct (zipWithM (ClassificationHead.vector_attention h) x_nontext q)
    as [e | v]; simpl; [reflexivity |].
  destruct (mapM (ClassificationHead.mlp h) v); reflexivity.
Qed.

Lemma concat_singletons {A : Type} (l : list (list A)) :
  Forall (fun o => length o = 1%nat) l -> length (concat l) = length l.
Proof.
  induction 1 as [| o l Ho _ IH]; simpl; [reflexivity |].
  rewrite length_app, Ho, IH. reflexivity.
Qed.

(** C9. With both modalities present, the head first applies [proj], a
    matrix product without offset from width [corpus_emb_dim] to width
    [nontext_dim], then calls the vector attention with the nontextual
    sequence and the projected embedding as query vector, then the MLP;
    when the MLP has one output feature the result has one scalar per
    sample. *)
Theorem head_projects_then_attends
        (cdim ndim : nat)
        (mlp : list R -> result (list R))
        (va : list (list R) -> list R -> result (list R))
        (w : list (list R))
        (x_corpus : list (list R)) (x_nontext : list (list (list R))) :
  cdim <> 0%nat -> ndim <> 0%nat -> length w = ndim ->
  let h := ClassificationHead.init cdim ndim mlp va w in
  bias (ClassificationHead.proj h) = None
  /\ (forall c, length c = cdim ->
                linear (ClassificationHead.proj h) c = Ok (matvec w c)
                /\ length (matvec w c) = ndim)
  /\ ClassificationHead.forward h (Some x_corpus) (Some x_nontext)
     = (q <- mapM (linear (ClassificationHead.proj h)) x_corpus ;;
        v <- zipWithM va x_nontext q ;;
        out <- mapM mlp v ;;
        Ok (concat out))
  /\ ((forall v o, mlp v = Ok o -> length o = 1%nat) ->
      forall out,
        ClassificationHead.forward h (Some x_corpus) (Some x_nontext) = Ok out ->
        length out = length x_corpus /\ length out = length x_nontext).
Proof.
  intros Hc Hn Hw h.
  assert (Hfwd : ClassificationHead.forward h (Some x_corpus) (Some x_nontext)
                 = (q <- mapM (linear (ClassificationHead.proj h)) x_corpus ;;
                    v <- zipWithM va x_nontext q ;;
                    out <- mapM mlp v ;;
                    Ok (concat out)))
    by (apply (head_both_present h); assumption).
  split; [reflexivity |]. split; [| split].
  - intros c Hlen. split.
    + apply (linear_Ok (ClassificationHead.proj h)). exact Hlen.
    + rewrite matvec_length. exact Hw.
  - exact Hfwd.
  - intros Hmlp out Hout. rewrite Hfwd in Hout.
    apply bind_Ok in Hout. destruct Hout as (q & Hq & Hout).
    apply bind_Ok in Hout. destruct Hout as (v & Hv & Hout).
    apply bind_Ok in Hout. destruct Hout as (outs & Houts & Hout).
    injection Hout as <-.
    apply mapM_length in Hq. apply zipWithM_length in Hv.
    pose proof (mapM_length _ _ _ Houts) as Hlen.
    assert (H1 : Forall (fun o => length o = 1%nat) outs).
    { apply mapM_Ok in Houts. apply Forall_forall. intros o Ho.
      destruct (Forall2_In_r _ _ _ _ Houts Ho) as (v0 & _ & Hv0).
      apply (Hmlp _ _ Hv0). }
    rewrite (concat_singletons _ H1). lia.
Qed.

Lemma head_projects_then_attends_witness :
  ClassificationHead.forward Examples.head_small
    (Some Examples.corpus_small) (Some Examples.nontext_small)
  = (q <- mapM (linear (ClassificationHead.proj Examples.head_small))
               Examples.corpus_small ;;
     v <- zipWithM Examples.attention_stub Examples.nontext_small q ;;
     out <- mapM (Examples.mlp_stub 3) v ;;
     Ok (concat out)).
Proof.
  apply (head_projects_then_attends
           2 3 (Examples.mlp_stub 3) Examples.attention_stub
           [[1; 0]; [0; 1]; [1; 1]]
           Examples.corpus_small Examples.nontext_small).
  - discriminate.
  - discriminate.
  - reflexivity.
Defined.

(** ** One modality absent *)

(** C5 (amended). In the head, when exactly one modality is absent the
    tensor of the other one is handed to the MLP as it is, without
    projection and without attention, and the flattened answer of the MLP
    is returned.  At the top level the corpus modality is absent when
    [method] is [None]: the output of the nontextual network then goes to
    the head alone.  The nontextual input cannot be [None] at the top
    level: the nontextual network runs first and raises [TypeError]. *)
Theorem one_modality_absent
        (m : MyModel.t) (keep : nat -> nat -> nat -> bool)
        (x_text : list (list (list (list Z))))
        (x_masks : list (option (list (list (list Z)))))
        (h : ClassificationHead.t)
        (x_corpus : list (list R)) (x_nontext : list (list (list R)))
        (absent_corpus : option (list (list R)))
        (absent_nontext : option (list (list (list R))))
        (x : list (list R)) :
  (absent_corpus = None \/ ClassificationHead.corpus_emb_dim h = 0%nat ->
   ClassificationHead.nontext_dim h <> 0%nat ->
   ClassificationHead.forward h absent_corpus (Some x_nontext)
   = (out <- mapM (mapM (ClassificationHead.mlp h)) x_nontext ;;
      Ok (concat (concat out))))
  /\ (absent_nontext = None \/ ClassificationHead.nontext_dim h = 0%nat ->
      ClassificationHead.corpus_emb_dim h <> 0%nat ->
      ClassificationHead.forward h (Some x_corpus) absent_nontext
      = (out <- mapM (ClassificationHead.mlp h) x_corpus ;; Ok (concat out)))
  /\ (MyModel.method m = None ->
      MyModel.forward m keep x_text x_masks (Some x)
      = (x_nontext <- NontextualNetwork.forward (MyModel.nontext_network m) (Some x) ;;
         ClassificationHead.forward (MyModel.classifier m) None (Some x_nontext)))
  /\ MyModel.forward m keep x_text x_masks None = Raise TypeError.
Proof.
  split; [| split; [| split]].
  - apply head_corpus_absent.
  - apply head_nontext_absent.
  - intros Hm. unfold MyModel.forward. rewrite Hm. reflexivity.
  - reflexivity.
Qed.

Lemma one_modality_absent_witness :
  ClassificationHead.forward Examples.head_small None (Some Examples.nontext_small)
  = (out <- mapM (mapM (ClassificationHead.mlp Examples.head_small))
                 Examples.nontext_small ;;
     Ok (concat (concat out)))
  /\ ClassificationHead.forward Examples.head_small (Some Examples.corpus_small) None
     = (out <- mapM (ClassificationHead.mlp Examples.head_small)
                    Examples.corpus_small ;;
        Ok (concat out)).
Proof.
  pose proof (one_modality_absent
                Examples.model_single (fun _ _ _ => true)
                Examples.text_one Examples.masks_one
                Examples.head_small Examples.corpus_small Examples.nontext_small
                None None [Examples.row19]) as (H1 & H2 & _).
  split.
  - apply H1; [left; reflexivity | discriminate].
  - apply H2; [left; reflexivity | discriminate].
Defined.

(** The corpus is present and the nontextual input is [None]: exactly one
    modality is absent and the pass fails. *)
Lemma nontext_None_counterexample :
  MyModel.method Examples.model_single <> None
  /\ ClassificationHead.corpus_emb_dim (MyModel.classifier Examples.model_single)
     <> 0%nat
  /\ MyModel.forward Examples.model_single (fun _ _ _ => true)
                     Examples.text_one Examples.masks_one None
     = Raise TypeError.
Proof.
  split; [discriminate |]. split; [discriminate | reflexivity].
Qed.

(** ** Reshaping *)

Lemma firstn_skipn_app_exact {A : Type} (n : nat) (r l : list A) :
  length r = n -> firstn n (r ++ l) = r /\ skipn n (r ++ l) = l.
Proof.
  intros <-. split.
  - rewrite firstn_app, Nat.sub_diag, firstn_all, firstn_O. apply app_nil_r.
  - rewrite skipn_app, Nat.sub_diag, skipn_all, skipn_O. reflexivity.
Qed.

Lemma chunks_concat {A : Type} (n : nat) (rows : list (list A)) :
  Forall (fun r => length r = n) rows ->
  chunks n (length rows) (concat rows) = rows.
Proof.
  induction 1 as [| r rows Hr _ IH]; simpl; [reflexivity |].
  destruct (firstn_skipn_app_exact n r (concat rows) Hr) as [-> ->].
  rewrite IH. reflexivity.
Qed.

Lemma length_concat_uniform {A : Type} (n : nat) (rows : list (list A)) :
  Forall (fun r => length r = n) rows ->
  length (concat rows) = (length rows * n)%nat.
Proof.
  induction 1 as [| r rows Hr _ IH]; simpl; [reflexivity |].
  rewrite length_app, IH, Hr. reflexivity.
Qed.

Lemma view2_rows {A : Type} (n : nat) (rows : list (list A)) :
  rows <> [] ->
  Forall (fun r => length r = n) rows ->
  view2 (length rows) (concat rows) = Ok rows.
Proof.
  intros Hne Hrows. unfold view2.
  assert (Hk : length rows <> 0%nat) by (destruct rows; simpl; congruence).
  rewrite (proj2 (Nat.eqb_neq _ _) Hk).
  rewrite (length_concat_uniform n rows Hrows).
  rewrite (Nat.mul_comm (length rows) n), Nat.Div0.mod_mul, Nat.eqb_refl.
  rewrite Nat.div_mul by exact Hk.
  rewrite chunks_concat by exact Hrows. reflexivity.
Qed.

Lemma chunks_shape {A : Type} (P : A -> Prop) (n k : nat) (l : list A) :
  length l = (k * n)%nat ->
  Forall P l ->
  length (chunks n k l) = k
  /\ Forall (fun s => length s = n /\ Forall P s) (chunks n k l).
Proof.
  revert l. induction k as [| k IH]; intros l Hlen HP; simpl.
  - split; [reflexivity | constructor].
  - simpl in Hlen.
    assert (Hs : length (skipn n l) = (k * n)%nat)
      by (rewrite length_skipn; lia).
    assert (HPs : Forall P (skipn n l)).
    { rewrite <- (firstn_skipn n l) in HP. apply Forall_app in HP. tauto. }
    destruct (IH _ Hs HPs) as [IH1 IH2].
    split; [rewrite IH1; reflexivity |].
    constructor; [| exact IH2]. split.
    + rewrite length_firstn. lia.
    + rewrite <- (firstn_skipn n l) in HP. apply Forall_app in HP. tauto.
Qed.

Lemma rect3_concat {A : Type} (b m t : nat) (x : list (list (list A))) :
  rect3 b m t x ->
  length (concat x) = (b * m)%nat /\ Forall (fun d => length d = t) (concat x).
Proof.
  intros [Hb Hx]. split.
  - rewrite (length_concat_uniform m), Hb; [reflexivity |].
    eapply Forall_impl; [| exact Hx]. intros s [Hs _]. exact Hs.
  - apply Forall_concat. eapply Forall_impl; [| exact Hx].
    intros s [_ Hs]. exact Hs.
Qed.

Lemma rect3_size1 {A : Type} (b m t : nat) (x : list (list (list A))) :
  rect3 b m t x -> (1 <= b)%nat -> CorpusEncoder03.size1 x = m.
Proof.
  intros [Hb Hx] Hge. destruct x as [| s x]; simpl in *; [lia |].
  inversion Hx as [| ? ? [Hs _] _]; subst. reflexivity.
Qed.

Lemma view2_rect3 {A : Type} (b m t : nat) (x : list (list (list A))) :
  rect3 b m t x -> (1 <= b)%nat -> (1 <= m)%nat ->
  view2 (length x * CorpusEncoder03.size1 x) (concat (concat x)) = Ok (concat x).
Proof.
  intros Hx Hb Hm.
  destruct (rect3_concat b m t x Hx) as [Hlen Hrows].
  rewrite (rect3_size1 b m t x Hx Hb), (proj1 Hx), <- Hlen.
  apply (view2_rows t); [| exact Hrows].
  intros Hnil. rewrite Hnil in Hlen. simpl in Hlen. nia.
Qed.

(** ** The stages of [CorpusEncoder03.forward] *)

Lemma zipWithM_out {A B C : Type} (P : C -> Prop) (f : A -> B -> result C)
      (la : list A) (lb : list B) (out : list C) :
  zipWithM f la lb = Ok out ->
  (forall a b c, In a la -> In b lb -> f a b = Ok c -> P c) ->
  Forall P out.
Proof.
  revert lb out. induction la as [| a la IH]; intros [| b lb] out H HP;
    simpl in H; try discriminate.
  - injection H as <-. constructor.
  - apply bind_Ok in H. destruct H as (c & Hc & H).
    apply bind_Ok in H. destruct H as (cs & Hcs & H).
    injection H as <-. constructor.
    + apply (HP a b c); [left; reflexivity | left; reflexivity | exact Hc].
    + apply (IH lb cs Hcs). intros a' b' c' Ha Hb.
      apply HP; right; assumption.
Qed.

Lemma mapM_out {A B : Type} (P : B -> Prop) (f : A -> result B)
      (l : list A) (out : list B) :
  mapM f l = Ok out ->
  (forall a b, In a l -> f a = Ok b -> P b) ->
  Forall P out.
Proof.
  intros H HP. apply mapM_Ok in H. apply Forall_forall. intros b Hb.
  destruct (Forall2_In_r _ _ _ _ H Hb) as (a & Ha & Hab).
  apply (HP a b Ha Hab).
Qed.

Lemma zipWithM_app {A B C : Type} (f : A -> B -> result C)
      (la1 la2 : list A) (lb1 lb2 : list B) :
  length la1 = length lb1 ->
  zipWithM f (la1 ++ la2) (lb1 ++ lb2)
  = (o1 <- zipWithM f la1 lb1 ;; o2 <- zipWithM f la2 lb2 ;; Ok (o1 ++ o2)).
Proof.
  revert lb1. induction la1 as [| a la1 IH]; intros [| b lb1] Hlen;
    simpl in *; try discriminate.
  - destruct (zipWithM f la2 lb2); reflexivity.
  - destruct (f a b) as [e | c]; simpl; [reflexivity |].
    rewrite IH by lia.
    destruct (zipWithM f la1 lb1) as [e | o1]; simpl; [reflexivity |].
    destruct (zipWithM f la2 lb2); reflexivity.
Qed.

Lemma zipWithM_concat {A B C : Type} (f : A -> B -> result C)
      (xa : list (list A)) (xb : list (list B)) :
  Forall2 (fun a b => length a = length b) xa xb ->
  zipWithM f (concat xa) (concat xb)
  = (g <- zipWithM (zipWithM f) xa xb ;; Ok (concat g)).
Proof.
  induction 1 as [| a b xa xb Hab _ IH]; simpl; [reflexivity |].
  rewrite zipWithM_app by exact Hab. rewrite IH.
  destruct (zipWithM f a b) as [e | o1]; simpl; [reflexivity |].
  destruct (zipWithM (zipWithM f) xa xb); reflexivity.
Qed.

Lemma mapM_concat {A B : Type} (f : A -> result B) (x : list (list A)) :
  mapM f (concat x) = (g <- mapM (mapM f) x ;; Ok (concat g)).
Proof.
  induction x as [| a x IH]; simpl; [reflexivity |].
  rewrite mapM_app, IH.
  destruct (mapM f a) as [e | o1]; simpl; [reflexivity |].
  destruct (mapM (mapM f) x); reflexivity.
Qed.

Lemma rect3_Forall2 {A B : Type} (b m t t' : nat)
      (x : list (list (list A))) (mask : list (list (list B))) :
  rect3 b m t x -> rect3 b m t' mask ->
  Forall2 (fun xs ms => length xs = length ms) x mask.
Proof.
  intros [Hb Hx] [Hb' Hm]. subst b. revert mask Hb' Hm.
  induction Hx as [| xs x [Hxs _] _ IH]; intros [| ms mask] Hlen Hm;
    simpl in *; try discriminate; constructor.
  - inversion Hm as [| ? ? [Hms _] _]; subst. lia.
  - apply IH; [lia | inversion Hm; assumption].
Qed.

Lemma dropout_row_length (p : R) (keep : nat -> bool) (row : list R) :
  length (dropout_row p keep row) = length row.
Proof.
  unfold dropout_row. rewrite map2_length; rewrite length_seq; reflexivity.
Qed.

Lemma map2_Forall_r {A B C : Type} (P : B -> Prop) (Q : C -> Prop)
      (f : A -> B -> C) (la : list A) (lb : list B) :
  (forall a b, P b -> Q (f a b)) -> Forall P lb -> Forall Q (map2 f la lb).
Proof.
  intros Hf Hb. revert la. induction Hb as [| b lb Hb _ IH]; intros [| a la];
    simpl; constructor; [apply Hf; exact Hb | apply IH].
Qed.

Lemma dropout_shape (training : bool) (p : R) (keep : nat -> nat -> bool)
      (h : nat) (rows : list (list R)) :
  Forall (fun r => length r = h) rows ->
  length (dropout training p keep rows) = length rows
  /\ Forall (fun r => length r = h) (dropout training p keep rows).
Proof.
  intros H. unfold dropout. destruct training; [| split; [reflexivity | exact H]].
  split.
  - rewrite map2_length; rewrite length_seq; reflexivity.
  - apply (map2_Forall_r (fun r => length r = h)); [| exact H].
    intros i r Hr. rewrite dropout_row_length. exact Hr.
Qed.

Section CorpusEncoder03Stages.

Variable m : CorpusEncoder03.t.
Variable keep : nat -> nat -> bool.
Variables b nb_docs t t' h : nat.
Variable x : list (list (list Z)).
Variable mask : list (list (list Z)).

Hypothesis x_rect : rect3 b nb_docs t x.
Hypothesis mask_rect : rect3 b nb_docs t' mask.
Hypothesis b_pos : (1 <= b)%nat.
Hypothesis docs_pos : (1 <= nb_docs)%nat.
Hypothesis width_h : DocumentEncoder.hidden_width (CorpusEncoder03.doc_encoder m) h.

Lemma encoded_shape (g : list (list (list (list R)))) (c : list (list (list R))) :
  zipWithM (zipWithM (CorpusEncoder03.encode_doc m)) x mask = Ok g ->
  mapM (mapM DocumentEncoder.first_step) g = Ok c ->
  length c = b
  /\ Forall (fun cs => length cs = nb_docs /\ Forall (fun v => length v = h) cs) c.
Proof.
  intros Hg Hc. split.
  - apply mapM_length in Hc. apply zipWithM_length in Hg.
    destruct x_rect as [Hb _]. lia.
  - assert (Hgs : Forall (fun gs => length gs = nb_docs
                                    /\ Forall (Forall (fun v => length v = h)) gs) g).
    { apply (zipWithM_out _ _ _ _ _ Hg). intros xs ms gs Hxs _ Hgs. split.
      - apply zipWithM_length in Hgs. destruct x_rect as [_ Hx].
        rewrite Forall_forall in Hx. destruct (Hx xs Hxs) as [Hlen _]. lia.
      - apply (zipWithM_out _ _ _ _ _ Hgs). intros d k hs _ _ Hhs.
        apply (width_h _ _ _ Hhs). }
    apply (mapM_out _ _ _ _ Hc). intros gs cs Hin Hcs.
    rewrite Forall_forall in Hgs. destruct (Hgs gs Hin) as [Hlen Hw]. split.
    + apply mapM_length in Hcs. lia.
    + apply (mapM_out _ _ _ _ Hcs). intros hs v Hhs Hv.
      rewrite Forall_forall in Hw. specialize (Hw hs Hhs).
      destruct hs as [| h0 hs']; simpl in Hv; [discriminate |].
      injection Hv as <-. inversion Hw; assumption.
Qed.

Lemma view3_rows (rows : list (list R)) :
  length rows = (b * nb_docs)%nat ->
  Forall (fun r => length r = h) rows ->
  view3 b nb_docs (concat rows) = Ok (chunks nb_docs b rows).
Proof.
  intros Hlen Hrows. unfold view3. rewrite <- Hlen at 1.
  rewrite (view2_rows h); [reflexivity | | exact Hrows].
  intros Hnil. rewrite Hnil in Hlen. simpl in Hlen. nia.
Qed.

(** The reshapes of a rectangular batch succeed and undo each other: the
    call encodes every document, keeps the first hidden vector, applies
    the dropout layer to the [b * nb_docs] rows, regroups them by sample,
    takes the maximum over the documents and projects. *)
Lemma corpus03_forward_staged :
  CorpusEncoder03.forward m keep x (Some mask)
  = (g <- zipWithM (zipWithM (CorpusEncoder03.encode_doc m)) x mask ;;
     c <- mapM (mapM DocumentEncoder.first_step) g ;;
     pooled <- mapM CorpusEncoder03.max_docs
                    (chunks nb_docs b
                       (dropout (DocumentEncoder.training (CorpusEncoder03.doc_encoder m))
                                (DocumentEncoder.p (CorpusEncoder03.doc_encoder m))
                                keep (concat c))) ;;
     mapM (linear (CorpusEncoder03.W m)) pooled).
Proof.
  unfold CorpusEncoder03.forward.
  rewrite (view2_rect3 b nb_docs t x x_rect b_pos docs_pos). simpl.
  rewrite (rect3_size1 b nb_docs t x x_rect b_pos).
  replace (length x) with (length mask)
    by (destruct x_rect; destruct mask_rect; congruence).
  rewrite <- (rect3_size1 b nb_docs t' mask mask_rect b_pos) at 1.
  rewrite (view2_rect3 b nb_docs t' mask mask_rect b_pos docs_pos). simpl.
  unfold DocumentEncoder.forward.
  rewrite (zipWithM_concat _ _ _ (rect3_Forall2 _ _ _ _ _ _ x_rect mask_rect)).
  change (fun r k => DocumentEncoder.text_encoder (CorpusEncoder03.doc_encoder m) r (Some k))
    with (CorpusEncoder03.encode_doc m).
  destruct (zipWithM (zipWithM (CorpusEncoder03.encode_doc m)) x mask) as [e | g] eqn:Hg; simpl;
    [reflexivity |].
  rewrite mapM_concat.
  destruct (mapM (mapM DocumentEncoder.first_step) g) as [e | c] eqn:Hc; simpl;
    [reflexivity |].
  destruct (encoded_shape g c Hg Hc) as [Hlen Hshape].
  assert (Hrows : length (concat c) = (b * nb_docs)%nat
                  /\ Forall (fun r => length r = h) (concat c)).
  { apply rect3_concat. split; assumption. }
  destruct Hrows as [Hn Hw].
  destruct (dropout_shape (DocumentEncoder.training (CorpusEncoder03.doc_encoder m))
                          (DocumentEncoder.p (CorpusEncoder03.doc_encoder m))
                          keep h (concat c) Hw) as [Hdn Hdw].
  replace (length mask) with b by (destruct mask_rect; congruence).
  rewrite view3_rows; [reflexivity | lia | exact Hdw].
Qed.

(** In evaluation mode the samples are encoded one by one. *)
Lemma corpus03_forward_eval :
  DocumentEncoder.training (CorpusEncoder03.doc_encoder m) = false ->
  CorpusEncoder03.forward m keep x (Some mask)
  = (g <- zipWithM (zipWithM (CorpusEncoder03.encode_doc m)) x mask ;;
     c <- mapM (mapM DocumentEncoder.first_step) g ;;
     pooled <- mapM CorpusEncoder03.max_docs c ;;
     mapM (linear (CorpusEncoder03.W m)) pooled).
Proof.
  intros Heval. rewrite corpus03_forward_staged, Heval.
  destruct (zipWithM (zipWithM (CorpusEncoder03.encode_doc m)) x mask) as [e | g] eqn:Hg; simpl;
    [reflexivity |].
  destruct (mapM (mapM DocumentEncoder.first_step) g) as [e | c] eqn:Hc; simpl;
    [reflexivity |].
  destruct (encoded_shape g c Hg Hc) as [Hlen Hshape].
  rewrite <- Hlen, chunks_concat; [reflexivity |].
  eapply Forall_impl; [| exact Hshape]. intros cs [H _]. exact H.
Qed.

End CorpusEncoder03Stages.

Lemma zipWithM_exists {A B C : Type} (P : C -> Prop) (f : A -> B -> result C)
      (la : list A) (lb : list B) :
  Forall2 (fun a b => exists c, f a b = Ok c /\ P c) la lb ->
  exists out, zipWithM f la lb = Ok out /\ Forall P out.
Proof.
  induction 1 as [| a b la lb (c & Hc & HP) _ (out & Hout & HPs)]; simpl.
  - exists []. split; [reflexivity | constructor].
  - exists (c :: out). rewrite Hc. simpl. rewrite Hout. simpl.
    split; [reflexivity | constructor; assumption].
Qed.

Lemma mapM_exists {A B : Type} (P : B -> Prop) (f : A -> result B) (l : list A) :
  Forall (fun a => exists b, f a = Ok b /\ P b) l ->
  exists out, mapM f l = Ok out /\ Forall P out.
Proof.
  induction 1 as [| a l (b & Hb & HP) _ (out & Hout & HPs)]; simpl.
  - exists []. split; [reflexivity | constructor].
  - exists (b :: out). rewrite Hb. simpl. rewrite Hout. simpl.
    split; [reflexivity | constructor; assumption].
Qed.

Lemma fold_max_length (h : nat) (ds : list (list R)) (d : list R) :
  length d = h -> Forall (fun v => length v = h) ds ->
  length (fold_left (map2 Rmax) ds d) = h.
Proof.
  intros Hd Hds. revert d Hd.
  induction Hds as [| v ds Hv _ IH]; intros d Hd; simpl; [exact Hd |].
  apply IH. rewrite map2_length; lia.
Qed.

Lemma max_docs_shape (h nb_docs : nat) (docs : list (list R)) :
  (1 <= nb_docs)%nat ->
  length docs = nb_docs /\ Forall (fun v => length v = h) docs ->
  exists pooled, CorpusEncoder03.max_docs docs = Ok pooled /\ length pooled = h.
Proof.
  intros Hpos [Hlen Hw]. destruct docs as [| d ds]; simpl in *; [lia |].
  inversion Hw; subst. eexists. split; [reflexivity |].
  apply fold_max_length; [reflexivity | assumption].
Qed.

Lemma corpus03_wf_parts (m : CorpusEncoder03.t) :
  CorpusEncoder03.wf m = true ->
  Linear_wf (CorpusEncoder03.W m) = true
  /\ in_features (CorpusEncoder03.W m) = 768%nat
  /\ out_features (CorpusEncoder03.W m) = 32%nat
  /\ CorpusEncoder03.corpus_emb_dim m = 32%nat.
Proof.
  unfold CorpusEncoder03.wf. intros H.
  apply andb_prop in H. destruct H as [H H4]. apply Nat.eqb_eq in H4.
  apply andb_prop in H. destruct H as [H H3]. apply Nat.eqb_eq in H3.
  apply andb_prop in H. destruct H as [H1 H2]. apply Nat.eqb_eq in H2.
  repeat split; assumption.
Qed.

(** C7. For a batch of [b >= 1] samples with [nb_docs >= 1] documents each,
    whose documents the text encoder turns into hidden vectors of width
    768, the single-source encoder returns [b] rows of width
    [corpus_emb_dim = 32], whatever [nb_docs]: the [b * nb_docs] document
    vectors are regrouped by sample and the document axis is removed by
    the elementwise maximum before the projection.  This holds in training
    mode as in evaluation mode. *)
Theorem corpus03_output_shape
        (m : CorpusEncoder03.t) (keep : nat -> nat -> bool)
        (b nb_docs t t' : nat)
        (x mask : list (list (list Z))) :
  CorpusEncoder03.wf m = true ->
  rect3 b nb_docs t x ->
  rect3 b nb_docs t' mask ->
  (1 <= b)%nat ->
  (1 <= nb_docs)%nat ->
  DocumentEncoder.hidden_width (CorpusEncoder03.doc_encoder m) 768 ->
  Forall2 (Forall2 (fun d k => exists hs, CorpusEncoder03.encode_doc m d k = Ok hs
                                          /\ hs <> [])) x mask ->
  CorpusEncoder03.corpus_emb_dim m = 32%nat
  /\ CorpusEncoder03.forward m keep x (Some mask)
     = (g <- zipWithM (zipWithM (CorpusEncoder03.encode_doc m)) x mask ;;
        c <- mapM (mapM DocumentEncoder.first_step) g ;;
        pooled <- mapM CorpusEncoder03.max_docs
                       (chunks nb_docs b
                          (dropout (DocumentEncoder.training (CorpusEncoder03.doc_encoder m))
                                   (DocumentEncoder.p (CorpusEncoder03.doc_encoder m))
                                   keep (concat c))) ;;
        mapM (linear (CorpusEncoder03.W m)) pooled)
  /\ exists out,
      CorpusEncoder03.forward m keep x (Some mask) = Ok out
      /\ length out = b
      /\ Forall (fun r => length r = CorpusEncoder03.corpus_emb_dim m) out.
Proof.
  intros Hwf Hx Hm Hb Hd Hh Henc.
  destruct (corpus03_wf_parts m Hwf) as (HW & Hin & Hout & Hdim).
  split; [exact Hdim |].
  split; [apply (corpus03_forward_staged m keep b nb_docs t t' 768 x mask
                   Hx Hm Hb Hd Hh) |].
  rewrite (corpus03_forward_staged m keep b nb_docs t t' 768 x mask
             Hx Hm Hb Hd Hh).
  destruct (zipWithM_exists (Forall (fun hs => hs <> []))
              (zipWithM (CorpusEncoder03.encode_doc m)) x mask) as (g & Hg & Hne).
  { eapply Forall2_impl; [| exact Henc]. intros xs ms H.
    apply zipWithM_exists. exact H. }
  rewrite Hg. simpl.
  destruct (mapM_exists (fun _ => True) (mapM DocumentEncoder.first_step) g)
    as (c & Hc & _).
  { eapply Forall_impl; [| exact Hne]. intros gs Hgs.
    destruct (mapM_exists (fun _ => True) DocumentEncoder.first_step gs)
      as (cs & Hcs & _); [| exists cs; split; [exact Hcs | exact I]].
    eapply Forall_impl; [| exact Hgs]. intros hs Hhs.
    destruct hs as [| h0 hs]; [congruence |].
    exists h0. split; [reflexivity | exact I]. }
  rewrite Hc. simpl.
  destruct (encoded_shape m b nb_docs t 768 x mask Hx Hb Hd Hh g c Hg Hc)
    as [Hlen Hshape].
  destruct (rect3_concat b nb_docs 768 c (conj Hlen Hshape)) as [Hn Hw].
  destruct (dropout_shape (DocumentEncoder.training (CorpusEncoder03.doc_encoder m))
                          (DocumentEncoder.p (CorpusEncoder03.doc_encoder m))
                          keep 768 (concat c) Hw) as [Hdn Hdw].
  rewrite Hn in Hdn.
  destruct (chunks_shape (fun r => length r = 768%nat) nb_docs b _ Hdn Hdw)
    as [Hgroups Hgroup].
  destruct (mapM_exists (fun pooled => length pooled = 768%nat)
              CorpusEncoder03.max_docs
              (chunks nb_docs b
                 (dropout (DocumentEncoder.training (CorpusEncoder03.doc_encoder m))
                          (DocumentEncoder.p (CorpusEncoder03.doc_encoder m))
                          keep (concat c))))
    as (pooled & Hpooled & Hpw).
  { eapply Forall_impl; [| exact Hgroup]. intros docs Hdocs.
    apply (max_docs_shape 768 nb_docs docs Hd Hdocs). }
  rewrite Hpooled. simpl.
  destruct (mapM_exists (fun r => length r = CorpusEncoder03.corpus_emb_dim m)
              (linear (CorpusEncoder03.W m)) pooled) as (out & Hout' & Hshape').
  { eapply Forall_impl; [| exact Hpw]. intros v Hv.
    exists (affine (CorpusEncoder03.W m) v). split.
    - apply linear_Ok. congruence.
    - rewrite affine_length by exact HW. congruence. }
  exists out. split; [exact Hout' |]. split; [| exact Hshape'].
  apply mapM_length in Hout'. apply mapM_length in Hpooled. lia.
Qed.

Lemma text_stub_width (doc : list Z) (msk : option (list Z)) (hs : list (list R)) :
  Examples.text_stub doc msk = Ok hs -> Forall (fun v => length v = 768%nat) hs.
Proof.
  unfold Examples.text_stub, Ok. intros H.
  assert (E : map (fun tok => repeat (IZR tok) 768) doc = hs) by congruence.
  rewrite <- E. apply Forall_map. apply Forall_forall. intros tok _.
  apply repeat_length.
Qed.

Lemma corpus03_output_shape_witness :
  exists out,
    CorpusEncoder03.forward Examples.encoder_stub (fun _ _ => true)
      [[[1; 2]; [3; 4]; [5; 6]]; [[7; 8]; [9; 10]; [11; 12]]]%Z
      (Some [[[1; 1]; [1; 1]; [1; 0]]; [[1; 1]; [1; 0]; [1; 1]]]%Z)
    = Ok out
    /\ length out = 2%nat
    /\ Forall (fun r => length r
                        = CorpusEncoder03.corpus_emb_dim Examples.encoder_stub) out.
Proof.
  apply (corpus03_output_shape Examples.encoder_stub (fun _ _ => true) 2 3 2 2).
  - reflexivity.
  - split; [reflexivity | repeat constructor].
  - split; [reflexivity | repeat constructor].
  - lia.
  - lia.
  - exact text_stub_width.
  - repeat constructor; eexists; (split; [reflexivity | discriminate]).
Defined.

(** ** Access to one sample of a batch *)

Lemma Forall2_nth {A B : Type} (R : A -> B -> Prop) (la : list A) (lb : list B)
      (k : nat) (da : A) (db : B) :
  Forall2 R la lb -> (k < length la)%nat -> R (nth k la da) (nth k lb db).
Proof.
  intros H. revert k. induction H as [| a b la lb Hab _ IH]; intros k Hk;
    simpl in Hk; [lia |].
  destruct k as [| k]; simpl; [exact Hab | apply IH; lia].
Qed.

Lemma mapM_nth {A B : Type} (f : A -> result B) (l : list A) (out : list B)
      (k : nat) (da : A) (db : B) :
  mapM f l = Ok out -> (k < length l)%nat -> f (nth k l da) = Ok (nth k out db).
Proof.
  intros H Hk. apply mapM_Ok in H. apply (Forall2_nth _ _ _ k da db H Hk).
Qed.

Lemma zipWithM_nth {A B C : Type} (f : A -> B -> result C)
      (la : list A) (lb : list B) (out : list C)
      (k : nat) (da : A) (db : B) (dc : C) :
  zipWithM f la lb = Ok out -> (k < length la)%nat ->
  f (nth k la da) (nth k lb db) = Ok (nth k out dc).
Proof.
  revert lb out k. induction la as [| a la IH]; intros [| b lb] out k H Hk;
    simpl in *; try discriminate; try lia.
  apply bind_Ok in H. destruct H as (c & Hc & H).
  apply bind_Ok in H. destruct H as (cs & Hcs & H).
  injection H as <-.
  destruct k as [| k]; simpl; [exact Hc | apply (IH lb cs k Hcs); lia].
Qed.

(** ** Evaluation of the stand-in encoder *)

Lemma dot_zeros (n : nat) (v : list R) : dot (repeat 0 n) v = 0.
Proof.
  revert v. induction n as [| n IH]; intros [| a v]; simpl; try reflexivity.
  rewrite IH. ring.
Qed.

Lemma vadd_repeat_0 (c : R) (k : nat) :
  vadd (repeat c k) (repeat 0 k) = repeat c k.
Proof.
  unfold vadd. induction k as [| k IH]; simpl; [reflexivity |].
  rewrite IH. f_equal. ring.
Qed.

(** A layer whose first row reads the first input feature and whose other
    rows and offsets are zero. *)
Lemma affine_select (n k : nat) (v0 : R) (v : list R) :
  affine (mkLinear (S n) (S k)
                   ((1 :: repeat 0 n) :: repeat (repeat 0 (S n)) k)
                   (Some (repeat 0 (S k))))
         (v0 :: v)
  = v0 :: repeat 0 k.
Proof.
  unfold affine, matvec. cbn [bias weight map].
  rewrite map_repeat. rewrite (dot_zeros (S n) (v0 :: v)).
  cbn [dot repeat]. rewrite dot_zeros.
  unfold vadd at 1. cbn [map2]. fold (vadd (repeat 0 k) (repeat 0 k)).
  rewrite vadd_repeat_0. f_equal. ring.
Qed.

Lemma dropout_row_repeat (p : R) (keep : nat -> bool) (c : R) (n : nat) :
  exists rest,
    dropout_row p keep (repeat c (S n))
    = (if keep 0%nat then c / (1 - p) else 0) :: rest.
Proof.
  unfold dropout_row. rewrite repeat_length. simpl. eexists. reflexivity.
Qed.

Section StubEncoder.

Variables n k : nat.
Variable p : R.
Variable training : bool.
Variable dim : nat.

Let stub : CorpusEncoder03.t :=
  CorpusEncoder03.mk
    (DocumentEncoder.mk
       (fun doc _ => Ok (map (fun tok => repeat (IZR tok) (S n)) doc)) p training)
    (mkLinear (S n) (S k)
              ((1 :: repeat 0 n) :: repeat (repeat 0 (S n)) k)
              (Some (repeat 0 (S k))))
    dim.

Lemma stub_width :
  DocumentEncoder.hidden_width (CorpusEncoder03.doc_encoder stub) (S n).
Proof.
  intros doc msk hs H. simpl in H. injection H as <-.
  apply Forall_map. apply Forall_forall. intros tok _.
  apply (repeat_length (IZR tok) (S n)).
Qed.

(** One sample of one document: the embedding is the first token, after
    dropout, followed by zeros. *)
Lemma stub_forward_single (keep : nat -> nat -> bool)
      (tok : Z) (toks mk : list Z) :
  CorpusEncoder03.forward stub keep [[tok :: toks]] (Some [[mk]])
  = Ok [(if training
         then if keep 0%nat 0%nat then IZR tok / (1 - p) else 0
         else IZR tok) :: repeat 0 k].
Proof.
  rewrite (corpus03_forward_staged stub keep 1 1 (length (tok :: toks)) (length mk)
             (S n) [[tok :: toks]] [[mk]]).
  2:{ split; [reflexivity | repeat constructor]. }
  2:{ split; [reflexivity | repeat constructor]. }
  2:{ lia. }
  2:{ lia. }
  2:{ exact stub_width. }
  cbn [zipWithM CorpusEncoder03.encode_doc CorpusEncoder03.doc_encoder stub
       DocumentEncoder.text_encoder DocumentEncoder.training DocumentEncoder.p
       bind Ok mapM map DocumentEncoder.first_step concat app].
  unfold dropout. destruct training.
  - cbn [length seq map2 chunks firstn skipn mapM CorpusEncoder03.max_docs
         fold_left bind Ok].
    destruct (dropout_row_repeat p (keep 0%nat) (IZR tok) n) as (rest & Hrow).
    rewrite linear_Ok by (rewrite dropout_row_length; apply repeat_length).
    rewrite Hrow. unfold stub. cbn [CorpusEncoder03.W].
    rewrite affine_select. reflexivity.
  - cbn [chunks firstn skipn mapM CorpusEncoder03.max_docs fold_left bind Ok].
    rewrite linear_Ok by apply repeat_length.
    unfold stub. cbn [CorpusEncoder03.W repeat].
    rewrite affine_select. reflexivity.
Qed.

Lemma map2_ignore_r {A B C : Type} (f : A -> C) (la : list A) (lb : list B) :
  length la = length lb -> map2 (fun a _ => f a) la lb = map f la.
Proof.
  revert lb. induction la as [| a la IH]; intros [| b lb] H; simpl in *;
    try discriminate; [reflexivity |].
  rewrite IH by lia. reflexivity.
Qed.

(** A batch whose samples have one document each, in evaluation mode: the
    embedding of a sample is the first token of its document, followed by
    zeros. *)
Lemma stub_forward_docs (keep : nat -> nat -> bool) (t t' : nat)
      (docs masks : list (list Z)) :
  training = false ->
  docs <> [] ->
  length masks = length docs ->
  Forall (fun d => length d = S t) docs ->
  Forall (fun d => length d = t') masks ->
  CorpusEncoder03.forward stub keep (map (fun d => [d]) docs)
                          (Some (map (fun d => [d]) masks))
  = Ok (map (fun d => IZR (hd 0%Z d) :: repeat 0 k) docs).
Proof.
  intros Heval Hne Hlen Hdocs Hmasks.
  rewrite (corpus03_forward_eval stub keep (length docs) 1 (S t) t' (S n)).
  2:{ split; [apply length_map |]. apply Forall_map.
      eapply Forall_impl; [| exact Hdocs]. intros d Hd.
      split; [reflexivity | constructor; [exact Hd | constructor]]. }
  2:{ split; [rewrite length_map; exact Hlen |]. apply Forall_map.
      eapply Forall_impl; [| exact Hmasks]. intros d Hd.
      split; [reflexivity | constructor; [exact Hd | constructor]]. }
  2:{ destruct docs; simpl; [congruence | lia]. }
  2:{ lia. }
  2:{ exact stub_width. }
  2:{ exact Heval. }
  rewrite zipWithM_map_l, zipWithM_map_r.
  rewrite (zipWithM_total _
             (fun d _ => [map (fun tok => repeat (IZR tok) (S n)) d]));
    [| symmetry; exact Hlen | reflexivity].
  rewrite map2_ignore_r by (symmetry; exact Hlen).
  cbn [bind Ok]. rewrite mapM_map.
  rewrite (mapM_total _ (fun d => [repeat (IZR (hd 0%Z d)) (S n)])).
  2:{ intros d Hd. rewrite Forall_forall in Hdocs. specialize (Hdocs d Hd).
      destruct d as [| tok d]; simpl in Hdocs; [discriminate |]. reflexivity. }
  cbn [bind Ok]. rewrite mapM_map.
  rewrite (mapM_total _ (fun d => repeat (IZR (hd 0%Z d)) (S n))) by reflexivity.
  cbn [bind Ok]. rewrite mapM_map.
  apply mapM_total. intros d _.
  rewrite linear_Ok by apply (repeat_length (IZR (hd 0%Z d)) (S n)).
  unfold stub. cbn [CorpusEncoder03.W repeat].
  rewrite affine_select. reflexivity.
Qed.

End StubEncoder.

Lemma encoder_stub_single (keep : nat -> nat -> bool) (tok : Z) (toks mk : list Z) :
  CorpusEncoder03.forward Examples.encoder_stub keep [[tok :: toks]] (Some [[mk]])
  = Ok [(if keep 0%nat 0%nat then IZR tok / (1 - 0.5) else 0) :: repeat 0 31].
Proof.
  exact (stub_forward_single 767 31 0.5 true 32 keep tok toks mk).
Qed.

(** ** The dual corpus encoder *)

Lemma app_inj_length {A : Type} (a1 a2 b1 b2 : list A) :
  length a1 = length a2 -> a1 ++ b1 = a2 ++ b2 -> a1 = a2 /\ b1 = b2.
Proof.
  revert a2. induction a1 as [| x a1 IH]; intros [| y a2] Hlen H;
    simpl in *; try discriminate.
  - split; [reflexivity | exact H].
  - injection H as -> H. destruct (IH a2 ltac:(lia) H) as [-> ->].
    split; reflexivity.
Qed.

Lemma map2_app_inj (w : nat) (a a' b b' : list (list R)) :
  Forall (fun r => length r = w) a ->
  Forall (fun r => length r = w) a' ->
  length a = length b -> length a' = length b' ->
  map2 (@app R) a b = map2 (@app R) a' b' -> a = a' /\ b = b'.
Proof.
  intros Ha. revert a' b b'.
  induction Ha as [| r a Hr _ IH]; intros a' b b' Ha' Hlen Hlen' H.
  - destruct b; simpl in Hlen; [| discriminate].
    destruct a' as [| r' a']; destruct b' as [| s' b']; simpl in *;
      try discriminate. split; reflexivity.
  - destruct b as [| s b]; simpl in Hlen; [discriminate |].
    destruct a' as [| r' a']; destruct b' as [| s' b']; simpl in *;
      try discriminate.
    inversion Ha' as [| ? ? Hr' Ha'']; subst.
    injection H as H1 H2.
    destruct (app_inj_length r r' s s' ltac:(congruence) H1) as [-> ->].
    destruct (IH a' b b' Ha'' ltac:(lia) ltac:(lia) H2) as [-> ->].
    split; reflexivity.
Qed.

Lemma corpus03_rows_width (m : CorpusEncoder03.t) (keep : nat -> nat -> bool)
      (x : list (list (list Z))) (mask : option (list (list (list Z))))
      (out : list (list R)) :
  Linear_wf (CorpusEncoder03.W m) = true ->
  CorpusEncoder03.forward m keep x mask = Ok out ->
  Forall (fun r => length r = out_features (CorpusEncoder03.W m)) out.
Proof.
  intros Hwf H. unfold CorpusEncoder03.forward in H.
  apply bind_Ok in H. destruct H as (? & _ & H).
  apply bind_Ok in H. destruct H as (? & _ & H).
  apply bind_Ok in H. destruct H as (? & _ & H).
  apply bind_Ok in H. destruct H as (? & _ & H).
  apply bind_Ok in H. destruct H as (pooled & _ & H).
  apply (mapM_out _ _ _ _ H). intros v r _ Hr.
  apply linear_Ok_inv in Hr. destruct Hr as [_ ->].
  apply affine_length. exact Hwf.
Qed.

Lemma cat1_Ok (a b : list (list R)) :
  length a = length b -> CorpusEncoder.cat1 a b = Ok (map2 (@app R) a b).
Proof.
  intros H. unfold CorpusEncoder.cat1.
  apply zipWithM_total; [exact H | reflexivity].
Qed.

(** ** Sample by sample *)

Lemma Forall_nth_in {A : Type} (P : A -> Prop) (l : list A) (k : nat) (d : A) :
  Forall P l -> (k < length l)%nat -> P (nth k l d).
Proof.
  intros H Hk. rewrite Forall_forall in H. apply H. apply nth_In. exact Hk.
Qed.

Lemma mapM_single {A B : Type} (f : A -> result B) (a : A) (b : B) :
  f a = Ok b -> mapM f [a] = Ok [b].
Proof.
  intros H. simpl. rewrite H. reflexivity.
Qed.

Lemma zipWithM_single {A B C : Type} (f : A -> B -> result C) (a : A) (b : B) (c : C) :
  f a b = Ok c -> zipWithM f [a] [b] = Ok [c].
Proof.
  intros H. simpl. rewrite H. reflexivity.
Qed.

(** The nontextual network. *)
Lemma nontextual_per_sample (m : NontextualNetwork.t) (x : list (list R))
      (out : list (list (list R))) :
  NontextualNetwork.wf m = true ->
  NontextualNetwork.forward m (Some x) = Ok out ->
  length out = length x
  /\ forall k, (k < length x)%nat ->
               NontextualNetwork.forward m (Some (sample k x)) = Ok (sample k out).
Proof.
  intros Hwf H.
  pose proof (nontextual_forward_only_19 m x out Hwf H) as H19.
  rewrite (nontextual_forward_rows m x Hwf H19) in H.
  split; [apply (mapM_length _ _ _ H) |].
  intros k Hk. unfold sample.
  rewrite (nontextual_forward_rows m [nth k x []] Hwf).
  - apply mapM_single. apply (mapM_nth _ _ _ k [] [] H Hk).
  - constructor; [| constructor]. apply Forall_nth_in; assumption.
Qed.

(** The single-source corpus encoder in evaluation mode. *)
Lemma corpus03_per_sample
      (m : CorpusEncoder03.t) (keep : nat -> nat -> bool)
      (b nb_docs t t' h : nat) (x mask : list (list (list Z)))
      (out : list (list R)) :
  DocumentEncoder.training (CorpusEncoder03.doc_encoder m) = false ->
  DocumentEncoder.hidden_width (CorpusEncoder03.doc_encoder m) h ->
  rect3 b nb_docs t x -> rect3 b nb_docs t' mask ->
  (1 <= b)%nat -> (1 <= nb_docs)%nat ->
  CorpusEncoder03.forward m keep x (Some mask) = Ok out ->
  length out = b
  /\ forall k keep', (k < b)%nat ->
       CorpusEncoder03.forward m keep' (sample k x) (Some (sample k mask))
       = Ok (sample k out).
Proof.
  intros Heval Hh Hx Hm Hb Hd H.
  rewrite (corpus03_forward_eval m keep b nb_docs t t' h x mask
             Hx Hm Hb Hd Hh Heval) in H.
  apply bind_Ok in H. destruct H as (g & Hg & H).
  apply bind_Ok in H. destruct H as (c & Hc & H).
  apply bind_Ok in H. destruct H as (pooled & Hp & H).
  pose proof (zipWithM_length _ _ _ _ Hg) as [_ Hlg].
  pose proof (mapM_length _ _ _ Hc) as Hlc.
  pose proof (mapM_length _ _ _ Hp) as Hlp.
  pose proof (mapM_length _ _ _ H) as Hlo.
  destruct Hx as [Hbx Hx]. destruct Hm as [Hbm Hm].
  split; [lia |].
  intros k keep' Hk. unfold sample.
  rewrite (corpus03_forward_eval m keep' 1 nb_docs t t' h
             [nth k x []] [nth k mask []]).
  - rewrite (zipWithM_single _ _ _ (nth k g [])).
    2:{ apply (zipWithM_nth _ _ _ _ k [] [] [] Hg). lia. }
    simpl.
    rewrite (mapM_nth _ _ _ k [] [] Hc) by lia. simpl.
    rewrite (mapM_nth _ _ _ k [] [] Hp) by lia. simpl.
    rewrite (mapM_nth _ _ _ k [] [] H) by lia. reflexivity.
  - split; [reflexivity |]. constructor; [| constructor].
    apply (Forall_nth_in _ x k [] Hx). lia.
  - split; [reflexivity |]. constructor; [| constructor].
    apply (Forall_nth_in _ mask k [] Hm). lia.
  - lia.
  - exact Hd.
  - exact Hh.
  - exact Heval.
Qed.

Lemma Forall2_nth_error {A B : Type} (R : A -> B -> Prop)
      (la : list A) (lb : list B) (n : nat) (a : A) (b : B) :
  Forall2 R la lb -> nth_error la n = Some a -> nth_error lb n = Some b -> R a b.
Proof.
  intros H. revert n. induction H as [| a' b' la lb Hab _ IH]; intros n Ha Hb.
  - destruct n; discriminate.
  - destruct n as [| n]; simpl in *.
    + injection Ha as <-. injection Hb as <-. exact Hab.
    + apply (IH n); assumption.
Qed.

Lemma item_Ok {A : Type} (t : list A) (k : nat) (a : A) :
  item t k = Ok a <-> nth_error t k = Some a.
Proof.
  unfold item. destruct (nth_error t k); split; intros H;
    try discriminate; try (injection H as <-; reflexivity).
Qed.

Lemma item_map {A B : Type} (f : A -> B) (t : list A) (k : nat) (a : A) :
  item t k = Ok a -> item (map f t) k = Ok (f a).
Proof.
  intros H. apply item_Ok in H. apply item_Ok.
  apply map_nth_error. exact H.
Qed.

(** One call of a sub-encoder on element [n] of the tuples. *)
Lemma encoder_call_per_sample
      (e : CorpusEncoder03.t) (keep : nat -> nat -> bool) (b n : nat)
      (x_text : list (list (list (list Z))))
      (x_masks : list (option (list (list (list Z)))))
      (x_nontext : option (list (list R)))
      (out : list (list R)) :
  DocumentEncoder.training (CorpusEncoder03.doc_encoder e) = false ->
  (exists h, DocumentEncoder.hidden_width (CorpusEncoder03.doc_encoder e) h) ->
  MyModel.batch b x_text x_masks x_nontext ->
  (x0 <- item x_text n ;; m0 <- item x_masks n ;;
   CorpusEncoder03.forward e keep x0 m0) = Ok out ->
  length out = b
  /\ forall k keep', (k < b)%nat ->
       (x0 <- item (MyModel.sample_text k x_text) n ;;
        m0 <- item (MyModel.sample_masks k x_masks) n ;;
        CorpusEncoder03.forward e keep' x0 m0) = Ok (sample k out).
Proof.
  intros Heval (h & Hh) (Hb & _ & Hshape) H.
  apply bind_Ok in H. destruct H as (x0 & Hx0 & H).
  apply bind_Ok in H. destruct H as (m0 & Hm0 & H).
  destruct (Forall2_nth_error _ _ _ n x0 m0 Hshape
              (proj1 (item_Ok _ _ _) Hx0) (proj1 (item_Ok _ _ _) Hm0))
    as (nb_docs & t & t' & msk & Hd & Hx & -> & Hm).
  destruct (corpus03_per_sample e keep b nb_docs t t' h x0 msk out
              Heval Hh Hx Hm Hb Hd H) as [Hlen Hk].
  split; [exact Hlen |].
  intros k keep' Hlt.
  unfold MyModel.sample_text, MyModel.sample_masks.
  rewrite (item_map (sample k) _ _ _ Hx0). simpl.
  rewrite (item_map (option_map (sample k)) _ _ _ Hm0). simpl.
  apply Hk. exact Hlt.
Qed.

(** The dual corpus encoder in evaluation mode. *)
Lemma corpus_encoder_per_sample
      (m : CorpusEncoder.t) (keep : nat -> nat -> nat -> bool) (b : nat)
      (x_text : list (list (list (list Z))))
      (x_masks : list (option (list (list (list Z)))))
      (x_nontext : option (list (list R)))
      (r : option (list (list R))) :
  CorpusEncoder.evaluating m ->
  CorpusEncoder.uniform_hidden m ->
  MyModel.batch b x_text x_masks x_nontext ->
  CorpusEncoder.forward m keep x_text x_masks = Ok r ->
  (forall out, r = Some out -> length out = b)
  /\ forall k keep', (k < b)%nat ->
       CorpusEncoder.forward m keep' (MyModel.sample_text k x_text)
                             (MyModel.sample_masks k x_masks)
       = Ok (option_map (sample k) r).
Proof.
  intros Heval Hwidth Hbatch H. unfold CorpusEncoder.forward in *.
  destruct (CorpusEncoder.method m) as [s |].
  2:{ injection H as <-. split; [discriminate | reflexivity]. }
  destruct (CorpusEncoder.separate m).
  - destruct (CorpusEncoder.encoder_ecb m) as [ecb |] eqn:Hecb; [| discriminate].
    simpl in H.
    destruct (x0 <- item x_text 0 ;; m0 <- item x_masks 0 ;;
              CorpusEncoder03.forward ecb (keep 0%nat) x0 m0) as [err | a] eqn:Ha.
    { destruct (item x_text 0); simpl in *; [discriminate |].
      destruct (item x_masks 0); simpl in *; [discriminate |].
      rewrite Ha in H. discriminate. }
    assert (H' : (encoder_fed <- attr (CorpusEncoder.encoder_fed m) ;;
                  x1 <- item x_text 1 ;; m1 <- item x_masks 1 ;;
                  x_fed <- CorpusEncoder03.forward encoder_fed (keep 1%nat) x1 m1 ;;
                  out <- CorpusEncoder.cat1 a x_fed ;; Ok (Some out)) = Ok r).
    { destruct (item x_text 0); simpl in *; [discriminate |].
      destruct (item x_masks 0); simpl in *; [discriminate |].
      rewrite Ha in H. exact H. }
    clear H.
    destruct (CorpusEncoder.encoder_fed m) as [fed |] eqn:Hfed; [| discriminate].
    simpl in H'.
    destruct (x1 <- item x_text 1 ;; m1 <- item x_masks 1 ;;
              CorpusEncoder03.forward fed (keep 1%nat) x1 m1) as [err | c] eqn:Hc.
    { destruct (item x_text 1); simpl in *; [discriminate |].
      destruct (item x_masks 1); simpl in *; [discriminate |].
      rewrite Hc in H'. discriminate. }
    assert (H : (out <- CorpusEncoder.cat1 a c ;; Ok (Some out)) = Ok r).
    { destruct (item x_text 1); simpl in *; [discriminate |].
      destruct (item x_masks 1); simpl in *; [discriminate |].
      rewrite Hc in H'. exact H'. }
    clear H'.
    apply bind_Ok in H. destruct H as (out & Hcat & H). injection H as <-.
    destruct (encoder_call_per_sample ecb (keep 0%nat) b 0 x_text x_masks x_nontext a
                (Heval ecb (or_intror (or_introl Hecb)))
                (Hwidth ecb (or_intror (or_introl Hecb))) Hbatch Ha)
      as [Hla Hka].
    destruct (encoder_call_per_sample fed (keep 1%nat) b 1 x_text x_masks x_nontext c
                (Heval fed (or_intror (or_intror Hfed)))
                (Hwidth fed (or_intror (or_intror Hfed))) Hbatch Hc)
      as [Hlc Hkc].
    unfold CorpusEncoder.cat1 in Hcat.
    pose proof (zipWithM_length _ _ _ _ Hcat) as [_ Hlo].
    split.
    + intros out' E. injection E as <-. lia.
    + intros k keep' Hk. simpl.
      specialize (Hka k (keep' 0%nat) Hk). specialize (Hkc k (keep' 1%nat) Hk).
      destruct (item (MyModel.sample_text k x_text) 0); simpl in *; [discriminate |].
      destruct (item (MyModel.sample_masks k x_masks) 0); simpl in *; [discriminate |].
      rewrite Hka. simpl.
      destruct (item (MyModel.sample_text k x_text) 1); simpl in *; [discriminate |].
      destruct (item (MyModel.sample_masks k x_masks) 1); simpl in *; [discriminate |].
      rewrite Hkc. simpl. unfold sample.
      assert (E : Ok (nth k a [] ++ nth k c []) = Ok (nth k out []))
        by (apply (zipWithM_nth _ _ _ _ k [] [] [] Hcat); lia).
      injection E as ->. reflexivity.
  - destruct (CorpusEncoder.encoder m) as [enc |] eqn:Henc; [| discriminate].
    simpl in H.
    destruct (x0 <- item x_text 0 ;; m0 <- item x_masks 0 ;;
              CorpusEncoder03.forward enc (keep 0%nat) x0 m0) as [err | a] eqn:Ha.
    { destruct (item x_text 0); simpl in *; [discriminate |].
      destruct (item x_masks 0); simpl in *; [discriminate |].
      rewrite Ha in H. discriminate. }
    assert (Hr : r = Some a).
    { destruct (item x_text 0); simpl in *; [discriminate |].
      destruct (item x_masks 0); simpl in *; [discriminate |].
      rewrite Ha in H. simpl in H. unfold Ok in H. congruence. }
    subst r. clear H.
    destruct (encoder_call_per_sample enc (keep 0%nat) b 0 x_text x_masks x_nontext a
                (Heval enc (or_introl Henc))
                (Hwidth enc (or_introl Henc)) Hbatch Ha)
      as [Hla Hka].
    split.
    + intros out' E. injection E as <-. exact Hla.
    + intros k keep' Hk. simpl.
      specialize (Hka k (keep' 0%nat) Hk).
      destruct (item (MyModel.sample_text k x_text) 0); simpl in *; [discriminate |].
      destruct (item (MyModel.sample_masks k x_masks) 0); simpl in *; [discriminate |].
      rewrite Hka. reflexivity.
Qed.

Lemma concat_concat_map {A : Type} (l : list (list (list A))) :
  concat (concat l) = concat (map (@concat A) l).
Proof.
  induction l as [| a l IH]; simpl; [reflexivity |].
  rewrite concat_app, IH. reflexivity.
Qed.

(** The classification head. *)
Lemma head_per_sample (h : ClassificationHead.t)
      (x_corpus : option (list (list R))) (x_nontext : list (list (list R)))
      (out : list R) (b : nat) :
  length x_nontext = b ->
  (forall c, x_corpus = Some c -> length c = b) ->
  ClassificationHead.forward h x_corpus (Some x_nontext) = Ok out ->
  exists outs,
    out = concat outs
    /\ length outs = b
    /\ forall k, (k < b)%nat ->
         ClassificationHead.forward h (option_map (sample k) x_corpus)
                                    (Some (sample k x_nontext))
         = Ok (nth k outs []).
Proof.
  intros Hn Hc H.
  destruct (Nat.eq_dec (ClassificationHead.nontext_dim h) 0) as [Hnd | Hnd];
    destruct (Nat.eq_dec (ClassificationHead.corpus_emb_dim h) 0) as [Hcd | Hcd].
  - unfold ClassificationHead.forward in H.
    rewrite Hnd, Hcd in H. simpl in H.
    rewrite orb_true_r in H. discriminate.
  - destruct x_corpus as [c |].
    + (* only the corpus reaches the MLP *)
      rewrite (head_nontext_absent h c (Some x_nontext) (or_intror Hnd) Hcd) in H.
      apply bind_Ok in H. destruct H as (o & Ho & H). injection H as <-.
      exists o. split; [reflexivity |].
      pose proof (mapM_length _ _ _ Ho) as Hlo.
      specialize (Hc c eq_refl). split; [lia |].
      intros k Hk. simpl option_map.
      rewrite (head_nontext_absent h _ (Some (sample k x_nontext))
                 (or_intror Hnd) Hcd).
      unfold sample.
      rewrite (mapM_single _ _ (nth k o [])).
      * simpl. rewrite app_nil_r. reflexivity.
      * apply (mapM_nth _ _ _ k [] [] Ho). lia.
    + unfold ClassificationHead.forward in H.
      rewrite Hnd in H. simpl in H. discriminate.
  - (* only the nontextual sequence reaches the MLP *)
    rewrite (head_corpus_absent h x_corpus x_nontext (or_intror Hcd) Hnd) in H.
    apply bind_Ok in H. destruct H as (o & Ho & H). injection H as <-.
    exists (map (@concat R) o). split; [apply concat_concat_map |].
    pose proof (mapM_length _ _ _ Ho) as Hlo.
    split; [rewrite length_map; lia |].
    intros k Hk.
    rewrite (head_corpus_absent h _ (sample k x_nontext) (or_intror Hcd) Hnd).
    unfold sample.
    rewrite (mapM_single _ _ (nth k o [])).
    + simpl. rewrite app_nil_r.
      change (@nil R) with (concat (@nil (list R))).
      rewrite map_nth. reflexivity.
    + apply (mapM_nth _ _ _ k [] [] Ho). lia.
  - destruct x_corpus as [c |].
    + (* projection, attention, MLP *)
      rewrite (head_both_present h c x_nontext Hcd Hnd) in H.
      apply bind_Ok in H. destruct H as (q & Hq & H).
      apply bind_Ok in H. destruct H as (v & Hv & H).
      apply bind_Ok in H. destruct H as (o & Ho & H). injection H as <-.
      exists o. split; [reflexivity |].
      pose proof (mapM_length _ _ _ Hq) as Hlq.
      pose proof (zipWithM_length _ _ _ _ Hv) as [_ Hlv].
      pose proof (mapM_length _ _ _ Ho) as Hlo.
      specialize (Hc c eq_refl). split; [lia |].
      intros k Hk. simpl option_map.
      rewrite (head_both_present h _ (sample k x_nontext) Hcd Hnd).
      unfold sample.
      rewrite (mapM_single _ _ (nth k q [])).
      2:{ apply (mapM_nth _ _ _ k [] [] Hq). lia. }
      simpl bind.
      rewrite (zipWithM_nth _ _ _ _ k [] [] [] Hv) by lia.
      simpl.
      rewrite (mapM_nth _ _ _ k [] [] Ho) by lia.
      simpl. rewrite app_nil_r. reflexivity.
    + (* the corpus is absent *)
      rewrite (head_corpus_absent h None x_nontext (or_introl eq_refl) Hnd) in H.
      apply bind_Ok in H. destruct H as (o & Ho & H). injection H as <-.
      exists (map (@concat R) o). split; [apply concat_concat_map |].
      pose proof (mapM_length _ _ _ Ho) as Hlo.
      split; [rewrite length_map; lia |].
      intros k Hk. simpl option_map.
      rewrite (head_corpus_absent h None (sample k x_nontext)
                 (or_introl eq_refl) Hnd).
      unfold sample.
      rewrite (mapM_single _ _ (nth k o [])).
      * simpl. rewrite app_nil_r.
        change (@nil R) with (concat (@nil (list R))).
        rewrite map_nth. reflexivity.
      * apply (mapM_nth _ _ _ k [] [] Ho). lia.
Qed.

(** A pass over a batch in evaluation mode returns, one after the other,
    what the pass returns on each sample alone. *)
Lemma forward_per_sample
      (m : MyModel.t) (keep : nat -> nat -> nat -> bool) (b : nat)
      (x_text : list (list (list (list Z))))
      (x_masks : list (option (list (list (list Z)))))
      (x_nontext : option (list (list R)))
      (out : list R) :
  NontextualNetwork.wf (MyModel.nontext_network m) = true ->
  CorpusEncoder.evaluating (MyModel.corpus_encoder m) ->
  CorpusEncoder.uniform_hidden (MyModel.corpus_encoder m) ->
  MyModel.batch b x_text x_masks x_nontext ->
  MyModel.forward m keep x_text x_masks x_nontext = Ok out ->
  exists outs,
    out = concat outs
    /\ length outs = b
    /\ forall k keep', (k < b)%nat ->
         MyModel.forward m keep' (MyModel.sample_text k x_text)
                         (MyModel.sample_masks k x_masks)
                         (MyModel.sample_nontext k x_nontext)
         = Ok (nth k outs []).
Proof.
  intros Hwf Heval Hwidth Hbatch H.
  pose proof Hbatch as (Hb & (xn & -> & Hlen) & Hshape).
  unfold MyModel.forward in H.
  apply bind_Ok in H. destruct H as (xn' & Hxn' & H).
  apply bind_Ok in H. destruct H as (r & Hr & H).
  destruct (nontextual_per_sample _ _ _ Hwf Hxn') as [Hln Hkn].
  assert (Hce : (forall c, r = Some c -> length c = b)
                /\ forall k keep', (k < b)%nat ->
                     match MyModel.method m with
                     | None => Ok None
                     | Some _ =>
                         CorpusEncoder.forward (MyModel.corpus_encoder m) keep'
                           (MyModel.sample_text k x_text)
                           (MyModel.sample_masks k x_masks)
                     end = Ok (option_map (sample k) r)).
  { destruct (MyModel.method m).
    - apply (corpus_encoder_per_sample _ keep b x_text x_masks (Some xn) r
               Heval Hwidth Hbatch Hr).
    - injection Hr as <-. split; [discriminate | reflexivity]. }
  destruct Hce as [Hlr Hkr].
  destruct (head_per_sample _ r xn' out b ltac:(lia) Hlr H) as (outs & E & Hlo & Hk).
  exists outs. split; [exact E |]. split; [exact Hlo |].
  intros k keep' Hlt. unfold MyModel.forward, MyModel.sample_nontext.
  simpl option_map. rewrite (Hkn k) by lia. simpl bind.
  rewrite (Hkr k keep' Hlt). simpl bind.
  apply Hk. exact Hlt.
Qed.

(** ** Batched calls of row-wise layers *)

Lemma batched_document_encoder (enc : Batched.BatchTextEncoder) (m : DocumentEncoder.t)
      (keep : nat -> nat -> bool)
      (x : list (list Z)) (attention_mask : option (list (list Z))) :
  (forall x msk,
      enc x msk = Batched.rows_text (DocumentEncoder.text_encoder m) x msk) ->
  Batched.DocumentEncoder_forward enc m keep x attention_mask
  = DocumentEncoder.forward m keep x attention_mask.
Proof.
  intros H. unfold Batched.DocumentEncoder_forward, DocumentEncoder.forward.
  rewrite H. unfold Batched.rows_text. destruct attention_mask; reflexivity.
Qed.

Lemma batched_corpus_encoder03 (enc : Batched.BatchTextEncoder) (m : CorpusEncoder03.t)
      (keep : nat -> nat -> bool)
      (x : list (list (list Z))) (attention_mask : option (list (list (list Z)))) :
  (forall x msk,
      enc x msk
      = Batched.rows_text (DocumentEncoder.text_encoder (CorpusEncoder03.doc_encoder m))
                          x msk) ->
  Batched.CorpusEncoder03_forward enc m keep x attention_mask
  = CorpusEncoder03.forward m keep x attention_mask.
Proof.
  intros H. unfold Batched.CorpusEncoder03_forward, CorpusEncoder03.forward.
  cbv zeta.
  destruct (view2 (length x * CorpusEncoder03.size1 x) (concat (concat x)))
    as [e | x']; [reflexivity |].
  cbn [bind].
  destruct (match attention_mask with
            | Some msk => view2 (length x * CorpusEncoder03.size1 x) (concat (concat msk))
            | None => Raise AttributeError
            end) as [e | msk']; [reflexivity |].
  cbn [bind].
  rewrite (batched_document_encoder enc _ keep x' (Some msk') H). reflexivity.
Qed.

Lemma batched_corpus_encoder (L : Batched.layers) (m : MyModel.t)
      (keep : nat -> nat -> nat -> bool)
      (x : list (list (list (list Z))))
      (x_masks : list (option (list (list (list Z))))) :
  Batched.rowwise L m ->
  Batched.CorpusEncoder_forward L (MyModel.corpus_encoder m) keep x x_masks
  = CorpusEncoder.forward (MyModel.corpus_encoder m) keep x x_masks.
Proof.
  intros (Henc & Hecb & Hfed & _).
  unfold Batched.CorpusEncoder_forward, CorpusEncoder.forward.
  destruct (CorpusEncoder.method (MyModel.corpus_encoder m)); [| reflexivity].
  destruct (CorpusEncoder.separate (MyModel.corpus_encoder m)).
  - destruct (CorpusEncoder.encoder_ecb (MyModel.corpus_encoder m)) as [e0 |];
      [| reflexivity].
    specialize (Hecb e0 eq_refl). cbn [attr bind Ok].
    destruct (item x 0) as [? | x0]; [reflexivity |]. cbn [bind].
    destruct (item x_masks 0) as [? | m0]; [reflexivity |]. cbn [bind].
    rewrite (batched_corpus_encoder03 _ e0 (keep 0%nat) x0 m0 Hecb).
    destruct (CorpusEncoder03.forward e0 (keep 0%nat) x0 m0) as [? | x_ecb];
      [reflexivity |]. cbn [bind].
    destruct (CorpusEncoder.encoder_fed (MyModel.corpus_encoder m)) as [e1 |];
      [| reflexivity].
    specialize (Hfed e1 eq_refl). cbn [attr bind Ok].
    destruct (item x 1) as [? | x1]; [reflexivity |]. cbn [bind].
    destruct (item x_masks 1) as [? | m1]; [reflexivity |]. cbn [bind].
    rewrite (batched_corpus_encoder03 _ e1 (keep 1%nat) x1 m1 Hfed).
    reflexivity.
  - destruct (CorpusEncoder.encoder (MyModel.corpus_encoder m)) as [e0 |];
      [| reflexivity].
    specialize (Henc e0 eq_refl). cbn [attr bind Ok].
    destruct (item x 0) as [? | x0]; [reflexivity |]. cbn [bind].
    destruct (item x_masks 0) as [? | m0]; [reflexivity |]. cbn [bind].
    rewrite (batched_corpus_encoder03 _ e0 (keep 0%nat) x0 m0 Henc).
    reflexivity.
Qed.

Lemma batched_nontextual_network (L : Batched.layers) (m : MyModel.t)
      (x : option (list (list R))) :
  Batched.rowwise L m ->
  Batched.NontextualNetwork_forward L (MyModel.nontext_network m) x
  = NontextualNetwork.forward (MyModel.nontext_network m) x.
Proof.
  intros (_ & _ & _ & Hcnn & _).
  unfold Batched.NontextualNetwork_forward, NontextualNetwork.forward.
  destruct (not_None x) as [? | rows]; [reflexivity |]. cbn [bind]. cbv zeta.
  destruct (mapM (linear (NontextualNetwork.category_embedding (MyModel.nontext_network m)))
                 (map (skipn 10) rows)) as [? | cat_feat]; [reflexivity |].
  cbn [bind].
  destruct (zipWithM _ _ _) as [? | chans]; [reflexivity |]. cbn [bind].
  apply Hcnn.
Qed.

Lemma batched_classification_head (L : Batched.layers) (m : MyModel.t)
      (x_corpus : option (list (list R)))
      (x_nontext : option (list (list (list R)))) :
  Batched.rowwise L m ->
  Batched.ClassificationHead_forward L (MyModel.classifier m) x_corpus x_nontext
  = ClassificationHead.forward (MyModel.classifier m) x_corpus x_nontext.
Proof.
  intros (_ & _ & _ & _ & Hva & Hmlp).
  unfold Batched.ClassificationHead_forward, ClassificationHead.forward.
  destruct ((is_None x_corpus
             || (ClassificationHead.corpus_emb_dim (MyModel.classifier m) =? 0)%nat)
            && (is_None x_nontext
                || (ClassificationHead.nontext_dim (MyModel.classifier m) =? 0)%nat));
    [reflexivity |].
  assert (Hcall : forall x : option ClassificationHead.tensor,
             (x <- not_None x ;;
              out <- Batched.mlp L x ;; Ok (ClassificationHead.view_flat out))
             = (out <- ClassificationHead.mlp_call (MyModel.classifier m) x ;;
                Ok (ClassificationHead.view_flat out))).
  { intros x. unfold ClassificationHead.mlp_call.
    destruct (not_None x) as [? | t]; [reflexivity |]. cbn [bind].
    rewrite Hmlp. unfold Batched.rows_mlp. reflexivity. }
  destruct (is_None x_corpus
            || (ClassificationHead.corpus_emb_dim (MyModel.classifier m) =? 0)%nat).
  { cbn [bind Ok]. apply Hcall. }
  destruct (is_None x_nontext
            || (ClassificationHead.nontext_dim (MyModel.classifier m) =? 0)%nat).
  { cbn [bind Ok]. apply Hcall. }
  destruct (not_None x_corpus) as [? | xc]; [reflexivity |]. cbn [bind].
  destruct (mapM (linear (ClassificationHead.proj (MyModel.classifier m))) xc)
    as [? | q]; [reflexivity |]. cbn [bind].
  destruct (not_None x_nontext) as [? | xn]; [reflexivity |]. cbn [bind].
  rewrite Hva.
  destruct (zipWithM (ClassificationHead.vector_attention (MyModel.classifier m)) xn q)
    as [? | v]; [reflexivity |]. cbn [bind Ok]. apply Hcall.
Qed.

(** With row-wise layers the pass with batched calls is the pass sample by
    sample. *)
Lemma batched_forward (L : Batched.layers) (m : MyModel.t)
      (keep : nat -> nat -> nat -> bool)
      (x_text : list (list (list (list Z))))
      (x_masks : list (option (list (list (list Z)))))
      (x_nontext : option (list (list R))) :
  Batched.rowwise L m ->
  Batched.MyModel_forward L m keep x_text x_masks x_nontext
  = MyModel.forward m keep x_text x_masks x_nontext.
Proof.
  intros H. unfold Batched.MyModel_forward, MyModel.forward.
  rewrite (batched_nontextual_network L m x_nontext H).
  destruct (NontextualNetwork.forward (MyModel.nontext_network m) x_nontext)
    as [? | xn]; [reflexivity |]. cbn [bind].
  rewrite (batched_corpus_encoder L m keep x_text x_masks H).
  destruct (match MyModel.method m with
            | Some _ => CorpusEncoder.forward (MyModel.corpus_encoder m) keep x_text x_masks
            | None => Ok None
            end) as [? | xc]; [reflexivity |]. cbn [bind].
  apply (batched_classification_head L m xc (Some xn) H).
Qed.

(** ** Batch independence *)

(** C3 (amended). Exact real arithmetic.  In evaluation mode, when each of
    the layers called on the whole batch (the transformer, [CNN1D],
    [VectorAttention], the MLP) computes every row of its result from the
    matching row of its input alone: for two passes over batches of at
    least one sample each, the output of the first pass is made of one
    block per sample, so is the output of the second, every block is what
    the pass returns on its sample alone, and when sample [i] of the first
    batch and sample [j] of the second have the same features their blocks
    are equal, whatever the other samples, their number and their order. *)
Theorem batch_independence
        (L : Batched.layers)
        (m : MyModel.t) (keep1 keep2 : nat -> nat -> nat -> bool)
        (b1 b2 i j : nat)
        (x_text1 x_text2 : list (list (list (list Z))))
        (x_masks1 x_masks2 : list (option (list (list (list Z)))))
        (x_nontext1 x_nontext2 : option (list (list R)))
        (out1 out2 : list R) :
  Batched.rowwise L m ->
  NontextualNetwork.wf (MyModel.nontext_network m) = true ->
  CorpusEncoder.evaluating (MyModel.corpus_encoder m) ->
  CorpusEncoder.uniform_hidden (MyModel.corpus_encoder m) ->
  MyModel.batch b1 x_text1 x_masks1 x_nontext1 ->
  MyModel.batch b2 x_text2 x_masks2 x_nontext2 ->
  Batched.MyModel_forward L m keep1 x_text1 x_masks1 x_nontext1 = Ok out1 ->
  Batched.MyModel_forward L m keep2 x_text2 x_masks2 x_nontext2 = Ok out2 ->
  (i < b1)%nat -> (j < b2)%nat ->
  MyModel.sample_text i x_text1 = MyModel.sample_text j x_text2 ->
  MyModel.sample_masks i x_masks1 = MyModel.sample_masks j x_masks2 ->
  MyModel.sample_nontext i x_nontext1 = MyModel.sample_nontext j x_nontext2 ->
  exists outs1 outs2,
    out1 = concat outs1 /\ length outs1 = b1
    /\ out2 = concat outs2 /\ length outs2 = b2
    /\ nth i outs1 [] = nth j outs2 []
    /\ (forall k keep, (k < b1)%nat ->
          Batched.MyModel_forward L m keep (MyModel.sample_text k x_text1)
                                  (MyModel.sample_masks k x_masks1)
                                  (MyModel.sample_nontext k x_nontext1)
          = Ok (nth k outs1 []))
    /\ (forall k keep, (k < b2)%nat ->
          Batched.MyModel_forward L m keep (MyModel.sample_text k x_text2)
                                  (MyModel.sample_masks k x_masks2)
                                  (MyModel.sample_nontext k x_nontext2)
          = Ok (nth k outs2 [])).
Proof.
  intros Hrow Hwf Heval Hwidth Hb1 Hb2 H1 H2 Hi Hj Et Em En.
  rewrite (batched_forward L m _ _ _ _ Hrow) in H1.
  rewrite (batched_forward L m _ _ _ _ Hrow) in H2.
  destruct (forward_per_sample m keep1 b1 _ _ _ out1 Hwf Heval Hwidth Hb1 H1)
    as (outs1 & E1 & L1 & K1).
  destruct (forward_per_sample m keep2 b2 _ _ _ out2 Hwf Heval Hwidth Hb2 H2)
    as (outs2 & E2 & L2 & K2).
  exists outs1, outs2. repeat split; try assumption.
  - pose proof (K1 i keep1 Hi) as Hi1. pose proof (K2 j keep1 Hj) as Hj2.
    rewrite Et, Em, En in Hi1. rewrite Hi1 in Hj2.
    injection Hj2 as E. exact E.
  - intros k keep Hk. rewrite (batched_forward L m _ _ _ _ Hrow). apply K1. exact Hk.
  - intros k keep Hk. rewrite (batched_forward L m _ _ _ _ Hrow). apply K2. exact Hk.
Qed.

Lemma model_single_encoder :
  MyModel.corpus_encoder Examples.model_single
  = CorpusEncoder.mk (Some "model_03"%string) false (Some Examples.encoder_stub)
                     None None (Some 32%nat).
Proof. reflexivity. Qed.

(** The pass of the example model on one sample of one document. *)
Lemma model_single_forward (keep : nat -> nat -> nat -> bool)
      (tok : Z) (toks mk : list Z) (row : list R) :
  MyModel.forward Examples.model_single keep [[[tok :: toks]]] [Some [[mk]]] (Some [row])
  = (xn <- NontextualNetwork.forward Examples.nontext_net1 (Some [row]) ;;
     ClassificationHead.forward Examples.head_32_1
       (Some [(if keep 0%nat 0%nat 0%nat then IZR tok / (1 - 0.5) else 0)
                :: repeat 0 31])
       (Some xn)).
Proof.
  unfold MyModel.forward.
  change (MyModel.nontext_network Examples.model_single) with Examples.nontext_net1.
  change (MyModel.classifier Examples.model_single) with Examples.head_32_1.
  change (MyModel.method Examples.model_single) with (Some "model_03"%string).
  rewrite model_single_encoder.
  destruct (NontextualNetwork.forward Examples.nontext_net1 (Some [row]));
    [reflexivity |].
  cbn [bind]. unfold CorpusEncoder.forward.
  cbn [CorpusEncoder.method CorpusEncoder.separate CorpusEncoder.encoder attr
       item nth_error bind Ok].
  rewrite encoder_stub_single. reflexivity.
Qed.

(** In training mode two passes over the same batch of one sample differ
    with the dropout draws: all hidden features kept in the first pass,
    all dropped in the second. *)
Lemma training_mode_counterexample :
  exists out1 out2,
    MyModel.forward Examples.model_single (fun _ _ _ => true)
                    Examples.text_one Examples.masks_one (Some [Examples.row19])
    = Ok out1
    /\ MyModel.forward Examples.model_single (fun _ _ _ => false)
                       Examples.text_one Examples.masks_one (Some [Examples.row19])
       = Ok out2
    /\ out1 <> out2.
Proof.
  eexists. eexists. split; [| split].
  - unfold Examples.text_one, Examples.masks_one.
    rewrite model_single_forward.
    unfold ClassificationHead.forward, Examples.head_32_1, ClassificationHead.init.
    simpl. reflexivity.
  - unfold Examples.text_one, Examples.masks_one.
    rewrite model_single_forward.
    unfold ClassificationHead.forward, Examples.head_32_1, ClassificationHead.init.
    simpl. reflexivity.
  - intros H. injection H as H. lra.
Qed.

Lemma model_single_eval_encoders (e : CorpusEncoder03.t) :
  CorpusEncoder.encoder (MyModel.corpus_encoder Examples.model_single_eval) = Some e
  \/ CorpusEncoder.encoder_ecb (MyModel.corpus_encoder Examples.model_single_eval) = Some e
  \/ CorpusEncoder.encoder_fed (MyModel.corpus_encoder Examples.model_single_eval) = Some e ->
  e = CorpusEncoder03.eval Examples.encoder_stub.
Proof.
  change (CorpusEncoder.encoder (MyModel.corpus_encoder Examples.model_single_eval))
    with (Some (CorpusEncoder03.eval Examples.encoder_stub)).
  change (CorpusEncoder.encoder_ecb (MyModel.corpus_encoder Examples.model_single_eval))
    with (@None CorpusEncoder03.t).
  change (CorpusEncoder.encoder_fed (MyModel.corpus_encoder Examples.model_single_eval))
    with (@None CorpusEncoder03.t).
  intros [H | [H | H]]; congruence.
Qed.

Lemma encoder_stub_eval_docs (keep : nat -> nat -> bool) (docs masks : list (list Z)) :
  docs <> [] ->
  length masks = length docs ->
  Forall (fun d => length d = 2%nat) docs ->
  Forall (fun d => length d = 2%nat) masks ->
  CorpusEncoder03.forward (CorpusEncoder03.eval Examples.encoder_stub) keep
                          (map (fun d => [d]) docs)
                          (Some (map (fun d => [d]) masks))
  = Ok (map (fun d => IZR (hd 0%Z d) :: repeat 0 31) docs).
Proof.
  intros Hne Hlm Hdocs Hmasks.
  exact (stub_forward_docs 767 31 0.5 false 32 keep 1 2 docs masks
           eq_refl Hne Hlm Hdocs Hmasks).
Qed.

Lemma vsum_length (d : nat) (rows : list (list R)) :
  Forall (fun s => length s = d) rows -> length (vsum d rows) = d.
Proof.
  induction 1 as [| s rows Hs _ IH].
  - apply repeat_length.
  - change (vsum d (s :: rows)) with (vadd s (vsum d rows)).
    unfold vadd. rewrite map2_length; lia.
Qed.

Lemma mlp_stub_width_1 (rows : list (list R)) :
  Forall (fun s => length s = 1%nat) rows ->
  exists o, Examples.mlp_stub 1 (vsum 1 rows) = Ok o.
Proof.
  intros H. unfold Examples.mlp_stub.
  rewrite (vsum_length 1 rows H). simpl. eexists. reflexivity.
Qed.

Lemma returned_Ok (r : result (list R)) :
  (exists v, r = Ok v) -> r = Ok (Examples.returned r).
Proof.
  intros (v & ->). reflexivity.
Qed.

(** The example model in evaluation mode accepts every batch whose samples
    have one document of two tokens and a nontextual row of 19 entries. *)
Lemma model_single_eval_forward_ok (docs masks : list (list Z)) (rows : list (list R)) :
  docs <> [] ->
  length masks = length docs ->
  length rows = length docs ->
  Forall (fun d => length d = 2%nat) docs ->
  Forall (fun d => length d = 2%nat) masks ->
  Forall (fun r => length r = 19%nat) rows ->
  exists v,
    MyModel.forward Examples.model_single_eval Examples.keep_all
                    [map (fun d => [d]) docs] [Some (map (fun d => [d]) masks)]
                    (Some rows)
    = Ok v.
Proof.
  intros Hne Hlm Hlr Hdocs Hmasks Hrows.
  unfold MyModel.forward.
  change (MyModel.nontext_network Examples.model_single_eval)
    with Examples.nontext_net1.
  change (MyModel.classifier Examples.model_single_eval) with Examples.head_32_1.
  change (MyModel.method Examples.model_single_eval) with (Some "model_03"%string).
  change (MyModel.corpus_encoder Examples.model_single_eval)
    with (CorpusEncoder.mk (Some "model_03"%string) false
            (Some (CorpusEncoder03.eval Examples.encoder_stub)) None None
            (Some 32%nat)).
  rewrite (nontextual_forward_rows Examples.nontext_net1 rows eq_refl Hrows).
  rewrite (mapM_total _ (fun row =>
             map (fun t => repeat (Rsum (map (fun ch => nth t ch 0)
                                            (NontextualNetwork.channels
                                               Examples.nontext_net1 row))) 1)
                 (seq 0 (CorpusEncoder03.size1
                           (NontextualNetwork.channels Examples.nontext_net1 row)))))
    by reflexivity.
  cbn [bind Ok]. unfold CorpusEncoder.forward.
  cbn [CorpusEncoder.method CorpusEncoder.separate CorpusEncoder.encoder attr
       item nth_error bind Ok].
  rewrite (encoder_stub_eval_docs (Examples.keep_all 0%nat) docs masks
             Hne Hlm Hdocs Hmasks).
  cbn [bind Ok].
  rewrite (head_both_present Examples.head_32_1) by discriminate.
  rewrite mapM_map.
  rewrite (mapM_total _ (fun d => affine (ClassificationHead.proj Examples.head_32_1)
                                         (IZR (hd 0%Z d) :: repeat 0 31)))
    by (intros d _; apply linear_Ok; reflexivity).
  cbn [bind Ok].
  rewrite zipWithM_map_l, zipWithM_map_r.
  rewrite (zipWithM_total _ (fun row d =>
             vsum 1 (map (fun s => vscale (dot s (affine (ClassificationHead.proj
                                                            Examples.head_32_1)
                                                         (IZR (hd 0%Z d) :: repeat 0 31))) s)
                         (map (fun t => repeat (Rsum (map (fun ch => nth t ch 0)
                                                         (NontextualNetwork.channels
                                                            Examples.nontext_net1 row))) 1)
                              (seq 0 (CorpusEncoder03.size1
                                        (NontextualNetwork.channels
                                           Examples.nontext_net1 row)))))));
    [| exact Hlr | reflexivity].
  cbn [bind Ok].
  destruct (mapM_exists (fun _ => True) (ClassificationHead.mlp Examples.head_32_1)
              (map2 (fun row d =>
                       vsum 1 (map (fun s => vscale (dot s (affine (ClassificationHead.proj
                                                                      Examples.head_32_1)
                                                                   (IZR (hd 0%Z d) :: repeat 0 31))) s)
                                   (map (fun t => repeat (Rsum (map (fun ch => nth t ch 0)
                                                                   (NontextualNetwork.channels
                                                                      Examples.nontext_net1 row))) 1)
                                        (seq 0 (CorpusEncoder03.size1
                                                  (NontextualNetwork.channels
                                                     Examples.nontext_net1 row))))))
                    rows docs)) as (o & Ho & _).
  { apply Forall_map2.
    clear - Hlr. revert docs Hlr. induction rows as [| r rows IH];
      intros [| d docs] H; simpl in H; try discriminate; constructor;
      [| apply IH; lia].
    destruct (mlp_stub_width_1 (map (fun s => vscale (dot s (affine (ClassificationHead.proj
                                                                  Examples.head_32_1)
                                                               (IZR (hd 0%Z d) :: repeat 0 31))) s)
                               (map (fun t => repeat (Rsum (map (fun ch => nth t ch 0)
                                                               (NontextualNetwork.channels
                                                                  Examples.nontext_net1 r))) 1)
                                    (seq 0 (CorpusEncoder03.size1
                                              (NontextualNetwork.channels
                                                 Examples.nontext_net1 r))))))
      as (o & Ho).
    - apply Forall_map. apply Forall_map. apply Forall_forall. intros t _.
      unfold vscale. rewrite length_map. apply repeat_length.
    - exists o. split; [exact Ho | exact I]. }
  rewrite Ho. eexists. reflexivity.
Qed.

Lemma layers_stub_rowwise : Batched.rowwise Examples.layers_stub Examples.model_single_eval.
Proof.
  repeat split.
  - intros e He x msk. rewrite (model_single_eval_encoders e (or_introl He)).
    reflexivity.
  - intros e He. discriminate He.
  - intros e He. discriminate He.
Qed.

Lemma batch_independence_witness :
  exists outs1 outs2,
    Examples.out_two = concat outs1 /\ length outs1 = 2%nat
    /\ Examples.out_alone = concat outs2 /\ length outs2 = 1%nat
    /\ nth 1 outs1 [] = nth 0 outs2 []
    /\ (forall k keep, (k < 2)%nat ->
          Batched.MyModel_forward Examples.layers_stub Examples.model_single_eval keep
                                  (MyModel.sample_text k Examples.text_two)
                                  (MyModel.sample_masks k Examples.masks_two)
                                  (MyModel.sample_nontext k Examples.nontext_two)
          = Ok (nth k outs1 []))
    /\ (forall k keep, (k < 1)%nat ->
          Batched.MyModel_forward Examples.layers_stub Examples.model_single_eval keep
                                  (MyModel.sample_text k Examples.text_alone)
                                  (MyModel.sample_masks k Examples.masks_alone)
                                  (MyModel.sample_nontext k Examples.nontext_alone)
          = Ok (nth k outs2 [])).
Proof.
  apply (batch_independence
           Examples.layers_stub
           Examples.model_single_eval Examples.keep_all Examples.keep_all
           2 1 1 0
           Examples.text_two Examples.text_alone
           Examples.masks_two Examples.masks_alone
           Examples.nontext_two Examples.nontext_alone
           Examples.out_two Examples.out_alone).
  - exact layers_stub_rowwise.
  - reflexivity.
  - intros e He. rewrite (model_single_eval_encoders e He). reflexivity.
  - intros e He. rewrite (model_single_eval_encoders e He).
    exists 768%nat. exact text_stub_width.
  - split; [lia |]. split.
    + eexists. split; reflexivity.
    + constructor; [| constructor].
      exists 1%nat, 2%nat, 2%nat. eexists.
      split; [lia |]. split; [| split; [reflexivity |]];
        (split; [reflexivity | repeat constructor]).
  - split; [lia |]. split.
    + eexists. split; reflexivity.
    + constructor; [| constructor].
      exists 1%nat, 2%nat, 2%nat. eexists.
      split; [lia |]. split; [| split; [reflexivity |]];
        (split; [reflexivity | repeat constructor]).
  - rewrite (batched_forward _ _ _ _ _ _ layers_stub_rowwise).
    apply returned_Ok. apply (model_single_eval_forward_ok [[5; 7]; [6; 7]]%Z
                                 [[1; 1]; [1; 1]]%Z [Examples.row19; Examples.row19']);
      [discriminate | reflexivity | reflexivity | repeat constructor ..].
  - rewrite (batched_forward _ _ _ _ _ _ layers_stub_rowwise).
    apply returned_Ok. apply (model_single_eval_forward_ok [[6; 7]]%Z
                                 [[1; 1]]%Z [Examples.row19']);
      [discriminate | reflexivity | reflexivity | repeat constructor ..].
  - lia.
  - lia.
  - reflexivity.
  - reflexivity.
  - reflexivity.
Defined.

(** Without the hypothesis on the layers the blocks depend on the batch:
    with an extractor whose result depends on the number of samples, the
    block of a sample in a batch of two is not what the pass returns on
    this sample alone. *)
Lemma batch_dependent_layer_example :
  exists alone first second,
    Batched.MyModel_forward Examples.layers_batch_size Examples.model_no_text
                            Examples.keep_all [] [] (Some [Examples.row19'])
    = Ok [alone]
    /\ Batched.MyModel_forward Examples.layers_batch_size Examples.model_no_text
                               Examples.keep_all [] []
                               (Some [Examples.row19; Examples.row19'])
       = Ok [first; second]
    /\ second <> alone.
Proof.
  eexists. eexists. eexists. split; [reflexivity |]. split; [reflexivity |].
  simpl. lra.
Qed.

(* ================================================================== *)
(** * Further properties of [model/model_03/model.py] *)
(* ================================================================== *)

(** ** [AttentionWithContext]: the mask is optional *)

Lemma mapM2_shape {A B : Type} (f : A -> result B)
      (x : list (list A)) (y : list (list B)) :
  mapM (mapM f) x = Ok y -> Forall2 (fun ys xs => length ys = length xs) y x.
Proof.
  intros H. apply mapM_Ok in H.
  induction H as [| xs ys x y Hxy _ IH]; constructor; [| exact IH].
  apply (mapM_length _ _ _ Hxy).
Qed.

Lemma exp_scores_shape (m : AttentionWithContext.t)
      (x : list (list (list R))) (a : list (list R)) :
  AttentionWithContext.exp_scores m x = Ok a ->
  Forall2 (fun row xs => length row = length xs) a x.
Proof.
  unfold AttentionWithContext.exp_scores. intros H.
  apply bind_Ok in H. destruct H as (uit & Huit & H).
  apply bind_Ok in H. destruct H as (ait & Hait & H).
  assert (E : map (map exp) ait = a) by (unfold Ok in H; congruence).
  subst a. apply mapM2_shape in Huit. apply mapM2_shape in Hait.
  clear H. revert ait uit Huit Hait.
  induction x as [| xs x IH]; intros ait uit Huit Hait.
  - inversion Huit; subst. inversion Hait; subst. constructor.
  - inversion Huit as [| us xs' uit' x' Hu Huit']; subst.
    simpl in Hait. inversion Hait as [| as_ us' ait' uit'' Ha Hait']; subst.
    simpl. constructor.
    + rewrite length_map. rewrite length_map in Ha. lia.
    + apply (IH ait' uit'); assumption.
Qed.

Lemma map2_mask_ones (a : list (list R)) (x : list (list (list R))) :
  Forall2 (fun row xs => length row = length xs) a x ->
  map2 (map2 (fun v z => v * IZR z)) a (map (map (fun _ => 1%Z)) x) = a.
Proof.
  induction 1 as [| row xs a x Hlen _ IH]; simpl; [reflexivity |].
  rewrite IH. f_equal. clear IH. revert xs Hlen.
  induction row as [| v row IHr]; intros [| r xs] Hlen; simpl in *;
    try discriminate; [reflexivity |].
  rewrite IHr by lia. f_equal. ring.
Qed.

Lemma apply_mask_ones (a : list (list R)) (x : list (list (list R))) :
  Forall2 (fun row xs => length row = length xs) a x ->
  AttentionWithContext.apply_mask a (Some (map (map (fun _ => 1%Z)) x)) = Ok a.
Proof.
  intros H. rewrite apply_mask_Some.
  - rewrite (map2_mask_ones a x H). reflexivity.
  - clear - H. induction H as [| row xs a x Hlen _ IH]; simpl; constructor.
    + rewrite length_map. exact Hlen.
    + exact IH.
Qed.

(** X1. Whatever the layer and the input, a call without a mask returns
    what the call with a mask of ones returns (the same value or the same
    exception): no mask means that every step is valid. *)
Theorem attention_mask_None_all_valid
        (m : AttentionWithContext.t) (x : list (list (list R))) :
  AttentionWithContext.forward m x None
  = AttentionWithContext.forward m x (Some (map (map (fun _ => 1%Z)) x)).
Proof.
  unfold AttentionWithContext.forward.
  destruct (AttentionWithContext.exp_scores m x) as [e | a] eqn:Ha.
  - (* the scores cannot be computed: the mask is not reached *)
    reflexivity.
  - (* the scores have the sizes of the input, and so has the mask of ones *)
    pose proof (exp_scores_shape m x a Ha) as Hshape.
    cbn [bind]. rewrite (apply_mask_ones a x Hshape). reflexivity.
Qed.

(** ** [AttentionWithContext]: sizes of the results *)

Lemma ones_shape (x : list (list (list R))) :
  Forall2 (fun xs (ms : list Z) => length xs = length ms) x
          (map (map (fun _ => 1%Z)) x).
Proof.
  induction x as [| xs x IH]; simpl; constructor;
    [rewrite length_map; reflexivity | exact IH].
Qed.

(** A call is a call with a mask of the sizes of the input. *)
Lemma forward_with_mask (m : AttentionWithContext.t)
      (x : list (list (list R))) (mask : option (list (list Z))) :
  match mask with
  | Some ms => Forall2 (fun xs row => length xs = length row) x ms
  | None => True
  end ->
  exists ms,
    AttentionWithContext.forward m x mask
    = AttentionWithContext.forward m x (Some ms)
    /\ Forall2 (fun xs row => length xs = length row) x ms.
Proof.
  intros Hm. destruct mask as [ms |].
  - exists ms. split; [reflexivity | exact Hm].
  - exists (map (map (fun _ => 1%Z)) x). split; [| apply ones_shape].
    unfold AttentionWithContext.forward.
    destruct (AttentionWithContext.exp_scores m x) as [e | a] eqn:Ha;
      [reflexivity |].
    cbn [bind]. rewrite (apply_mask_ones a x (exp_scores_shape m x a Ha)).
    reflexivity.
Qed.

Lemma pooled_shape (d : nat) (a : list (list R)) (x : list (list (list R))) :
  Forall2 (fun arow xs => length arow = length xs) a x ->
  Forall (Forall (fun r => length r = d)) x ->
  length (map2 (fun arow xs => vsum d (map2 vscale arow xs)) a x) = length x
  /\ Forall (fun v => length v = d)
            (map2 (fun arow xs => vsum d (map2 vscale arow xs)) a x).
Proof.
  induction 1 as [| arow xs a x Hlen _ IH]; intros Hx; simpl.
  - split; [reflexivity | constructor].
  - inversion Hx as [| ? ? Hxs Hx']; subst.
    destruct (IH Hx') as [IH1 IH2]. split; [rewrite IH1; reflexivity |].
    constructor; [| exact IH2].
    apply vsum_length. apply (map2_Forall_r (fun r => length r = d)); [| exact Hxs].
    intros c r Hr. unfold vscale. rewrite length_map. exact Hr.
Qed.

Lemma forward_shape (m : AttentionWithContext.t)
      (x : list (list (list R))) (mask : list (list Z)) :
  AttentionWithContext.wf m = true ->
  Forall (Forall (fun r => length r = AttentionWithContext.input_shape m)) x ->
  Forall2 (fun xs ms => length xs = length ms) x mask ->
  exists pooled a,
    AttentionWithContext.forward m x (Some mask)
    = Ok (pooled, if AttentionWithContext.return_coefficients m then Some a else None)
    /\ length pooled = length x
    /\ Forall (fun v => length v = AttentionWithContext.input_shape m) pooled
    /\ Forall2 (fun row xs => length row = length xs) a x.
Proof.
  intros Hwf Hx Hm.
  destruct (wf_parts m Hwf) as (_ & _ & HWi & _).
  rewrite (forward_masked m Hwf x mask Hx Hm). rewrite HWi.
  pose proof (masked_shape m x mask Hm) as Hs.
  destruct (pooled_shape (AttentionWithContext.input_shape m) _ x Hs Hx) as [H1 H2].
  eexists. eexists. split; [reflexivity |].
  split; [exact H1 |]. split; [exact H2 | exact Hs].
Qed.

(** X2. For a well-formed layer, steps of [input_shape] features and a
    mask (when one is given) with one entry per step, the call returns:
    the pooled tensor has one vector of [input_shape] features per sample
    (also for a sample without steps), and the coefficient tensor, returned
    exactly when [return_coefficients] is set, has one entry per step. *)
Theorem attention_output_shape
        (m : AttentionWithContext.t)
        (x : list (list (list R))) (mask : option (list (list Z))) :
  AttentionWithContext.wf m = true ->
  Forall (Forall (fun r => length r = AttentionWithContext.input_shape m)) x ->
  match mask with
  | Some ms => Forall2 (fun xs row => length xs = length row) x ms
  | None => True
  end ->
  exists pooled coeffs,
    AttentionWithContext.forward m x mask = Ok (pooled, coeffs)
    /\ length pooled = length x
    /\ Forall (fun v => length v = AttentionWithContext.input_shape m) pooled
    /\ match coeffs with
       | Some a => AttentionWithContext.return_coefficients m = true
                   /\ Forall2 (fun row xs => length row = length xs) a x
       | None => AttentionWithContext.return_coefficients m = false
       end.
Proof.
  intros Hwf Hx Hm.
  destruct (forward_with_mask m x mask Hm) as (ms & -> & Hms).
  destruct (forward_shape m x ms Hwf Hx Hms) as (pooled & a & Hf & H1 & H2 & H3).
  rewrite Hf. exists pooled.
  destruct (AttentionWithContext.return_coefficients m) eqn:Hrc.
  - exists (Some a). repeat split; assumption.
  - exists None. repeat split; assumption.
Qed.

Lemma attention_output_shape_witness :
  exists pooled coeffs,
    AttentionWithContext.forward Examples.att_flat Examples.att_flat_x None
    = Ok (pooled, coeffs)
    /\ length pooled = 2%nat
    /\ Forall (fun v => length v = 2%nat) pooled
    /\ match coeffs with
       | Some a => AttentionWithContext.return_coefficients Examples.att_flat = true
                   /\ Forall2 (fun row xs => length row = length xs)
                              a Examples.att_flat_x
       | None => AttentionWithContext.return_coefficients Examples.att_flat = false
       end.
Proof.
  apply (attention_output_shape Examples.att_flat Examples.att_flat_x None).
  - reflexivity.
  - repeat constructor.
  - exact I.
Defined.

(** ** [generate_square_subsequent_mask] *)

Lemma repeat_map_seq {A : Type} (c : A) (a n : nat) :
  repeat c n = map (fun _ => c) (seq a n).
Proof.
  revert a. induction n as [| n IH]; intros a; simpl; [reflexivity |].
  rewrite (IH (S a)). reflexivity.
Qed.

Lemma map2_seq_map {A B : Type} (f : nat -> A -> B) (g : nat -> A) (a n : nat) :
  map2 f (seq a n) (map g (seq a n)) = map (fun i => f i (g i)) (seq a n).
Proof.
  revert a. induction n as [| n IH]; intros a; simpl; [reflexivity |].
  rewrite IH. reflexivity.
Qed.

Lemma map2_map_map {A B C D : Type} (h : B -> C -> D) (f : A -> B) (g : A -> C)
      (l : list A) :
  map2 h (map f l) (map g l) = map (fun a => h (f a) (g a)) l.
Proof.
  induction l as [| a l IH]; simpl; [reflexivity | rewrite IH; reflexivity].
Qed.

Lemma nth_map_seq {A : Type} (g : nat -> A) (n j : nat) (d : A) :
  (j < n)%nat -> nth j (map g (seq 0 n)) d = g j.
Proof.
  intros H. rewrite (nth_indep _ d (g 0%nat)) by (rewrite length_map, length_seq; exact H).
  rewrite map_nth, seq_nth by exact H. reflexivity.
Qed.

Lemma ones_table (n k : nat) :
  AttentionWithContext.ones n k
  = map (fun _ => map (fun _ => 1) (seq 0 k)) (seq 0 n).
Proof.
  unfold AttentionWithContext.ones.
  rewrite (repeat_map_seq _ 0 n), (repeat_map_seq 1 0 k). reflexivity.
Qed.

Lemma triu_table (n k : nat) (f : nat -> nat -> R) :
  AttentionWithContext.triu (map (fun i => map (f i) (seq 0 k)) (seq 0 n))
  = map (fun i => map (fun j => if (i <=? j)%nat then f i j else 0) (seq 0 k))
        (seq 0 n).
Proof.
  unfold AttentionWithContext.triu.
  rewrite length_map, length_seq, map2_seq_map.
  apply map_ext. intros i.
  rewrite length_map, length_seq, map2_seq_map. reflexivity.
Qed.

Lemma transpose_table {A : Type} (d : A) (n : nat) (f : nat -> nat -> A) :
  AttentionWithContext.transpose d (map (fun i => map (f i) (seq 0 n)) (seq 0 n))
  = map (fun j => map (fun i => f i j) (seq 0 n)) (seq 0 n).
Proof.
  unfold AttentionWithContext.transpose.
  assert (Hc : match map (fun i => map (f i) (seq 0 n)) (seq 0 n) with
               | [] => 0%nat
               | row :: _ => length row
               end = n).
  { destruct n as [| n]; [reflexivity |].
    simpl. rewrite length_map, length_seq. reflexivity. }
  rewrite Hc. apply map_ext_in. intros j Hj. apply in_seq in Hj.
  rewrite map_map. apply map_ext. intros i.
  apply nth_map_seq. lia.
Qed.

Lemma Reqb_refl (a : R) : AttentionWithContext.Reqb a a = true.
Proof.
  unfold AttentionWithContext.Reqb. destruct (Req_dec_T a a); [reflexivity | contradiction].
Qed.

Lemma Reqb_0_1 : AttentionWithContext.Reqb 0 1 = false.
Proof.
  unfold AttentionWithContext.Reqb. destruct (Req_dec_T 0 1); [lra | reflexivity].
Qed.

(** X4. [generate_square_subsequent_mask(sz)] is the [sz] x [sz] causal
    mask: entry [(i, j)] is 0 for [j <= i] (a position sees itself and the
    positions before it) and minus infinity for [j > i]. *)
Theorem square_subsequent_mask_causal (sz : nat) :
  AttentionWithContext.generate_square_subsequent_mask sz
  = map (fun i =>
           map (fun j => if (j <=? i)%nat
                         then AttentionWithContext.Finite 0
                         else AttentionWithContext.NegInf)
               (seq 0 sz))
        (seq 0 sz).
Proof.
  unfold AttentionWithContext.generate_square_subsequent_mask.
  rewrite ones_table, triu_table.
  unfold AttentionWithContext.eq_scalar. rewrite map_map.
  rewrite (map_ext _ (fun i => map (fun j => AttentionWithContext.Reqb
                                               (if (i <=? j)%nat then 1 else 0) 1)
                                   (seq 0 sz)))
    by (intros i; apply map_map).
  rewrite (transpose_table false sz
             (fun i j => AttentionWithContext.Reqb (if (i <=? j)%nat then 1 else 0) 1)).
  unfold AttentionWithContext.masked_fill, AttentionWithContext.float,
    AttentionWithContext.eq_bool.
  rewrite !map_map, !map2_map_map. apply map_ext. intros i.
  rewrite !map_map, !map2_map_map. apply map_ext. intros j.
  destruct (j <=? i)%nat.
  - rewrite Reqb_refl. reflexivity.
  - rewrite Reqb_0_1. reflexivity.
Qed.

(** ** [AttentionWithContext]: the constructor and [init_weights] *)

Lemma new_Dropout_Ok (p : R) :
  0 <= p <= 1 -> AttentionBiGRU.new_Dropout p = Ok p.
Proof.
  intros [H0 H1]. unfold AttentionBiGRU.new_Dropout.
  destruct (Rle_dec 0 p) as [_ | H]; [| contradiction].
  destruct (Rle_dec p 1) as [_ | H]; [reflexivity | contradiction].
Qed.

Lemma new_Dropout_inv (p q : R) :
  AttentionBiGRU.new_Dropout p = Ok q -> q = p /\ 0 <= p <= 1.
Proof.
  unfold AttentionBiGRU.new_Dropout.
  destruct (Rle_dec 0 p) as [H0 |]; [| discriminate].
  destruct (Rle_dec p 1) as [H1 |]; [| discriminate].
  intros H. unfold Ok in H. split; [congruence | split; assumption].
Qed.

Lemma new_Dropout_raises (p : R) :
  p < 0 \/ 1 < p ->
  AttentionBiGRU.new_Dropout p
  = Raise (ValueError "dropout probability has to be between 0 and 1").
Proof.
  intros H. unfold AttentionBiGRU.new_Dropout.
  destruct (Rle_dec 0 p) as [H0 |]; [| reflexivity].
  destruct (Rle_dec p 1) as [H1 |]; [| reflexivity].
  exfalso. lra.
Qed.

(** X5. The option [bias=False] cannot be used: [init_weights] reads
    [self.W.bias.data], so the constructor of the attention layer raises
    [AttributeError].  The constructor of [AttentionBiGRU], which hands its
    [bias] argument on, never returns a layer with [bias=False] either: it
    raises [ValueError] when the dropout probability is outside [[0, 1]],
    [ValueError] when the probability is accepted and [output_shape_2] is
    0, and [AttributeError] otherwise. *)
Theorem attention_no_bias_raises
        (input_shape output_shape_2 : nat) (return_coefficients : bool)
        (dropout : R) (bigru : GRU)
        (draw_W : nat -> nat -> R) (draw_b : nat -> R) (draw_u : nat -> nat -> R) :
  let built := AttentionBiGRU.construct input_shape output_shape_2 dropout false
                                        bigru draw_W draw_b draw_u in
  AttentionWithContext.construct input_shape return_coefficients false
                                 draw_W draw_b draw_u
  = Raise AttributeError
  /\ (forall m, built <> Ok m)
  /\ (dropout < 0 \/ 1 < dropout ->
      built = Raise (ValueError "dropout probability has to be between 0 and 1"))
  /\ (0 <= dropout <= 1 -> output_shape_2 = 0%nat ->
      built = Raise (ValueError "hidden_size must be greater than zero"))
  /\ (0 <= dropout <= 1 -> output_shape_2 <> 0%nat ->
      built = Raise AttributeError).
Proof.
  intros built.
  assert (H3 : dropout < 0 \/ 1 < dropout ->
               built = Raise (ValueError "dropout probability has to be between 0 and 1")).
  { intros H. unfold built, AttentionBiGRU.construct.
    rewrite (new_Dropout_raises dropout H). reflexivity. }
  assert (H4 : 0 <= dropout <= 1 -> output_shape_2 = 0%nat ->
               built = Raise (ValueError "hidden_size must be greater than zero")).
  { intros Hp ->. unfold built, AttentionBiGRU.construct.
    rewrite (new_Dropout_Ok dropout Hp). reflexivity. }
  assert (H5 : 0 <= dropout <= 1 -> output_shape_2 <> 0%nat ->
               built = Raise AttributeError).
  { intros Hp Hh. unfold built, AttentionBiGRU.construct.
    rewrite (new_Dropout_Ok dropout Hp). unfold AttentionBiGRU.new_GRU.
    rewrite (proj2 (Nat.eqb_neq _ _) Hh). reflexivity. }
  split; [reflexivity |]. split; [| split; [exact H3 | split; [exact H4 | exact H5]]].
  intros m Hm.
  destruct (Rle_dec 0 dropout) as [H0 | H0].
  - destruct (Rle_dec dropout 1) as [H1 | H1].
    + destruct (Nat.eq_dec output_shape_2 0) as [Hh | Hh].
      * rewrite (H4 (conj H0 H1) Hh) in Hm. discriminate.
      * rewrite (H5 (conj H0 H1) Hh) in Hm. discriminate.
    + rewrite H3 in Hm; [discriminate | right; lra].
  - rewrite H3 in Hm; [discriminate | left; lra].
Qed.

Lemma attention_no_bias_raises_witness :
  AttentionBiGRU.construct 3 2 (1 / 2) false Examples.gru_stub
                           (fun _ _ => 1 / 2) (fun _ => 0) (fun _ _ => 3 / 4)
  = Raise AttributeError
  /\ AttentionBiGRU.construct 3 2 (3 / 2) false Examples.gru_stub
                              (fun _ _ => 1 / 2) (fun _ => 0) (fun _ _ => 3 / 4)
     = Raise (ValueError "dropout probability has to be between 0 and 1").
Proof.
  split.
  - apply (attention_no_bias_raises 3 2 true (1 / 2) Examples.gru_stub
             (fun _ _ => 1 / 2) (fun _ => 0) (fun _ _ => 3 / 4)).
    + lra.
    + discriminate.
  - apply (attention_no_bias_raises 3 2 true (3 / 2) Examples.gru_stub
             (fun _ _ => 1 / 2) (fun _ => 0) (fun _ _ => 3 / 4)).
    right. lra.
Defined.

Lemma uniform_length (a b : R) (draw : nat -> R) (x : list R) :
  length (AttentionWithContext.uniform_ a b draw x) = length x.
Proof.
  unfold AttentionWithContext.uniform_.
  rewrite map2_length; rewrite length_seq; reflexivity.
Qed.

Lemma uniform_range (a b : R) (draw : nat -> R) (x : list R) :
  a <= b ->
  (forall j, 0 <= draw j < 1) ->
  Forall (fun v => a <= v <= b) (AttentionWithContext.uniform_ a b draw x).
Proof.
  intros Hab Hd. unfold AttentionWithContext.uniform_.
  apply (map2_Forall_r (fun _ => True)).
  - intros j _ _. specialize (Hd j). nra.
  - apply Forall_forall. intros; exact I.
Qed.

Lemma uniform2_shape (a b : R) (draw : nat -> nat -> R) (x : list (list R)) (k : nat) :
  Forall (fun row => length row = k) x ->
  length (AttentionWithContext.uniform2_ a b draw x) = length x
  /\ Forall (fun row => length row = k) (AttentionWithContext.uniform2_ a b draw x).
Proof.
  intros H. unfold AttentionWithContext.uniform2_. split.
  - rewrite map2_length; rewrite length_seq; reflexivity.
  - apply (map2_Forall_r (fun row => length row = k)); [| exact H].
    intros i row Hrow. rewrite uniform_length. exact Hrow.
Qed.

Lemma uniform2_range (a b : R) (draw : nat -> nat -> R) (x : list (list R)) :
  a <= b ->
  (forall i j, 0 <= draw i j < 1) ->
  Forall (Forall (fun v => a <= v <= b)) (AttentionWithContext.uniform2_ a b draw x).
Proof.
  intros Hab Hd. unfold AttentionWithContext.uniform2_.
  apply (map2_Forall_r (fun _ => True)).
  - intros i row _. apply uniform_range; [exact Hab | apply Hd].
  - apply Forall_forall. intros; exact I.
Qed.

Lemma forallb_length (k : nat) (x : list (list R)) :
  Forall (fun row => length row = k) x ->
  forallb (fun row => (length row =? k)%nat) x = true.
Proof.
  intros H. apply forallb_forall. intros row Hin.
  rewrite Forall_forall in H. apply Nat.eqb_eq. apply H. exact Hin.
Qed.

Lemma construct_init (D : nat) (rc : bool)
      (draw_W : nat -> nat -> R) (draw_b : nat -> R) (draw_u : nat -> nat -> R) :
  let r := AttentionWithContext.initrange in
  let W_weight := AttentionWithContext.uniform2_ (- r) r draw_W (repeat (repeat 0 D) D) in
  let W_bias := AttentionWithContext.uniform_ (- r) r draw_b (repeat 0 D) in
  let u_weight := AttentionWithContext.uniform_ (- r) r (draw_u 0%nat) (repeat 0 D) in
  AttentionWithContext.construct D rc true draw_W draw_b draw_u
  = Ok (AttentionWithContext.init D rc W_weight W_bias u_weight)
  /\ AttentionWithContext.wf (AttentionWithContext.init D rc W_weight W_bias u_weight)
     = true.
Proof.
  intros r W_weight W_bias u_weight. split; [reflexivity |].
  assert (Hrows : Forall (fun row : list R => length row = D) (repeat (repeat 0 D) D)).
  { apply Forall_forall. intros row Hin. apply repeat_spec in Hin. subst row.
    apply repeat_length. }
  destruct (uniform2_shape (- r) r draw_W _ D Hrows) as [HW1 HW2].
  rewrite repeat_length in HW1.
  unfold AttentionWithContext.wf, AttentionWithContext.init, Linear_wf.
  cbn [AttentionWithContext.W AttentionWithContext.u AttentionWithContext.input_shape
       weight bias in_features out_features length forallb].
  fold W_weight in HW1. rewrite HW1, (forallb_length D W_weight HW2).
  unfold W_bias, u_weight. rewrite !uniform_length, !repeat_length, !Nat.eqb_refl.
  reflexivity.
Qed.

(** X6. With [bias=True] the constructor returns a well-formed layer: [W]
    is [input_shape] x [input_shape] with an offset of [input_shape]
    entries, [u] is one row of [input_shape] entries, and every entry of
    the three tensors is at most 0.1 in absolute value, whatever the draws. *)
Theorem attention_construct_range
        (input_shape : nat) (return_coefficients : bool)
        (draw_W : nat -> nat -> R) (draw_b : nat -> R) (draw_u : nat -> nat -> R) :
  (forall i j, 0 <= draw_W i j < 1) ->
  (forall j, 0 <= draw_b j < 1) ->
  (forall i j, 0 <= draw_u i j < 1) ->
  exists W_weight W_bias u_weight,
    AttentionWithContext.construct input_shape return_coefficients true
                                   draw_W draw_b draw_u
    = Ok (AttentionWithContext.init input_shape return_coefficients
                                    W_weight W_bias u_weight)
    /\ AttentionWithContext.wf
         (AttentionWithContext.init input_shape return_coefficients
                                    W_weight W_bias u_weight) = true
    /\ Forall (Forall (fun v => Rabs v <= 0.1)) W_weight
    /\ Forall (fun v => Rabs v <= 0.1) W_bias
    /\ Forall (fun v => Rabs v <= 0.1) u_weight.
Proof.
  intros HW Hb Hu.
  destruct (construct_init input_shape return_coefficients draw_W draw_b draw_u)
    as [Hc Hwf].
  eexists. eexists. eexists. split; [exact Hc |]. split; [exact Hwf |].
  assert (Hr : - AttentionWithContext.initrange <= AttentionWithContext.initrange)
    by (unfold AttentionWithContext.initrange; lra).
  assert (Habs : forall v, - AttentionWithContext.initrange <= v
                           <= AttentionWithContext.initrange -> Rabs v <= 0.1).
  { intros v Hv. unfold AttentionWithContext.initrange in Hv.
    apply Rabs_le. lra. }
  split; [| split].
  - eapply Forall_impl; [| apply uniform2_range; [exact Hr | exact HW]].
    intros row Hrow. eapply Forall_impl; [exact Habs | exact Hrow].
  - eapply Forall_impl; [exact Habs | apply uniform_range; [exact Hr | exact Hb]].
  - eapply Forall_impl; [exact Habs | apply uniform_range; [exact Hr | apply Hu]].
Qed.

Lemma attention_construct_range_witness :
  exists W_weight W_bias u_weight,
    AttentionWithContext.construct 2 true true
      (fun _ _ => 1 / 2) (fun _ => 0) (fun _ _ => 3 / 4)
    = Ok (AttentionWithContext.init 2 true W_weight W_bias u_weight)
    /\ AttentionWithContext.wf
         (AttentionWithContext.init 2 true W_weight W_bias u_weight) = true
    /\ Forall (Forall (fun v => Rabs v <= 0.1)) W_weight
    /\ Forall (fun v => Rabs v <= 0.1) W_bias
    /\ Forall (fun v => Rabs v <= 0.1) u_weight.
Proof.
  apply (attention_construct_range 2 true
           (fun _ _ => 1 / 2) (fun _ => 0) (fun _ _ => 3 / 4)).
  - intros _ _. lra.
  - intros _. lra.
  - intros _ _. lra.
Defined.

(** ** [AttentionWithContext]: a layer with small scoring weights *)

Lemma tanh_abs_le_1 (x : R) : Rabs (tanh x) <= 1.
Proof.
  unfold tanh, sinh, cosh.
  pose proof (exp_pos x) as Ha. pose proof (exp_pos (- x)) as Hb.
  set (a := exp x) in *. set (b := exp (- x)) in *.
  assert (Hd : 0 < (a + b) / 2) by lra.
  apply Rabs_le. split.
  - replace ((a - b) / 2 / ((a + b) / 2)) with (- ((b - a) / 2 / ((a + b) / 2)))
      by (field; lra).
    apply Ropp_le_contravar. apply div_le_iff; lra.
  - apply div_le_iff; lra.
Qed.

Lemma dot_bound (a : R) (w v : list R) :
  0 <= a ->
  Forall (fun c => Rabs c <= a) w ->
  Forall (fun c => Rabs c <= 1) v ->
  Rabs (dot w v) <= a * INR (length v).
Proof.
  intros Ha Hw. revert v.
  induction Hw as [| c w Hc _ IH]; intros v Hv.
  - simpl. rewrite Rabs_R0. apply Rmult_le_pos; [exact Ha | apply pos_INR].
  - destruct v as [| y v].
    + simpl. rewrite Rabs_R0. lra.
    + inversion Hv as [| ? ? Hy Hv']; subst.
      change (dot (c :: w) (y :: v)) with (c * y + dot w v).
      change (length (y :: v)) with (S (length v)). rewrite S_INR.
      specialize (IH v Hv').
      pose proof (Rabs_triang (c * y) (dot w v)) as Ht.
      rewrite Rabs_mult in Ht.
      pose proof (Rabs_pos c) as Hc0. pose proof (Rabs_pos y) as Hy0.
      assert (Rabs c * Rabs y <= a * 1) by (apply Rmult_le_compat; lra).
      lra.
Qed.

Lemma exp_6_upper : exp 6 <= 729.
Proof.
  pose proof exp_le_3 as H3. pose proof (exp_pos 1) as H0.
  replace 6 with ((1 + 1 + 1) + (1 + 1 + 1)) by lra.
  rewrite !exp_plus. set (e := exp 1) in *.
  assert (e * e <= 9) by nra.
  assert (0 < e * e) by nra.
  assert (e * e * e <= 27) by nra.
  assert (0 < e * e * e) by nra.
  nra.
Qed.

Lemma exp_m6_lower : 1e-3 <= exp (Ropp 6).
Proof.
  rewrite exp_Ropp. pose proof exp_6_upper as H. pose proof (exp_pos 6) as H0.
  apply Rle_trans with (/ 729); [lra |].
  apply Rinv_le_contravar; assumption.
Qed.

Lemma masked_sum_lower (c : R) (row : list R) (ms : list Z) :
  length row = length ms ->
  Forall (fun v => 0 < v /\ c <= v) row ->
  Forall (fun z => z = 0 \/ z = 1)%Z ms ->
  Exists (fun z => z = 1%Z) ms ->
  c <= Rsum (map2 (fun v z => v * IZR z) row ms).
Proof.
  intros Hlen Hrow. revert ms Hlen.
  induction Hrow as [| v row [Hv Hc] Hrow IH]; intros [| z ms] Hlen Hms Hex;
    simpl in *; try discriminate.
  - inversion Hex.
  - inversion Hms as [| ? ? Hz Hms']; subst.
    assert (Hpos : Forall (fun v => 0 < v) row).
    { eapply Forall_impl; [| exact Hrow]. intros ? [? _]. assumption. }
    pose proof (Rsum_nonneg _ (masked_nonneg _ _ Hpos Hms')) as Hrest.
    inversion Hex as [? ? H1 | ? ? Hex']; subst.
    + simpl. lra.
    + assert (c <= Rsum (map2 (fun v z => v * IZR z) row ms))
        by (apply IH; [lia | assumption ..]).
      destruct Hz as [-> | ->]; simpl; lra.
Qed.

Lemma score_lower (m : AttentionWithContext.t) (r : list R) :
  AttentionWithContext.wf m = true ->
  bias (AttentionWithContext.u m) = None ->
  Forall (Forall (fun w => Rabs w <= 0.1)) (weight (AttentionWithContext.u m)) ->
  (AttentionWithContext.input_shape m <= 60)%nat ->
  exp (Ropp 6) <= AttentionWithContext.score m r.
Proof.
  intros Hwf Hb Hu HD.
  destruct (wf_parts m Hwf) as (HW & _ & _ & HWo & _ & _).
  unfold AttentionWithContext.score. apply exp_le.
  unfold affine at 1. rewrite Hb. unfold matvec.
  destruct (weight (AttentionWithContext.u m)) as [| w ws]; simpl; [lra |].
  inversion Hu as [| ? ? Hw _]; subst.
  assert (Hv : Forall (fun c => Rabs c <= 1)
                      (map tanh (affine (AttentionWithContext.W m) r))).
  { apply Forall_map. apply Forall_forall. intros c _. apply tanh_abs_le_1. }
  pose proof (dot_bound 0.1 w _ ltac:(lra) Hw Hv) as Hd.
  rewrite length_map, (affine_length _ r HW), HWo in Hd.
  assert (HI : INR (AttentionWithContext.input_shape m) <= 60).
  { replace 60 with (INR 60) by (simpl; lra). apply le_INR. exact HD. }
  pose proof (Rle_abs (- dot w (map tanh (affine (AttentionWithContext.W m) r)))) as Hl.
  rewrite Rabs_Ropp in Hl. lra.
Qed.

Lemma masked_rows_lower (m : AttentionWithContext.t) (c : R)
      (x : list (list (list R))) (mask : list (list Z)) :
  (forall r, c <= AttentionWithContext.score m r) ->
  Forall2 (fun xs ms => length xs = length ms) x mask ->
  Forall (Forall (fun z => z = 0 \/ z = 1)%Z) mask ->
  Forall (Exists (fun z => z = 1%Z)) mask ->
  Forall (fun row => c <= Rsum row) (AttentionWithContext.masked_scores m x mask).
Proof.
  intros Hc Hm H01 Hex. unfold AttentionWithContext.masked_scores. apply Forall_map2.
  induction Hm as [| xs ms x' mask' Hlen _ IH]; simpl; constructor.
  - inversion H01; inversion Hex; subst.
    apply masked_sum_lower; [rewrite length_map; exact Hlen | | assumption ..].
    apply Forall_map. apply Forall_forall. intros r _. split; [apply exp_pos | apply Hc].
  - apply IH; [inversion H01 | inversion Hex]; assumption.
Qed.

(** *** Scoring weights of bounded sum *)

Lemma dot_l1_bound (w v : list R) :
  Forall (fun c => Rabs c <= 1) v ->
  Rabs (dot w v) <= Rsum (map Rabs w).
Proof.
  intros Hv. revert w. induction Hv as [| y v Hy _ IH]; intros [| c w]; simpl.
  - rewrite Rabs_R0. lra.
  - rewrite Rabs_R0.
    pose proof (Rabs_pos c).
    assert (0 <= Rsum (map Rabs w)).
    { apply Rsum_nonneg. apply Forall_map. apply Forall_forall.
      intros a _. apply Rabs_pos. }
    lra.
  - rewrite Rabs_R0. lra.
  - specialize (IH w).
    pose proof (Rabs_triang (c * y) (dot w v)) as Ht.
    rewrite Rabs_mult in Ht.
    pose proof (Rabs_pos c) as Hc0. pose proof (Rabs_pos y) as Hy0.
    assert (Rabs c * Rabs y <= Rabs c * 1) by (apply Rmult_le_compat_l; lra).
    lra.
Qed.

Lemma score_lower_l1 (m : AttentionWithContext.t) (r : list R) :
  bias (AttentionWithContext.u m) = None ->
  Forall (fun row => Rsum (map Rabs row) <= 6) (weight (AttentionWithContext.u m)) ->
  exp (Ropp 6) <= AttentionWithContext.score m r.
Proof.
  intros Hb Hu.
  unfold AttentionWithContext.score. apply exp_le.
  unfold affine at 1. rewrite Hb. unfold matvec.
  destruct (weight (AttentionWithContext.u m)) as [| w ws]; simpl; [lra |].
  inversion Hu as [| ? ? Hw _]; subst.
  assert (Hv : Forall (fun c => Rabs c <= 1)
                      (map tanh (affine (AttentionWithContext.W m) r))).
  { apply Forall_map. apply Forall_forall. intros c _. apply tanh_abs_le_1. }
  pose proof (dot_l1_bound w _ Hv) as Hd.
  pose proof (Rle_abs (- dot w (map tanh (affine (AttentionWithContext.W m) r)))) as Hl.
  rewrite Rabs_Ropp in Hl. lra.
Qed.

(** C1 (amended). Exact real arithmetic.  For a well-formed layer whose
    scoring weights [u] satisfy [sum |u_j| <= 6], a mask of zeros and ones
    and at least one valid step in every sample, the call returns
    coefficients, one per step, that are non-negative and whose sum along
    the sequence axis is within 1e-6 of 1, for every sample of the batch:
    every score is then at least [exp(-6)], against which the [eps] of the
    denominator is negligible. *)
Theorem attention_coefficients_normalized
        (m : AttentionWithContext.t)
        (x : list (list (list R))) (mask : list (list Z)) :
  AttentionWithContext.wf m = true ->
  AttentionWithContext.return_coefficients m = true ->
  bias (AttentionWithContext.u m) = None ->
  Forall (fun row => Rsum (map Rabs row) <= 6) (weight (AttentionWithContext.u m)) ->
  Forall (Forall (fun r => length r = AttentionWithContext.input_shape m)) x ->
  Forall2 (fun xs ms => length xs = length ms) x mask ->
  Forall (Forall (fun z => z = 0 \/ z = 1)%Z) mask ->
  Forall (Exists (fun z => z = 1%Z)) mask ->
  exists pooled coeffs,
    AttentionWithContext.forward m x (Some mask) = Ok (pooled, Some coeffs)
    /\ Forall2 (fun row xs => length row = length xs) coeffs x
    /\ Forall (fun row => Forall (fun c => 0 <= c) row
                          /\ Rabs (Rsum row - 1) <= 1e-6) coeffs.
Proof.
  intros Hwf Hrc Hb Hu Hx Hm H01 Hex.
  rewrite (forward_masked m Hwf x mask Hx Hm), Hrc.
  eexists. eexists. split; [reflexivity |].
  split; [apply (masked_shape m x mask Hm) |].
  unfold AttentionWithContext.normalize. apply Forall_map.
  pose proof (masked_rows_valid m x mask Hm H01 Hex) as Hvalid.
  pose proof (masked_rows_lower m _ x mask (fun r => score_lower_l1 m r Hb Hu)
                                Hm H01 Hex) as Hlow.
  rewrite Forall_forall in Hvalid, Hlow. apply Forall_forall. intros row Hin.
  destruct (Hvalid row Hin) as [Hnn Hpos]. specialize (Hlow row Hin).
  destruct (coefficients_of_row row Hnn Hpos) as (H1 & _ & _ & H4).
  split; [exact H1 |]. apply H4.
  pose proof exp_m6_lower. lra.
Qed.

Lemma attention_coefficients_normalized_witness :
  exists pooled coeffs,
    AttentionWithContext.forward Examples.att_flat Examples.att_flat_x
                                 (Some Examples.att_flat_mask)
    = Ok (pooled, Some coeffs)
    /\ Forall2 (fun row xs => length row = length xs) coeffs Examples.att_flat_x
    /\ Forall (fun row => Forall (fun c => 0 <= c) row
                          /\ Rabs (Rsum row - 1) <= 1e-6) coeffs.
Proof.
  apply (attention_coefficients_normalized
           Examples.att_flat Examples.att_flat_x Examples.att_flat_mask).
  - reflexivity.
  - reflexivity.
  - reflexivity.
  - constructor; [| constructor]. simpl. rewrite Rabs_R0. lra.
  - repeat constructor.
  - repeat constructor.
  - repeat constructor; (left; reflexivity) || (right; reflexivity).
  - constructor; [| constructor; [| constructor]].
    + left. reflexivity.
    + right. left. reflexivity.
Defined.

(** X7. A freshly built layer over at most 60 features normalises: with
    the scoring weights that [init_weights] draws (at most 0.1 in absolute
    value) every score is at least [exp(-6)], so for a mask of zeros and
    ones with a valid step in every sample the coefficients are
    non-negative and their sum along the sequence axis is within 1e-6 of
    1. *)
Theorem fresh_attention_normalized
        (input_shape : nat)
        (draw_W : nat -> nat -> R) (draw_b : nat -> R) (draw_u : nat -> nat -> R)
        (m : AttentionWithContext.t)
        (x : list (list (list R))) (mask : list (list Z)) :
  (input_shape <= 60)%nat ->
  (forall i j, 0 <= draw_u i j < 1) ->
  AttentionWithContext.construct input_shape true true draw_W draw_b draw_u = Ok m ->
  Forall (Forall (fun r => length r = input_shape)) x ->
  Forall2 (fun xs ms => length xs = length ms) x mask ->
  Forall (Forall (fun z => z = 0 \/ z = 1)%Z) mask ->
  Forall (Exists (fun z => z = 1%Z)) mask ->
  exists pooled coeffs,
    AttentionWithContext.forward m x (Some mask) = Ok (pooled, Some coeffs)
    /\ Forall (fun row => Forall (fun c => 0 <= c) row
                          /\ Rabs (Rsum row - 1) <= 1e-6) coeffs.
Proof.
  intros HD Hu Hc Hx Hm H01 Hex.
  destruct (construct_init input_shape true draw_W draw_b draw_u) as [Hc' Hwf].
  rewrite Hc in Hc'. unfold Ok in Hc'.
  assert (E : m = AttentionWithContext.init input_shape true
                    (AttentionWithContext.uniform2_ (- AttentionWithContext.initrange)
                       AttentionWithContext.initrange draw_W
                       (repeat (repeat 0 input_shape) input_shape))
                    (AttentionWithContext.uniform_ (- AttentionWithContext.initrange)
                       AttentionWithContext.initrange draw_b (repeat 0 input_shape))
                    (AttentionWithContext.uniform_ (- AttentionWithContext.initrange)
                       AttentionWithContext.initrange (draw_u 0%nat)
                       (repeat 0 input_shape)))
    by congruence.
  rewrite <- E in Hwf.
  assert (Hscore : forall r, exp (Ropp 6) <= AttentionWithContext.score m r).
  { intros r.
    apply score_lower; [exact Hwf | rewrite E; reflexivity | | rewrite E; exact HD].
    rewrite E. cbn [AttentionWithContext.u AttentionWithContext.init weight].
    constructor; [| constructor].
    eapply Forall_impl; [| apply (uniform_range (- AttentionWithContext.initrange)
                                    AttentionWithContext.initrange (draw_u 0%nat))].
    - intros v Hv. unfold AttentionWithContext.initrange in Hv. apply Rabs_le. lra.
    - unfold AttentionWithContext.initrange. lra.
    - apply Hu. }
  assert (Hx' : Forall (Forall (fun r => length r = AttentionWithContext.input_shape m)) x)
    by (rewrite E; exact Hx).
  rewrite (forward_masked m Hwf x mask Hx' Hm).
  assert (Hrc : AttentionWithContext.return_coefficients m = true)
    by (rewrite E; reflexivity).
  rewrite Hrc. eexists. eexists. split; [reflexivity |].
  unfold AttentionWithContext.normalize. apply Forall_map.
  pose proof (masked_rows_valid m x mask Hm H01 Hex) as Hvalid.
  pose proof (masked_rows_lower m _ x mask Hscore Hm H01 Hex) as Hlow.
  rewrite Forall_forall in Hvalid, Hlow. apply Forall_forall. intros row Hin.
  destruct (Hvalid row Hin) as [Hnn Hpos]. specialize (Hlow row Hin).
  destruct (coefficients_of_row row Hnn Hpos) as (H1 & _ & _ & H4).
  split; [exact H1 |]. apply H4.
  pose proof exp_m6_lower. lra.
Qed.

Lemma fresh_attention_normalized_witness :
  exists pooled coeffs,
    AttentionWithContext.forward
      (AttentionWithContext.init 2 true
         (AttentionWithContext.uniform2_ (- AttentionWithContext.initrange)
            AttentionWithContext.initrange (fun _ _ => 1 / 2) [[0; 0]; [0; 0]])
         (AttentionWithContext.uniform_ (- AttentionWithContext.initrange)
            AttentionWithContext.initrange (fun _ => 0) [0; 0])
         (AttentionWithContext.uniform_ (- AttentionWithContext.initrange)
            AttentionWithContext.initrange (fun _ => 3 / 4) [0; 0]))
      Examples.att_flat_x (Some Examples.att_flat_mask)
    = Ok (pooled, Some coeffs)
    /\ Forall (fun row => Forall (fun c => 0 <= c) row
                          /\ Rabs (Rsum row - 1) <= 1e-6) coeffs.
Proof.
  apply (fresh_attention_normalized 2
           (fun _ _ => 1 / 2) (fun _ => 0) (fun _ _ => 3 / 4)).
  - lia.
  - intros _ _. lra.
  - reflexivity.
  - repeat constructor.
  - repeat constructor.
  - repeat constructor; (left; reflexivity) || (right; reflexivity).
  - constructor; [| constructor; [| constructor]].
    + left. reflexivity.
    + right. left. reflexivity.
Defined.

(** ** [AttentionBiGRU] *)

Lemma map2_seq_Forall2 {A : Type} (P : A -> A -> Prop) (f : nat -> A -> A)
      (a : nat) (x : list A) :
  (forall i s, P (f i s) s) ->
  Forall2 P (map2 f (seq a (length x)) x) x.
Proof.
  intros Hf. revert a. induction x as [| s x IH]; intros a; simpl; constructor.
  - apply Hf.
  - apply IH.
Qed.

Lemma dropout3_shape (training : bool) (p : R) (keep : nat -> nat -> nat -> bool)
      (d : nat) (x : list (list (list R))) :
  Forall (Forall (fun r => length r = d)) x ->
  Forall2 (fun s' s => length s' = length s) (dropout3 training p keep x) x
  /\ Forall (Forall (fun r => length r = d)) (dropout3 training p keep x).
Proof.
  intros Hx. unfold dropout3. destruct training.
  - split.
    + apply map2_seq_Forall2. intros i s.
      unfold dropout. rewrite map2_length; rewrite length_seq; reflexivity.
    + apply (map2_Forall_r (Forall (fun r => length r = d))); [| exact Hx].
      intros i s Hs. apply (dropout_shape true p (keep i) d s Hs).
  - split; [| exact Hx].
    clear. induction x; constructor; [reflexivity | assumption].
Qed.

Lemma bigru_hidden_shape (g : GRU) (h : nat)
      (x hs : list (list (list R))) :
  AttentionBiGRU.bigru_shape g h ->
  mapM g x = Ok hs ->
  Forall2 (fun s' s => length s' = length s) hs x
  /\ Forall (Forall (fun v => length v = (2 * h)%nat)) hs.
Proof.
  intros Hg H. apply mapM_Ok in H.
  induction H as [| s s' x hs Hs _ [IH1 IH2]].
  - split; constructor.
  - destruct (Hg s s' Hs) as [Hlen Hw]. split; constructor; assumption.
Qed.

Lemma Forall2_length_trans {A B C : Type}
      (la : list (list A)) (lb : list (list B)) (lc : list (list C)) :
  Forall2 (fun a b => length a = length b) la lb ->
  Forall2 (fun b c => length b = length c) lb lc ->
  Forall2 (fun a c => length a = length c) la lc.
Proof.
  intros H. revert lc. induction H as [| a b la lb Hab _ IH]; intros lc Hc;
    inversion Hc; subst; constructor; [lia | apply IH; assumption].
Qed.

Lemma bigru_construct (i h : nat) (p : R) (g : GRU)
      (draw_W : nat -> nat -> R) (draw_b : nat -> R) (draw_u : nat -> nat -> R)
      (m : AttentionBiGRU.t) :
  AttentionBiGRU.construct i h p true g draw_W draw_b draw_u = Ok m ->
  AttentionBiGRU.bigru m = g
  /\ AttentionBiGRU.training m = true
  /\ AttentionWithContext.wf (AttentionBiGRU.attention m) = true
  /\ AttentionWithContext.input_shape (AttentionBiGRU.attention m) = (2 * h)%nat
  /\ AttentionWithContext.return_coefficients (AttentionBiGRU.attention m) = false.
Proof.
  unfold AttentionBiGRU.construct. intros H.
  apply bind_Ok in H. destruct H as (p' & Hp & H).
  apply bind_Ok in H. destruct H as (g' & Hg & H).
  apply new_Dropout_inv in Hp. destruct Hp as [-> _].
  unfold AttentionBiGRU.new_GRU in Hg.
  destruct (h =? 0)%nat; [discriminate |].
  assert (Eg : g' = g) by (unfold Ok in Hg; congruence). subst g'.
  destruct (construct_init (2 * h) false draw_W draw_b draw_u) as [Hc Hwf].
  rewrite Hc in H. cbn [bind Ok] in H. unfold Ok in H.
  assert (E : AttentionBiGRU.mk p true g
                (AttentionWithContext.init (2 * h) false
                   (AttentionWithContext.uniform2_ (- AttentionWithContext.initrange)
                      AttentionWithContext.initrange draw_W
                      (repeat (repeat 0 (2 * h)%nat) (2 * h)))
                   (AttentionWithContext.uniform_ (- AttentionWithContext.initrange)
                      AttentionWithContext.initrange draw_b (repeat 0 (2 * h)%nat))
                   (AttentionWithContext.uniform_ (- AttentionWithContext.initrange)
                      AttentionWithContext.initrange (draw_u 0%nat)
                      (repeat 0 (2 * h)%nat))) = m)
    by congruence.
  subst m. cbn [AttentionBiGRU.bigru AttentionBiGRU.training AttentionBiGRU.attention].
  repeat split. exact Hwf.
Qed.

(** The same facts for the layer after [.eval()]. *)
Lemma bigru_modes (m : AttentionBiGRU.t) (mode : bool) :
  let m' := if mode then m else AttentionBiGRU.eval m in
  AttentionBiGRU.bigru m' = AttentionBiGRU.bigru m
  /\ AttentionBiGRU.attention m' = AttentionBiGRU.attention m.
Proof. destruct mode; split; reflexivity. Qed.

(** X8. A layer [AttentionBiGRU(input_shape, output_shape_2)] returns the
    pooled tensor alone (its attention is built with
    [return_coefficients=False]), with one vector of [2 * output_shape_2]
    features per sample: this holds in training and in evaluation mode,
    whatever the dropout draws, for every input the recurrent layer accepts
    and every mask (when one is given) with one entry per step. *)
Theorem attention_bigru_output
        (input_shape output_shape_2 : nat) (dropout : R) (bigru : GRU)
        (draw_W : nat -> nat -> R) (draw_b : nat -> R) (draw_u : nat -> nat -> R)
        (m : AttentionBiGRU.t) (mode : bool)
        (keep : nat -> nat -> nat -> bool)
        (x : list (list (list R))) (mask : option (list (list Z))) :
  AttentionBiGRU.construct input_shape output_shape_2 dropout true bigru
                           draw_W draw_b draw_u = Ok m ->
  AttentionBiGRU.bigru_shape bigru output_shape_2 ->
  (exists hs, mapM bigru x = Ok hs) ->
  match mask with
  | Some ms => Forall2 (fun xs row => length xs = length row) x ms
  | None => True
  end ->
  exists pooled,
    AttentionBiGRU.forward (if mode then m else AttentionBiGRU.eval m) keep x mask
    = Ok (pooled, None)
    /\ length pooled = length x
    /\ Forall (fun v => length v = (2 * output_shape_2)%nat) pooled.
Proof.
  intros Hc Hg (hs & Hhs) Hm.
  destruct (bigru_construct _ _ _ _ _ _ _ _ Hc) as (Hb & _ & Hwf & HD & Hrc).
  destruct (bigru_modes m mode) as [Hb' Ha'].
  set (m' := if mode then m else AttentionBiGRU.eval m) in *.
  unfold AttentionBiGRU.forward. rewrite Hb', Hb, Hhs, Ha'. cbn [bind Ok]. cbv zeta.
  destruct (bigru_hidden_shape bigru output_shape_2 x hs Hg Hhs) as [Hlen Hw].
  destruct (dropout3_shape (AttentionBiGRU.training m') (AttentionBiGRU.p m') keep
                           _ hs Hw) as [Hdl Hdw].
  set (y := dropout3 (AttentionBiGRU.training m') (AttentionBiGRU.p m') keep hs) in *.
  pose proof (Forall2_length_trans _ _ _ Hdl Hlen) as Hyx.
  rewrite <- HD in Hdw.
  assert (Hym : match mask with
                | Some ms => Forall2 (fun ys row => length ys = length row) y ms
                | None => True
                end).
  { destruct mask as [ms |]; [| exact I].
    apply (Forall2_length_trans _ _ _ Hyx Hm). }
  destruct (forward_with_mask (AttentionBiGRU.attention m) y mask Hym)
    as (ms & -> & Hms).
  destruct (forward_shape _ y ms Hwf Hdw Hms) as (pooled & a & Hf & H1 & H2 & _).
  rewrite Hf, Hrc. exists pooled. split; [reflexivity |].
  split; [| rewrite <- HD; exact H2].
  rewrite H1. apply Forall2_length in Hyx. exact Hyx.
Qed.

Lemma attention_bigru_output_witness :
  exists pooled,
    AttentionBiGRU.forward
      (AttentionBiGRU.eval
         (AttentionBiGRU.mk 0 true Examples.gru_stub
            (AttentionWithContext.init 2 false
               (AttentionWithContext.uniform2_ (- AttentionWithContext.initrange)
                  AttentionWithContext.initrange (fun _ _ => 1 / 2) [[0; 0]; [0; 0]])
               (AttentionWithContext.uniform_ (- AttentionWithContext.initrange)
                  AttentionWithContext.initrange (fun _ => 0) [0; 0])
               (AttentionWithContext.uniform_ (- AttentionWithContext.initrange)
                  AttentionWithContext.initrange (fun _ => 3 / 4) [0; 0]))))
      (fun _ _ _ => true) [[[1]; [2]]; [[3]; [4]]] None
    = Ok (pooled, None)
    /\ length pooled = 2%nat
    /\ Forall (fun v => length v = 2%nat) pooled.
Proof.
  apply (attention_bigru_output 1 1 0 Examples.gru_stub
           (fun _ _ => 1 / 2) (fun _ => 0) (fun _ _ => 3 / 4) _ false
           (fun _ _ _ => true) [[[1]; [2]]; [[3]; [4]]] None).
  - unfold AttentionBiGRU.construct.
    rewrite (new_Dropout_Ok 0) by lra. reflexivity.
  - intros s hs H. unfold Examples.gru_stub, Ok in H.
    assert (E : map (fun r => [Rsum r; Rsum r]) s = hs) by congruence.
    rewrite <- E. split; [apply length_map |].
    apply Forall_map. apply Forall_forall. intros r _. reflexivity.
  - eexists. reflexivity.
  - exact I.
Defined.

(** ** [CorpusEncoder03]: empty batches *)

(** X10. A batch without samples, or whose first sample holds no
    document, is refused whatever the mask, [None] included: the reshape
    [x.view(batch_size * nb_docs, -1)] raises [RuntimeError] before the
    mask is read. *)
Theorem corpus03_empty_batch_raises
        (m : CorpusEncoder03.t) (keep : nat -> nat -> bool)
        (x : list (list (list Z))) (mask : option (list (list (list Z)))) :
  x = [] \/ CorpusEncoder03.size1 x = 0%nat ->
  CorpusEncoder03.forward m keep x mask = Raise RuntimeError.
Proof.
  intros H. unfold CorpusEncoder03.forward, view2.
  replace (length x * CorpusEncoder03.size1 x =? 0)%nat with true; [reflexivity |].
  symmetry. apply Nat.eqb_eq. destruct H as [-> | ->]; simpl; lia.
Qed.

Lemma corpus03_empty_batch_raises_witness :
  CorpusEncoder03.forward Examples.encoder_stub (fun _ _ => true) [[]; []] None
  = Raise RuntimeError.
Proof.
  apply (corpus03_empty_batch_raises Examples.encoder_stub (fun _ _ => true)
           [[]; []] None).
  right. reflexivity.
Defined.

(** ** [CorpusEncoder03]: the order of the documents *)

Lemma map2_Rmax_comm (a b : list R) : map2 Rmax a b = map2 Rmax b a.
Proof.
  revert b. induction a as [| u a IH]; intros [| v b]; simpl; try reflexivity.
  rewrite IH, Rmax_comm. reflexivity.
Qed.

Lemma map2_Rmax_swap (a b c : list R) :
  map2 Rmax (map2 Rmax a b) c = map2 Rmax (map2 Rmax a c) b.
Proof.
  revert b c. induction a as [| u a IH]; intros [| v b] [| w c]; simpl;
    try reflexivity.
  rewrite IH. f_equal.
  rewrite <- !Rmax_assoc. f_equal. apply Rmax_comm.
Qed.

Lemma fold_max_perm (l l' : list (list R)) :
  Permutation l l' ->
  forall a, fold_left (map2 Rmax) l a = fold_left (map2 Rmax) l' a.
Proof.
  induction 1 as [| x l l' _ IH | x y l | l l' l'' _ IH1 _ IH2]; intros a; simpl.
  - reflexivity.
  - apply IH.
  - rewrite map2_Rmax_swap. reflexivity.
  - rewrite IH1. apply IH2.
Qed.

Lemma max_docs_perm (l l' : list (list R)) :
  Permutation l l' -> CorpusEncoder03.max_docs l = CorpusEncoder03.max_docs l'.
Proof.
  induction 1 as [| x l l' Hp _ | x y l | l l' l'' _ IH1 _ IH2]; simpl.
  - reflexivity.
  - rewrite (fold_max_perm l l' Hp). reflexivity.
  - rewrite map2_Rmax_comm. reflexivity.
  - rewrite IH1. exact IH2.
Qed.

Lemma mapM_perm {A B : Type} (f : A -> result B) (l l' : list A) (out : list B) :
  Permutation l l' ->
  mapM f l = Ok out ->
  exists out', mapM f l' = Ok out' /\ Permutation out out'.
Proof.
  intros Hp. revert out.
  induction Hp as [| x l l' _ IH | x y l | l l' l'' _ IH1 _ IH2]; intros out H.
  - exists out. split; [exact H | apply Permutation_refl].
  - simpl in H. apply bind_Ok in H. destruct H as (b & Hb & H).
    apply bind_Ok in H. destruct H as (bs & Hbs & H).
    assert (E : b :: bs = out) by (unfold Ok in H; congruence). subst out.
    destruct (IH bs Hbs) as (bs' & Hbs' & Hperm).
    exists (b :: bs'). simpl. rewrite Hb. cbn [bind Ok]. rewrite Hbs'.
    split; [reflexivity | apply perm_skip; exact Hperm].
  - simpl in H. apply bind_Ok in H. destruct H as (b & Hb & H).
    apply bind_Ok in H. destruct H as (bs & Hbs & H).
    assert (E : b :: bs = out) by (unfold Ok in H; congruence). subst out.
    apply bind_Ok in Hbs. destruct Hbs as (c & Hc & Hbs).
    apply bind_Ok in Hbs. destruct Hbs as (cs & Hcs & Hbs).
    assert (E : c :: cs = bs) by (unfold Ok in Hbs; congruence). subst bs.
    exists (c :: b :: cs). simpl. rewrite Hc. cbn [bind Ok]. rewrite Hb.
    cbn [bind Ok]. rewrite Hcs. split; [reflexivity | apply perm_swap].
  - destruct (IH1 out H) as (o1 & Ho1 & Hp1).
    destruct (IH2 o1 Ho1) as (o2 & Ho2 & Hp2).
    exists o2. split; [exact Ho2 | eapply Permutation_trans; eassumption].
Qed.

Lemma zipWithM_combine {A B C : Type} (f : A -> B -> result C)
      (la : list A) (lb : list B) :
  length la = length lb ->
  zipWithM f la lb = mapM (fun ab => f (fst ab) (snd ab)) (combine la lb).
Proof.
  revert lb. induction la as [| a la IH]; intros [| b lb] H; simpl in *;
    try discriminate; [reflexivity |].
  rewrite IH by lia. reflexivity.
Qed.

(** The vectors that [max_docs] receives for one sample. *)
Lemma sample_docs_perm (m : CorpusEncoder03.t)
      (xs ms xs' ms' : list (list Z)) (gs : list (list (list R)))
      (cs : list (list R)) :
  length xs = length ms -> length xs' = length ms' ->
  Permutation (combine xs ms) (combine xs' ms') ->
  zipWithM (CorpusEncoder03.encode_doc m) xs ms = Ok gs ->
  mapM DocumentEncoder.first_step gs = Ok cs ->
  exists gs' cs',
    zipWithM (CorpusEncoder03.encode_doc m) xs' ms' = Ok gs'
    /\ mapM DocumentEncoder.first_step gs' = Ok cs'
    /\ Permutation cs cs'.
Proof.
  intros Hl Hl' Hp Hg Hc.
  rewrite (zipWithM_combine _ _ _ Hl) in Hg.
  destruct (mapM_perm _ _ _ _ Hp Hg) as (gs' & Hg' & Hpg).
  destruct (mapM_perm _ _ _ _ Hpg Hc) as (cs' & Hc' & Hpc).
  exists gs', cs'. rewrite (zipWithM_combine _ _ _ Hl').
  split; [exact Hg' |]. split; [exact Hc' | exact Hpc].
Qed.

Lemma batch_docs_perm (m : CorpusEncoder03.t)
      (x mask x' mask' : list (list (list Z)))
      (g : list (list (list (list R)))) (c : list (list (list R)))
      (pooled : list (list R)) :
  Forall2 (fun xs ms => length xs = length ms) x mask ->
  Forall2 (fun xs ms => length xs = length ms) x' mask' ->
  Forall2 (@Permutation (list Z * list Z))
          (map2 (@combine (list Z) (list Z)) x mask)
          (map2 (@combine (list Z) (list Z)) x' mask') ->
  zipWithM (zipWithM (CorpusEncoder03.encode_doc m)) x mask = Ok g ->
  mapM (mapM DocumentEncoder.first_step) g = Ok c ->
  mapM CorpusEncoder03.max_docs c = Ok pooled ->
  exists g' c',
    zipWithM (zipWithM (CorpusEncoder03.encode_doc m)) x' mask' = Ok g'
    /\ mapM (mapM DocumentEncoder.first_step) g' = Ok c'
    /\ mapM CorpusEncoder03.max_docs c' = Ok pooled.
Proof.
  intros Hxm. revert x' mask' g c pooled.
  induction Hxm as [| xs ms x mask Hl _ IH];
    intros x' mask' g c pooled Hxm' Hp Hg Hc Hpool.
  - simpl in Hp. inversion Hxm' as [| xs' ms' x'' mask'' Hl' Hrest]; subst.
    + simpl in *. exists [], [].
      assert (g = []) by (unfold Ok in Hg; congruence). subst g.
      simpl in Hc. assert (c = []) by (unfold Ok in Hc; congruence). subst c.
      repeat split. exact Hpool.
    + simpl in Hp. inversion Hp.
  - inversion Hxm' as [| xs' ms' x'' mask'' Hl' Hrest]; subst.
    + simpl in Hp. inversion Hp.
    + simpl in Hp. inversion Hp as [| ? ? ? ? Hp1 Hp2]; subst.
      simpl in Hg. apply bind_Ok in Hg. destruct Hg as (gs & Hgs & Hg).
      apply bind_Ok in Hg. destruct Hg as (g0 & Hg0 & Hg).
      assert (E : gs :: g0 = g) by (unfold Ok in Hg; congruence). subst g.
      simpl in Hc. apply bind_Ok in Hc. destruct Hc as (cs & Hcs & Hc).
      apply bind_Ok in Hc. destruct Hc as (c0 & Hc0 & Hc).
      assert (E : cs :: c0 = c) by (unfold Ok in Hc; congruence). subst c.
      simpl in Hpool. apply bind_Ok in Hpool. destruct Hpool as (p & Hp0 & Hpool).
      apply bind_Ok in Hpool. destruct Hpool as (ps & Hps & Hpool).
      assert (E : p :: ps = pooled) by (unfold Ok in Hpool; congruence). subst pooled.
      destruct (IH x'' mask'' g0 c0 ps Hrest Hp2 Hg0 Hc0 Hps)
        as (g' & c' & Hg' & Hc' & Hpool').
      destruct (sample_docs_perm m xs ms xs' ms' gs cs Hl Hl' Hp1 Hgs Hcs)
        as (gs' & cs' & Hgs' & Hcs' & Hperm).
      exists (gs' :: g'), (cs' :: c'). simpl.
      rewrite Hgs'. cbn [bind Ok]. rewrite Hg'. cbn [bind Ok].
      split; [reflexivity |].
      rewrite Hcs'. cbn [bind Ok]. rewrite Hc'. cbn [bind Ok].
      split; [reflexivity |].
      rewrite <- (max_docs_perm cs cs' Hperm), Hp0. cbn [bind Ok].
      rewrite Hpool'. reflexivity.
Qed.

(** X11. In evaluation mode the embedding of a corpus does not depend on
    the order of its documents: when a pass returns a value, so does the
    pass over the batch in which the documents of every sample, each with
    its mask, are permuted (a permutation per sample), and the value is the
    same. *)
Theorem corpus03_document_order
        (m : CorpusEncoder03.t) (keep keep' : nat -> nat -> bool)
        (b nb_docs t t' h : nat)
        (x mask x' mask' : list (list (list Z)))
        (out : list (list R)) :
  DocumentEncoder.training (CorpusEncoder03.doc_encoder m) = false ->
  DocumentEncoder.hidden_width (CorpusEncoder03.doc_encoder m) h ->
  (1 <= b)%nat -> (1 <= nb_docs)%nat ->
  rect3 b nb_docs t x -> rect3 b nb_docs t' mask ->
  rect3 b nb_docs t x' -> rect3 b nb_docs t' mask' ->
  Forall2 (@Permutation (list Z * list Z))
          (map2 (@combine (list Z) (list Z)) x mask)
          (map2 (@combine (list Z) (list Z)) x' mask') ->
  CorpusEncoder03.forward m keep x (Some mask) = Ok out ->
  CorpusEncoder03.forward m keep' x' (Some mask') = Ok out.
Proof.
  intros Heval Hh Hb Hd Hx Hm Hx' Hm' Hperm H.
  rewrite (corpus03_forward_eval m keep b nb_docs t t' h x mask
             Hx Hm Hb Hd Hh Heval) in H.
  rewrite (corpus03_forward_eval m keep' b nb_docs t t' h x' mask'
             Hx' Hm' Hb Hd Hh Heval).
  apply bind_Ok in H. destruct H as (g & Hg & H).
  apply bind_Ok in H. destruct H as (c & Hc & H).
  apply bind_Ok in H. destruct H as (pooled & Hp & H).
  destruct (batch_docs_perm m x mask x' mask' g c pooled
              (rect3_Forall2 _ _ _ _ _ _ Hx Hm)
              (rect3_Forall2 _ _ _ _ _ _ Hx' Hm') Hperm Hg Hc Hp)
    as (g' & c' & Hg' & Hc' & Hp').
  rewrite Hg'. cbn [bind Ok]. rewrite Hc'. cbn [bind Ok]. rewrite Hp'. cbn [bind Ok].
  exact H.
Qed.

Lemma corpus03_document_order_witness :
  CorpusEncoder03.forward Examples.encoder_small (fun _ _ => true)
                          [[[3; 4]; [1; 2]]; [[5; 6]; [7; 8]]]%Z
                          (Some [[[1; 0]; [1; 1]]; [[1; 1]; [1; 1]]]%Z)
  = Ok [[1 * Rmax 1 3 + 0 + 0]; [1 * Rmax 5 7 + 0 + 0]].
Proof.
  apply (corpus03_document_order
           Examples.encoder_small (fun _ _ => false) (fun _ _ => true) 2 2 2 2 1
           [[[1; 2]; [3; 4]]; [[5; 6]; [7; 8]]]%Z
           [[[1; 1]; [1; 0]]; [[1; 1]; [1; 1]]]%Z
           [[[3; 4]; [1; 2]]; [[5; 6]; [7; 8]]]%Z
           [[[1; 0]; [1; 1]]; [[1; 1]; [1; 1]]]%Z).
  - reflexivity.
  - intros doc msk hs Hhs. unfold Examples.encoder_small in Hhs.
    cbn [CorpusEncoder03.doc_encoder DocumentEncoder.text_encoder] in Hhs.
    assert (E : map (fun tok => [IZR tok]) doc = hs) by (unfold Ok in Hhs; congruence).
    rewrite <- E. apply Forall_map. apply Forall_forall. intros tok _. reflexivity.
  - lia.
  - lia.
  - split; [reflexivity | repeat constructor].
  - split; [reflexivity | repeat constructor].
  - split; [reflexivity | repeat constructor].
  - split; [reflexivity | repeat constructor].
  - constructor; [apply perm_swap | constructor; [apply Permutation_refl | constructor]].
  - reflexivity.
Defined.

(** ** The dual corpus encoder: concatenation and swap *)

(** The single-source encoder in evaluation mode: the same documents in
    another order give the same embedding. *)
Lemma corpus03_eval_same_documents
      (e : CorpusEncoder03.t) (keep keep' : nat -> nat -> bool)
      (b nb_docs t t' h : nat)
      (x mask x' mask' : list (list (list Z))) (out : list (list R)) :
  DocumentEncoder.training (CorpusEncoder03.doc_encoder e) = false ->
  DocumentEncoder.hidden_width (CorpusEncoder03.doc_encoder e) h ->
  (1 <= b)%nat -> (1 <= nb_docs)%nat ->
  rect3 b nb_docs t x -> rect3 b nb_docs t' mask ->
  rect3 b nb_docs t x' -> rect3 b nb_docs t' mask' ->
  Forall2 (@Permutation (list Z * list Z))
          (map2 (@combine (list Z) (list Z)) x mask)
          (map2 (@combine (list Z) (list Z)) x' mask') ->
  CorpusEncoder03.forward e keep x (Some mask) = Ok out ->
  CorpusEncoder03.forward e keep' x' (Some mask') = Ok out.
Proof.
  intros Heval Hh Hb Hd Hx Hm Hx' Hm' Hperm H.
  rewrite (corpus03_forward_eval e keep b nb_docs t t' h x mask
             Hx Hm Hb Hd Hh Heval) in H.
  rewrite (corpus03_forward_eval e keep' b nb_docs t t' h x' mask'
             Hx' Hm' Hb Hd Hh Heval).
  apply bind_Ok in H. destruct H as (g & Hg & H).
  apply bind_Ok in H. destruct H as (c & Hc & H).
  apply bind_Ok in H. destruct H as (pooled & Hp & H).
  destruct (batch_docs_perm e x mask x' mask' g c pooled
              (rect3_Forall2 _ _ _ _ _ _ Hx Hm)
              (rect3_Forall2 _ _ _ _ _ _ Hx' Hm') Hperm Hg Hc Hp)
    as (g' & c' & Hg' & Hc' & Hp').
  rewrite Hg'. cbn [bind Ok]. rewrite Hc'. cbn [bind Ok]. rewrite Hp'. cbn [bind Ok].
  exact H.
Qed.

Lemma Forall2_Permutation_sym {A : Type} (l l' : list (list A)) :
  Forall2 (@Permutation A) l l' -> Forall2 (@Permutation A) l' l.
Proof.
  induction 1; constructor; [apply Permutation_sym; assumption | assumption].
Qed.

(** C6 (amended). Built with method 'model_03' and [separate=True], the
    dual encoder declares twice the width of its ECB encoder (64 for
    encoders built by [CorpusEncoder03]) and returns, sample by sample, the
    embedding of the first tuple element by the ECB encoder followed by the
    embedding of the second tuple element by the FED encoder.  Swapping the
    two inputs changes the result when one of the two encoders embeds the
    two corpora differently, and only then: the result is the same when
    both encoders embed them alike, as they do in evaluation mode for two
    corpora that hold the same documents in another order. *)
Theorem dual_encoder_concat
        (new_encoder : nat -> CorpusEncoder03.t)
        (keep : nat -> nat -> nat -> bool)
        (x_ecb x_fed : list (list (list Z)))
        (m_ecb m_fed : option (list (list (list Z)))) :
  let ce := CorpusEncoder.init new_encoder (Some "model_03"%string) true in
  let ecb := CorpusEncoder03.forward (new_encoder 0%nat) (keep 0%nat) in
  let fed := CorpusEncoder03.forward (new_encoder 1%nat) (keep 1%nat) in
  CorpusEncoder.corpus_emb_dim ce
  = Some (2 * CorpusEncoder03.corpus_emb_dim (new_encoder 0%nat))%nat
  /\ (CorpusEncoder03.wf (new_encoder 0%nat) = true ->
      CorpusEncoder.corpus_emb_dim ce = Some 64%nat)
  /\ CorpusEncoder.forward ce keep [x_ecb; x_fed] [m_ecb; m_fed]
     = (a <- ecb x_ecb m_ecb ;;
        b <- fed x_fed m_fed ;;
        out <- CorpusEncoder.cat1 a b ;;
        Ok (Some out))
  /\ (forall a b,
         ecb x_ecb m_ecb = Ok a -> fed x_fed m_fed = Ok b ->
         length a = length b ->
         CorpusEncoder.forward ce keep [x_ecb; x_fed] [m_ecb; m_fed]
         = Ok (Some (map2 (@app R) a b)))
  /\ (forall a b a' b',
         Linear_wf (CorpusEncoder03.W (new_encoder 0%nat)) = true ->
         ecb x_ecb m_ecb = Ok a -> fed x_fed m_fed = Ok b ->
         ecb x_fed m_fed = Ok a' -> fed x_ecb m_ecb = Ok b' ->
         length a = length b -> length a' = length b' ->
         (a <> a' \/ b <> b' ->
          CorpusEncoder.forward ce keep [x_ecb; x_fed] [m_ecb; m_fed]
          <> CorpusEncoder.forward ce keep [x_fed; x_ecb] [m_fed; m_ecb])
         /\ (a = a' -> b = b' ->
             CorpusEncoder.forward ce keep [x_ecb; x_fed] [m_ecb; m_fed]
             = CorpusEncoder.forward ce keep [x_fed; x_ecb] [m_fed; m_ecb]))
  /\ (forall b nb_docs t t' h0 h1 k_ecb k_fed out,
         m_ecb = Some k_ecb -> m_fed = Some k_fed ->
         DocumentEncoder.training (CorpusEncoder03.doc_encoder (new_encoder 0%nat))
         = false ->
         DocumentEncoder.training (CorpusEncoder03.doc_encoder (new_encoder 1%nat))
         = false ->
         DocumentEncoder.hidden_width
           (CorpusEncoder03.doc_encoder (new_encoder 0%nat)) h0 ->
         DocumentEncoder.hidden_width
           (CorpusEncoder03.doc_encoder (new_encoder 1%nat)) h1 ->
         (1 <= b)%nat -> (1 <= nb_docs)%nat ->
         rect3 b nb_docs t x_ecb -> rect3 b nb_docs t' k_ecb ->
         rect3 b nb_docs t x_fed -> rect3 b nb_docs t' k_fed ->
         Forall2 (@Permutation (list Z * list Z))
                 (map2 (@combine (list Z) (list Z)) x_ecb k_ecb)
                 (map2 (@combine (list Z) (list Z)) x_fed k_fed) ->
         CorpusEncoder.forward ce keep [x_ecb; x_fed] [m_ecb; m_fed] = Ok out ->
         CorpusEncoder.forward ce keep [x_fed; x_ecb] [m_fed; m_ecb] = Ok out).
Proof.
  intros ce ecb fed.
  assert (Hfwd : forall x0 x1 m0 m1,
             CorpusEncoder.forward ce keep [x0; x1] [m0; m1]
             = (a <- ecb x0 m0 ;; b <- fed x1 m1 ;;
                out <- CorpusEncoder.cat1 a b ;; Ok (Some out))).
  { intros x0 x1 m0 m1. unfold CorpusEncoder.forward, ce. simpl.
    fold (ecb x0 m0). destruct (ecb x0 m0) as [e | a]; simpl; [reflexivity |].
    fold (fed x1 m1). destruct (fed x1 m1) as [e | b]; simpl; [reflexivity |].
    destruct (CorpusEncoder.cat1 a b); reflexivity. }
  assert (Hcat : forall x0 x1 m0 m1 a b,
             ecb x0 m0 = Ok a -> fed x1 m1 = Ok b -> length a = length b ->
             CorpusEncoder.forward ce keep [x0; x1] [m0; m1]
             = Ok (Some (map2 (@app R) a b))).
  { intros x0 x1 m0 m1 a b Ha Hb Hlen.
    rewrite Hfwd, Ha. simpl. rewrite Hb. simpl.
    rewrite (cat1_Ok a b Hlen). reflexivity. }
  split; [reflexivity |]. split; [| split; [| split; [| split]]].
  - intros Hwf. destruct (corpus03_wf_parts _ Hwf) as (_ & _ & _ & Hdim).
    unfold ce. simpl. rewrite Hdim. reflexivity.
  - apply Hfwd.
  - intros a b. apply Hcat.
  - intros a b a' b' Hwf Ha Hb Ha' Hb' Hlen Hlen'. split.
    + intros Hdiff Heq.
      rewrite (Hcat _ _ _ _ a b Ha Hb Hlen) in Heq.
      rewrite (Hcat _ _ _ _ a' b' Ha' Hb' Hlen') in Heq.
      injection Heq as Heq.
      pose proof (corpus03_rows_width _ _ _ _ _ Hwf Ha) as Hw.
      pose proof (corpus03_rows_width _ _ _ _ _ Hwf Ha') as Hw'.
      destruct (map2_app_inj _ a a' b b' Hw Hw' Hlen Hlen' Heq) as [E1 E2].
      destruct Hdiff as [Hd | Hd]; contradiction.
    + intros Ea Eb.
      rewrite (Hcat _ _ _ _ a b Ha Hb Hlen).
      rewrite (Hcat _ _ _ _ a' b' Ha' Hb' Hlen').
      rewrite Ea, Eb. reflexivity.
  - intros b nb_docs t t' h0 h1 k_ecb k_fed out -> -> He0 He1 Hh0 Hh1 Hb Hd
           Hxe Hke Hxf Hkf Hperm H.
    rewrite Hfwd in H. rewrite Hfwd.
    apply bind_Ok in H. destruct H as (a & Ha & H).
    apply bind_Ok in H. destruct H as (c & Hc & H).
    unfold ecb in Ha. unfold fed in Hc. unfold ecb, fed.
    rewrite (corpus03_eval_same_documents _ (keep 0%nat) (keep 0%nat)
               b nb_docs t t' h0 x_ecb k_ecb x_fed k_fed a
               He0 Hh0 Hb Hd Hxe Hke Hxf Hkf Hperm Ha).
    cbn [bind Ok].
    rewrite (corpus03_eval_same_documents _ (keep 1%nat) (keep 1%nat)
               b nb_docs t t' h1 x_fed k_fed x_ecb k_ecb c
               He1 Hh1 Hb Hd Hxf Hkf Hxe Hke
               (Forall2_Permutation_sym _ _ Hperm) Hc).
    cbn [bind Ok]. exact H.
Qed.

Lemma dual_encoder_concat_witness :
  let ce := CorpusEncoder.init (fun _ => Examples.encoder_stub)
                               (Some "model_03"%string) true in
  CorpusEncoder.forward ce (fun _ _ _ => true)
                        [Examples.docs_ecb; Examples.docs_fed]
                        [Examples.docs_mask; Examples.docs_mask]
  <> CorpusEncoder.forward ce (fun _ _ _ => true)
                           [Examples.docs_fed; Examples.docs_ecb]
                           [Examples.docs_mask; Examples.docs_mask].
Proof.
  apply (dual_encoder_concat
           (fun _ => Examples.encoder_stub) (fun _ _ _ => true)
           Examples.docs_ecb Examples.docs_fed
           Examples.docs_mask Examples.docs_mask)
    with (a := [(5 / (1 - 0.5)) :: repeat 0 31])
         (b := [(6 / (1 - 0.5)) :: repeat 0 31])
         (a' := [(6 / (1 - 0.5)) :: repeat 0 31])
         (b' := [(5 / (1 - 0.5)) :: repeat 0 31]).
  - reflexivity.
  - apply (encoder_stub_single (fun _ _ => true) 5 [7%Z] [1; 1]%Z).
  - apply (encoder_stub_single (fun _ _ => true) 6 [7%Z] [1; 1]%Z).
  - apply (encoder_stub_single (fun _ _ => true) 6 [7%Z] [1; 1]%Z).
  - apply (encoder_stub_single (fun _ _ => true) 5 [7%Z] [1; 1]%Z).
  - reflexivity.
  - reflexivity.
  - left. intros H.
    assert (H0 : 5 / (1 - 0.5) = 6 / (1 - 0.5)) by congruence.
    lra.
Defined.

(** *** The same documents in another order *)

Lemma map2_repeat {A B C : Type} (f : A -> B -> C) (a : A) (b : B) (n : nat) :
  map2 f (repeat a n) (repeat b n) = repeat (f a b) n.
Proof.
  induction n as [| n IH]; simpl; [reflexivity | rewrite IH; reflexivity].
Qed.

(** The encoder of the examples in evaluation mode, on one sample of two
    documents: the embedding is the larger of the two first tokens,
    followed by zeros. *)
Lemma stub_forward_pair (n k : nat) (p : R) (dim : nat)
      (keep : nat -> nat -> bool)
      (tok1 tok2 : Z) (toks1 toks2 k1 k2 : list Z) :
  length toks1 = length toks2 ->
  length k1 = length k2 ->
  CorpusEncoder03.forward
    (CorpusEncoder03.mk
       (DocumentEncoder.mk
          (fun doc _ => Ok (map (fun tok => repeat (IZR tok) (S n)) doc)) p false)
       (mkLinear (S n) (S k)
                 ((1 :: repeat 0 n) :: repeat (repeat 0 (S n)) k)
                 (Some (repeat 0 (S k))))
       dim)
    keep [[tok1 :: toks1; tok2 :: toks2]] (Some [[k1; k2]])
  = Ok [Rmax (IZR tok1) (IZR tok2) :: repeat 0 k].
Proof.
  intros Ht Hk.
  rewrite (corpus03_forward_eval _ keep 1 2 (S (length toks1)) (length k1) (S n)
             [[tok1 :: toks1; tok2 :: toks2]] [[k1; k2]]).
  - cbn [zipWithM CorpusEncoder03.encode_doc CorpusEncoder03.doc_encoder
         DocumentEncoder.text_encoder bind Ok mapM map DocumentEncoder.first_step
         CorpusEncoder03.max_docs fold_left CorpusEncoder03.W].
    rewrite map2_repeat.
    rewrite linear_Ok by apply repeat_length.
    cbn [repeat]. rewrite affine_select. reflexivity.
  - split; [reflexivity |]. constructor; [| constructor]. split; [reflexivity |].
    constructor; [reflexivity |]. constructor; [| constructor].
    simpl. rewrite Ht. reflexivity.
  - split; [reflexivity |]. constructor; [| constructor]. split; [reflexivity |].
    constructor; [reflexivity |]. constructor; [| constructor].
    symmetry. exact Hk.
  - lia.
  - lia.
  - apply (stub_width n k p false dim).
  - reflexivity.
Qed.

(** The ECB corpus and the FED corpus hold the same two documents, in
    opposite order: the two inputs differ and, in evaluation mode, the
    swapped call returns the same value. *)
Lemma dual_encoder_swap_counterexample :
  let ce := CorpusEncoder.eval
              (CorpusEncoder.init (fun _ => Examples.encoder_stub)
                                  (Some "model_03"%string) true) in
  let x_ecb := [[[5; 7]; [6; 7]]]%Z in
  let x_fed := [[[6; 7]; [5; 7]]]%Z in
  let masks := Some [[[1; 1]; [1; 1]]]%Z in
  x_ecb <> x_fed
  /\ exists out,
      CorpusEncoder.forward ce Examples.keep_all [x_ecb; x_fed] [masks; masks]
      = Ok (Some out)
      /\ CorpusEncoder.forward ce Examples.keep_all [x_fed; x_ecb] [masks; masks]
         = Ok (Some out).
Proof.
  intros ce x_ecb x_fed masks. split; [discriminate |].
  assert (H56 : forall kp,
             CorpusEncoder03.forward (CorpusEncoder03.eval Examples.encoder_stub)
               kp x_ecb masks
             = Ok [Rmax 5 6 :: repeat 0 31]).
  { intros kp.
    apply (stub_forward_pair 767 31 0.5 32 kp 5 6 [7%Z] [7%Z] [1; 1]%Z [1; 1]%Z);
      reflexivity. }
  assert (H65 : forall kp,
             CorpusEncoder03.forward (CorpusEncoder03.eval Examples.encoder_stub)
               kp x_fed masks
             = Ok [Rmax 5 6 :: repeat 0 31]).
  { intros kp. rewrite (Rmax_comm 5 6).
    apply (stub_forward_pair 767 31 0.5 32 kp 6 5 [7%Z] [7%Z] [1; 1]%Z [1; 1]%Z);
      reflexivity. }
  exists [(Rmax 5 6 :: repeat 0 31) ++ (Rmax 5 6 :: repeat 0 31)].
  unfold CorpusEncoder.forward, ce.
  cbn [CorpusEncoder.eval CorpusEncoder.init String.eqb Ascii.eqb Bool.eqb negb
       CorpusEncoder.method CorpusEncoder.separate CorpusEncoder.encoder_ecb
       CorpusEncoder.encoder_fed option_map attr item nth_error bind Ok].
  rewrite !H56, !H65. split; reflexivity.
Qed.

(* ================================================================== *)
(** * [AttentionWithContext] on floats with infinities and NaN *)
(* ================================================================== *)

(** ** Floats with special values *)

Lemma max_value_bounds : 2 ^ 127 <= F32.max_value < 2 ^ 128.
Proof.
  unfold F32.max_value.
  assert (H0 : 0 < 2 ^ 127) by (apply pow_lt; lra).
  assert (H1 : 0 < / 2 ^ 23 <= 1).
  { split.
    - apply Rinv_0_lt_compat. apply pow_lt. lra.
    - rewrite <- Rinv_1. apply Rinv_le_contravar; [lra |].
      apply pow_R1_Rle. lra. }
  replace (2 ^ 128) with (2 * 2 ^ 127) by (simpl; ring).
  split; nra.
Qed.

Lemma max_value_ge_1 : 1 <= F32.max_value.
Proof.
  pose proof max_value_bounds as [H _].
  apply Rle_trans with (2 ^ 127); [| exact H]. apply pow_R1_Rle. lra.
Qed.

Lemma overflow_Fin (r : R) :
  Rabs r <= F32.max_value -> F32.overflow r = F32.Fin r.
Proof.
  intros H. unfold F32.overflow.
  assert (H' : - F32.max_value <= r <= F32.max_value).
  { unfold Rabs in H. destruct (Rcase_abs r); lra. }
  destruct (Rlt_dec F32.max_value r) as [Hlt | _]; [lra |].
  destruct (Rlt_dec r (- F32.max_value)) as [Hlt | _]; [lra |].
  reflexivity.
Qed.

Lemma overflow_PInf (r : R) :
  F32.max_value < r -> F32.overflow r = F32.PInf.
Proof.
  intros H. unfold F32.overflow.
  destruct (Rlt_dec F32.max_value r) as [_ | Hn]; [reflexivity | contradiction].
Qed.

Lemma overflow_0 : F32.overflow 0 = F32.Fin 0.
Proof.
  apply overflow_Fin. rewrite Rabs_R0. pose proof max_value_ge_1. lra.
Qed.

Lemma mul_0_r (s : R) : F32.mul (F32.Fin s) (F32.of_Z 0) = F32.Fin 0.
Proof.
  unfold F32.of_Z. simpl. rewrite Rmult_0_r. apply overflow_0.
Qed.

Lemma mul_0_l (v : R) : F32.mul (F32.Fin 0) (F32.Fin v) = F32.Fin 0.
Proof.
  simpl. rewrite Rmult_0_l. apply overflow_0.
Qed.

Lemma mul_NaN_l (b : F32.t) : F32.mul F32.NaN b = F32.NaN.
Proof. destruct b; reflexivity. Qed.

Lemma add_0_0 : F32.add (F32.Fin 0) (F32.Fin 0) = F32.Fin 0.
Proof.
  simpl. rewrite Rplus_0_l. apply overflow_0.
Qed.

Lemma sum_zeros (n : nat) : F32.sum (repeat (F32.Fin 0) n) = F32.Fin 0.
Proof.
  unfold F32.sum. induction n as [| n IH]; [reflexivity |].
  cbn [repeat fold_right]. rewrite IH. apply add_0_0.
Qed.

(** [0 / d] is 0, or NaN when [d] is 0 or NaN. *)
Lemma div_0_l (d : F32.t) :
  F32.div (F32.Fin 0) d = F32.Fin 0 \/ F32.div (F32.Fin 0) d = F32.NaN.
Proof.
  destruct d as [y | | |]; simpl; auto.
  destruct (Req_dec_T y 0) as [Hy | Hy].
  - right. unfold F32.inf_mul. destruct (Req_dec_T 0 0) as [_ | Hn];
      [reflexivity | contradiction Hn; reflexivity].
  - left. unfold Rdiv. rewrite Rmult_0_l. apply overflow_0.
Qed.

Lemma zero_plus_eps :
  F32.add (F32.Fin 0) AttentionWithContext32.eps
  = F32.Fin (0 + AttentionWithContext.eps).
Proof.
  unfold AttentionWithContext32.eps. simpl. apply overflow_Fin.
  unfold AttentionWithContext.eps. pose proof max_value_ge_1.
  rewrite Rabs_pos_eq; lra.
Qed.

Lemma div_0_eps :
  F32.div (F32.Fin 0) (F32.Fin (0 + AttentionWithContext.eps)) = F32.Fin 0.
Proof.
  simpl. destruct (Req_dec_T (0 + AttentionWithContext.eps) 0) as [H | _].
  - unfold AttentionWithContext.eps in H. lra.
  - unfold Rdiv. rewrite Rmult_0_l. apply overflow_0.
Qed.

Lemma vscale_0_finite (r : list F32.t) :
  Forall F32.is_finite r ->
  F32.vscale (F32.Fin 0) r = repeat (F32.Fin 0) (length r).
Proof.
  unfold F32.vscale. induction 1 as [| v r Hv _ IH]; [reflexivity |].
  cbn [map length repeat]. rewrite IH. f_equal.
  destruct v as [v | | |]; simpl in Hv; try contradiction.
  apply mul_0_l.
Qed.

Lemma vadd32_zeros (d : nat) :
  F32.vadd (repeat (F32.Fin 0) d) (repeat (F32.Fin 0) d) = repeat (F32.Fin 0) d.
Proof.
  unfold F32.vadd. induction d as [| d IH]; [reflexivity |].
  cbn [repeat map2]. rewrite IH. f_equal. apply add_0_0.
Qed.

Lemma vscale_NaN (r : list F32.t) :
  F32.vscale F32.NaN r = repeat F32.NaN (length r).
Proof.
  unfold F32.vscale. induction r as [| v r IH]; [reflexivity |].
  cbn [map length repeat]. rewrite IH, mul_NaN_l. reflexivity.
Qed.

Lemma vsum32_zeros (d : nat) (xs : list (list F32.t)) :
  Forall (fun r => length r = d /\ Forall F32.is_finite r) xs ->
  F32.vsum d (map2 F32.vscale (repeat (F32.Fin 0) (length xs)) xs)
  = repeat (F32.Fin 0) d.
Proof.
  unfold F32.vsum. induction 1 as [| r xs [Hr Hfin] _ IH]; [reflexivity |].
  cbn [length repeat map2 fold_right]. rewrite IH.
  rewrite (vscale_0_finite r Hfin), Hr. apply vadd32_zeros.
Qed.

(** ** [nn.Linear] on floats *)

Lemma affine32_length (l : Linear) (x : list F32.t) :
  Linear_wf l = true -> length (F32.affine l x) = out_features l.
Proof.
  unfold Linear_wf, F32.affine. intros H.
  apply andb_prop in H. destruct H as [H Hb].
  apply andb_prop in H. destruct H as [Hw _].
  apply Nat.eqb_eq in Hw.
  destruct (bias l) as [b |].
  - apply Nat.eqb_eq in Hb. unfold F32.vadd.
    rewrite map2_length; rewrite !length_map; lia.
  - rewrite length_map. exact Hw.
Qed.

Lemma linear32_Ok (l : Linear) (x : list F32.t) :
  length x = in_features l -> F32.linear l x = Ok (F32.affine l x).
Proof.
  intros H. unfold F32.linear. rewrite H, Nat.eqb_refl. reflexivity.
Qed.

(** ** [AttentionWithContext32]: the stages of [forward] *)

Section Attention32.

Import AttentionWithContext32.

Variable m : AttentionWithContext.t.
Hypothesis m_wf : AttentionWithContext.wf m = true.

Let W := AttentionWithContext.W m.
Let u := AttentionWithContext.u m.
Let input_shape := AttentionWithContext.input_shape m.

Lemma step_score32 (r : list F32.t) :
  length r = input_shape ->
  (s <- F32.linear u (map F32.tanh (F32.affine W r)) ;; unit_axis s)
  = Ok (hd (F32.Fin 0) (F32.affine u (map F32.tanh (F32.affine W r)))).
Proof.
  destruct (wf_parts m m_wf) as (HW & Hu & HWi & HWo & Hui & Huo).
  intros Hr. rewrite linear32_Ok.
  2:{ rewrite length_map, affine32_length by exact HW. unfold u, W. lia. }
  cbn [bind Ok].
  pose proof (affine32_length u (map F32.tanh (F32.affine W r)) Hu) as Hlen.
  unfold u in Hlen at 2. rewrite Huo in Hlen.
  destruct (F32.affine u (map F32.tanh (F32.affine W r))) as [| s [| ? ?]];
    simpl in Hlen; try discriminate.
  reflexivity.
Qed.

Lemma exp_scores32_wf (x : list (list (list F32.t))) :
  Forall (Forall (fun r => length r = input_shape)) x ->
  exp_scores m x = Ok (map (map (score m)) x).
Proof.
  destruct (wf_parts m m_wf) as (HW & Hu & HWi & HWo & Hui & Huo).
  intros Hx. unfold exp_scores. fold W u.
  rewrite (mapM_total _ (map (F32.affine W))).
  2:{ intros xs Hin. apply mapM_total. intros r Hr.
      apply linear32_Ok. rewrite Forall_forall in Hx.
      specialize (Hx xs Hin). rewrite Forall_forall in Hx.
      rewrite (Hx r Hr). symmetry. exact HWi. }
  cbn [bind Ok]. cbv zeta.
  rewrite (mapM_total _ (map (fun r => hd (F32.Fin 0) (F32.affine u r)))).
  2:{ intros us Hin. apply mapM_total. intros r Hr.
      apply in_map_iff in Hin. destruct Hin as (us' & <- & Hin).
      apply in_map_iff in Hin. destruct Hin as (xs & <- & Hin).
      rewrite map_map in Hr. apply in_map_iff in Hr.
      destruct Hr as (r0 & <- & Hr0).
      apply step_score32. rewrite Forall_forall in Hx.
      specialize (Hx xs Hin). rewrite Forall_forall in Hx. apply Hx. exact Hr0. }
  cbn [bind Ok]. unfold Ok. f_equal. rewrite !map_map. apply map_ext. intros xs.
  rewrite !map_map. reflexivity.
Qed.


Lemma masked32_shape (x : list (list (list F32.t))) (mask : list (list Z)) :
  Forall2 (fun xs ms => length xs = length ms) x mask ->
  Forall2 (fun arow xs => length arow = length xs) (normalize (masked_scores m x mask)) x.
Proof.
  unfold masked_scores, normalize.
  induction 1 as [| xs ms x' mask' H _ IH]; simpl; constructor.
  - rewrite length_map, map2_length; rewrite length_map; [reflexivity | exact H].
  - exact IH.
Qed.

Lemma forward32_masked (x : list (list (list F32.t))) (mask : list (list Z)) :
  Forall (Forall (fun r => length r = input_shape)) x ->
  Forall2 (fun xs ms => length xs = length ms) x mask ->
  forward m x (Some mask)
  = Ok (map2 (fun arow xs => F32.vsum (in_features W) (map2 F32.vscale arow xs))
             (normalize (masked_scores m x mask)) x,
        if AttentionWithContext.return_coefficients m
        then Some (normalize (masked_scores m x mask)) else None).
Proof.
  intros Hx Hm. unfold forward. rewrite (exp_scores32_wf x Hx).
  cbn [bind Ok]. unfold apply_mask.
  rewrite (broadcastM_Forall2 _ (map2 (fun v z => F32.mul v (F32.of_Z z)))).
  2:{ clear - Hm. induction Hm as [| xs ms x' mask' H _ IH]; simpl; constructor.
      - apply broadcastM_total; [rewrite length_map; exact H | reflexivity].
      - exact IH. }
  cbn [bind Ok]. cbv zeta. fold (masked_scores m x mask).
  unfold weighted_input.
  rewrite (broadcastM_Forall2
             _ (fun arow xs => F32.vsum (in_features W) (map2 F32.vscale arow xs))).
  2:{ eapply Forall2_impl; [| exact (masked32_shape x mask Hm)].
      intros arow xs Hlen. simpl in Hlen.
      rewrite (broadcastM_total _ F32.vscale); [reflexivity | exact Hlen |].
      reflexivity. }
  cbn [bind Ok]. fold W.
  destruct (AttentionWithContext.return_coefficients m); reflexivity.
Qed.

End Attention32.

(** ** [AttentionWithContext32]: every step cancelled *)

Lemma masked32_row_zero (m : AttentionWithContext.t)
      (xs : list (list F32.t)) (ms : list Z) :
  length xs = length ms ->
  Forall (fun z => z = 0%Z) ms ->
  Forall (fun r => F32.is_finite (AttentionWithContext32.score m r)) xs ->
  map2 (fun v z => F32.mul v (F32.of_Z z)) (map (AttentionWithContext32.score m) xs) ms
  = repeat (F32.Fin 0) (length xs).
Proof.
  intros Hlen H0. revert xs Hlen.
  induction H0 as [| z ms Hz _ IH]; intros [| r xs] Hlen Hfin;
    simpl in Hlen; try discriminate; [reflexivity |].
  inversion Hfin as [| ? ? Hr Hfin']; subst.
  cbn [map map2 length repeat]. rewrite IH by (assumption || lia). f_equal.
  destruct (AttentionWithContext32.score m r) as [s | | |];
    simpl in Hr; try contradiction.
  apply mul_0_r.
Qed.

Lemma normalize32_zero_row (n : nat) :
  map (fun v => F32.div v (F32.add (F32.sum (repeat (F32.Fin 0) n))
                                   AttentionWithContext32.eps))
      (repeat (F32.Fin 0) n)
  = repeat (F32.Fin 0) n.
Proof.
  rewrite sum_zeros, zero_plus_eps.
  induction n as [| n IH]; [reflexivity |].
  cbn [repeat map]. rewrite IH, div_0_eps. reflexivity.
Qed.

(** C2 (amended). Floats with infinities and NaN, rounding not modelled.
    For a well-formed layer, steps of [input_shape] features and a mask of
    the sizes of the input whose entries are all 0, the call returns.
    When every feature is finite and no score overflows, every pooled
    vector and every coefficient is 0, the 0 of the cancelled scores
    divided by [eps]. *)
Theorem attention_fully_masked
        (m : AttentionWithContext.t)
        (x : list (list (list F32.t))) (mask : list (list Z)) :
  AttentionWithContext.wf m = true ->
  Forall (Forall (fun r => length r = AttentionWithContext.input_shape m)) x ->
  Forall2 (fun xs ms => length xs = length ms) x mask ->
  Forall (Forall (fun z => z = 0%Z)) mask ->
  (exists pooled coeffs,
      AttentionWithContext32.forward m x (Some mask) = Ok (pooled, coeffs))
  /\ (Forall (Forall (fun r => Forall F32.is_finite r
                               /\ F32.is_finite (AttentionWithContext32.score m r))) x ->
      AttentionWithContext32.forward m x (Some mask)
      = Ok (map (fun _ => repeat (F32.Fin 0) (AttentionWithContext.input_shape m)) x,
            if AttentionWithContext.return_coefficients m
            then Some (map (fun xs => repeat (F32.Fin 0) (length xs)) x)
            else None)).
Proof.
  intros Hwf Hx Hm H0.
  rewrite (forward32_masked m Hwf x mask Hx Hm).
  split; [eexists; eexists; reflexivity |].
  intros Hfin.
  destruct (wf_parts m Hwf) as (_ & _ & HWi & _). rewrite HWi.
  assert (Hz : AttentionWithContext32.normalize
                 (AttentionWithContext32.masked_scores m x mask)
               = map (fun xs => repeat (F32.Fin 0) (length xs)) x).
  { unfold AttentionWithContext32.normalize, AttentionWithContext32.masked_scores.
    clear Hx. induction Hm as [| xs ms x' mask' Hlen _ IH]; [reflexivity |].
    inversion H0 as [| ? ? Hms H0']; subst.
    inversion Hfin as [| ? ? Hxs Hfin']; subst.
    cbn [map map2]. rewrite (IH H0' Hfin'). f_equal.
    rewrite (masked32_row_zero m xs ms Hlen Hms).
    - apply normalize32_zero_row.
    - eapply Forall_impl; [| exact Hxs]. intros r [_ Hr]. exact Hr. }
  rewrite Hz. f_equal. f_equal.
  clear Hz Hm H0. induction x as [| xs x IH]; [reflexivity |].
  inversion Hx as [| ? ? Hxs Hx']; subst.
  inversion Hfin as [| ? ? Hfs Hfin']; subst.
  cbn [map map2]. rewrite (IH Hx' Hfin'). f_equal.
  apply vsum32_zeros.
  rewrite Forall_forall in Hxs, Hfs. apply Forall_forall. intros r Hr.
  split; [apply Hxs; exact Hr | apply (Hfs r Hr)].
Qed.

Lemma overflow_exp_0 : F32.overflow (exp 0) = F32.Fin (exp 0).
Proof.
  apply overflow_Fin. rewrite exp_0, Rabs_R1. apply max_value_ge_1.
Qed.

(** With weights 0 every score is [exp 0]. *)
Lemma att_flat_score32 (a b : R) :
  AttentionWithContext32.score Examples.att_flat [F32.Fin a; F32.Fin b]
  = F32.Fin (exp 0).
Proof.
  unfold AttentionWithContext32.score, Examples.att_flat, AttentionWithContext.init.
  cbn [AttentionWithContext.W AttentionWithContext.u F32.affine bias weight
       map F32.dot F32.vadd map2 F32.tanh hd].
  rewrite !mul_0_l, !add_0_0. cbn [F32.tanh].
  rewrite !mul_0_l, !add_0_0. cbn [F32.exp]. apply overflow_exp_0.
Qed.

Lemma attention_fully_masked_witness :
  AttentionWithContext32.forward Examples.att_flat Examples.att_flat_x32
                                 (Some Examples.att_zero_mask)
  = Ok ([[F32.Fin 0; F32.Fin 0]; [F32.Fin 0; F32.Fin 0]],
        Some [[F32.Fin 0; F32.Fin 0; F32.Fin 0]; [F32.Fin 0; F32.Fin 0; F32.Fin 0]]).
Proof.
  apply (proj2 (attention_fully_masked Examples.att_flat Examples.att_flat_x32
                                       Examples.att_zero_mask
                                       eq_refl
                                       ltac:(repeat constructor)
                                       ltac:(repeat constructor)
                                       ltac:(repeat constructor))).
  unfold Examples.att_flat_x32, Examples.att_flat_x. cbn [map].
  repeat (first [apply Forall_nil | apply Forall_cons]);
    (split; [repeat constructor | rewrite att_flat_score32; exact I]).
Defined.

(** ** [AttentionWithContext32]: a score that overflows *)

Lemma exp_1_lower : 9 / 4 < exp 1.
Proof.
  replace 1 with (/ 2 + / 2) by lra. rewrite exp_plus.
  pose proof (exp_ineq1 (/ 2) ltac:(lra)) as He. nra.
Qed.

Lemma tanh_1_lower_16_25 : 16 / 25 <= tanh 1.
Proof.
  unfold tanh, sinh, cosh. rewrite exp_Ropp.
  pose proof exp_1_lower as He.
  set (e := exp 1) in *.
  assert (He0 : 0 < e) by lra.
  assert (Hi : 0 < / e) by (apply Rinv_0_lt_compat; lra).
  assert (Hie : e * / e = 1) by (apply Rinv_r; lra).
  assert (Hd : 0 < (e + / e) / 2) by lra.
  assert (H3 : / e <= 4 / 9).
  { apply Rmult_le_reg_l with e; [lra |]. rewrite Hie. lra. }
  remember ((e + / e) / 2) as c eqn:Hc.
  remember ((e - / e) / 2) as a eqn:Ha.
  apply Rmult_le_reg_r with c; [exact Hd |].
  replace (a / c * c) with a by (field; lra).
  lra.
Qed.

Lemma exp_INR_lower (n : nat) : 2 ^ n <= exp (INR n).
Proof.
  induction n as [| n IH].
  - simpl. rewrite exp_0. lra.
  - rewrite S_INR, exp_plus. change (2 ^ S n) with (2 * 2 ^ n).
    pose proof exp_1_lower as He.
    assert (H0 : 0 < 2 ^ n) by (apply pow_lt; lra).
    rewrite (Rmult_comm 2). apply Rmult_le_compat; lra.
Qed.

Lemma exp_128_overflows (v : R) : 128 <= v -> F32.max_value < exp v.
Proof.
  intros Hv. pose proof max_value_bounds as [_ Hmax].
  pose proof (exp_INR_lower 128) as H.
  replace (INR 128) with 128 in H by (rewrite INR_IZR_INZ; reflexivity).
  assert (Hle : exp 128 <= exp v) by (apply exp_le; exact Hv).
  lra.
Qed.

Lemma add_Fin (x y : R) :
  Rabs (x + y) <= F32.max_value -> F32.add (F32.Fin x) (F32.Fin y) = F32.Fin (x + y).
Proof. intros H. cbn [F32.add]. apply overflow_Fin. exact H. Qed.

Lemma mul_Fin (x y : R) :
  Rabs (x * y) <= F32.max_value -> F32.mul (F32.Fin x) (F32.Fin y) = F32.Fin (x * y).
Proof. intros H. cbn [F32.mul]. apply overflow_Fin. exact H. Qed.

Lemma max_value_ge_200 : 200 <= F32.max_value.
Proof.
  pose proof max_value_bounds as [H _].
  apply Rle_trans with (2 ^ 127); [| exact H].
  apply Rle_trans with (2 ^ 8); [simpl; lra |].
  apply Rle_pow; [lra | lia].
Qed.

Lemma att_overflow_score :
  AttentionWithContext32.score Examples.att_overflow [F32.Fin 1] = F32.PInf.
Proof.
  pose proof max_value_ge_200 as Hmax.
  pose proof (tanh_abs_le_1 1) as Ht. pose proof tanh_1_lower_16_25 as Ht'.
  assert (Habs : forall v, Rabs v <= 200 -> Rabs v <= F32.max_value)
    by (intros v Hv; lra).
  unfold AttentionWithContext32.score, Examples.att_overflow, AttentionWithContext.init.
  cbn [AttentionWithContext.W AttentionWithContext.u F32.affine bias weight
       map F32.dot F32.vadd map2 hd].
  rewrite (mul_Fin 1 1) by (apply Habs, Rabs_le; lra).
  rewrite !add_Fin by (apply Habs, Rabs_le; lra).
  cbn [F32.tanh]. replace (1 * 1 + 0 + 0) with 1 by ring.
  assert (Hb : - 200 <= 200 * tanh 1 <= 200).
  { pose proof (Rle_abs (tanh 1)). lra. }
  rewrite (mul_Fin 200 (tanh 1)) by (apply Habs, Rabs_le; lra).
  rewrite add_Fin by (apply Habs, Rabs_le; lra).
  cbn [F32.exp]. apply overflow_PInf. apply exp_128_overflows. lra.
Qed.

Lemma inf_times_0 : F32.mul F32.PInf (F32.of_Z 0) = F32.NaN.
Proof.
  unfold F32.of_Z. cbn [F32.mul]. unfold F32.inf_mul.
  destruct (Req_dec_T 0 0) as [_ | Hn]; [reflexivity | contradiction Hn; reflexivity].
Qed.

Lemma attention_fully_masked_overflow_counterexample :
  AttentionWithContext.wf Examples.att_overflow = true
  /\ Forall (Forall (Forall F32.is_finite)) Examples.att_x32
  /\ AttentionWithContext32.score Examples.att_overflow [F32.Fin 1] = F32.PInf
  /\ AttentionWithContext32.forward Examples.att_overflow Examples.att_x32 (Some [[0%Z]])
     = Ok ([[F32.NaN]], Some [[F32.NaN]]).
Proof.
  split; [reflexivity |]. split; [repeat constructor |].
  split; [exact att_overflow_score |].
  rewrite (forward32_masked Examples.att_overflow eq_refl);
    [| repeat constructor | repeat constructor].
  unfold AttentionWithContext32.masked_scores, Examples.att_x32.
  cbn [map map2]. rewrite att_overflow_score, inf_times_0.
  reflexivity.
Qed.

(** ** [AttentionWithContext32]: the steps that the mask cancels *)

Lemma vscale_cancelled (c : F32.t) (r r' : list F32.t) :
  c = F32.Fin 0 \/ c = F32.NaN ->
  Forall F32.is_finite r -> Forall F32.is_finite r' ->
  length r = length r' ->
  F32.vscale c r = F32.vscale c r'.
Proof.
  intros [-> | ->] Hr Hr' Hlen.
  - rewrite !vscale_0_finite by assumption. rewrite Hlen. reflexivity.
  - rewrite !vscale_NaN. rewrite Hlen. reflexivity.
Qed.

Lemma cancelled_score (m : AttentionWithContext.t) (z : Z) (r : list F32.t) :
  AttentionWithContext32.cancelled m z r ->
  F32.mul (AttentionWithContext32.score m r) (F32.of_Z z) = F32.Fin 0.
Proof.
  intros (-> & _ & Hs).
  destruct (AttentionWithContext32.score m r) as [s | | |];
    simpl in Hs; try contradiction.
  apply mul_0_r.
Qed.

Lemma masked32_row_agree (m : AttentionWithContext.t) (d : nat)
      (ms : list Z) (xs xs' : list (list F32.t)) :
  Forall (fun r => length r = d) xs ->
  Forall (fun r => length r = d) xs' ->
  length xs = length xs' ->
  Forall2 (fun (z : Z) (rr : list F32.t * list F32.t) =>
             fst rr = snd rr
             \/ (AttentionWithContext32.cancelled m z (fst rr)
                 /\ AttentionWithContext32.cancelled m z (snd rr)))
          ms (combine xs xs') ->
  map2 (fun v z => F32.mul v (F32.of_Z z)) (map (AttentionWithContext32.score m) xs) ms
  = map2 (fun v z => F32.mul v (F32.of_Z z)) (map (AttentionWithContext32.score m) xs') ms
  /\ forall D : F32.t,
      map2 F32.vscale
           (map (fun v => F32.div v D)
                (map2 (fun v z => F32.mul v (F32.of_Z z))
                      (map (AttentionWithContext32.score m) xs) ms))
           xs
      = map2 F32.vscale
             (map (fun v => F32.div v D)
                  (map2 (fun v z => F32.mul v (F32.of_Z z))
                        (map (AttentionWithContext32.score m) xs) ms))
             xs'.
Proof.
  intros Hxs. revert ms xs'.
  induction Hxs as [| r xs Hr _ IH]; intros ms [| r' xs'] Hxs' Hlen Hag;
    simpl in Hlen; try discriminate.
  - split; reflexivity.
  - inversion Hxs' as [| ? ? Hr' Hxs'']; subst.
    cbn [combine] in Hag.
    inversion Hag as [| z rr ms' prs Hz Hag']; subst. clear Hag.
    destruct (IH ms' xs' Hxs'' ltac:(lia) Hag') as [IH1 IH2].
    cbn [fst snd] in Hz. cbn [map map2]. split.
    + rewrite IH1. f_equal.
      destruct Hz as [-> | [Hc Hc']]; [reflexivity |].
      rewrite (cancelled_score m z r Hc), (cancelled_score m z r' Hc').
      reflexivity.
    + intros D. cbn [map map2]. rewrite IH2. f_equal.
      destruct Hz as [-> | [Hc Hc']]; [reflexivity |].
      rewrite (cancelled_score m z r Hc).
      destruct Hc as (_ & Hfin & _). destruct Hc' as (_ & Hfin' & _).
      apply vscale_cancelled; [apply div_0_l | assumption | assumption | lia].
Qed.

Lemma masked32_agree (m : AttentionWithContext.t) (d : nat)
      (mask : list (list Z)) (x x' : list (list (list F32.t))) :
  Forall (Forall (fun r => length r = d)) x ->
  Forall (Forall (fun r => length r = d)) x' ->
  Forall2 (fun xs xs' => length xs = length xs') x x' ->
  AttentionWithContext32.agree_on_valid m mask x x' ->
  AttentionWithContext32.masked_scores m x mask
  = AttentionWithContext32.masked_scores m x' mask
  /\ map2 (fun arow xs => F32.vsum d (map2 F32.vscale arow xs))
          (AttentionWithContext32.normalize
             (AttentionWithContext32.masked_scores m x mask)) x
     = map2 (fun arow xs => F32.vsum d (map2 F32.vscale arow xs))
            (AttentionWithContext32.normalize
               (AttentionWithContext32.masked_scores m x mask)) x'.
Proof.
  unfold AttentionWithContext32.agree_on_valid, AttentionWithContext32.masked_scores,
    AttentionWithContext32.normalize.
  intros Hx Hx' Hlen. revert mask Hx Hx'.
  induction Hlen as [| xs xs' x x' Hl _ IH]; intros mask Hx Hx' Hag.
  - split; reflexivity.
  - inversion Hx as [| ? ? Hxs Hxr]; subst.
    inversion Hx' as [| ? ? Hxs' Hxr']; subst.
    cbn [map2] in Hag.
    inversion Hag as [| ms prs mask' rest Hms Hag']; subst. clear Hag.
    destruct (IH mask' Hxr Hxr' Hag') as [IH1 IH2].
    destruct (masked32_row_agree m d ms xs xs' Hxs Hxs' Hl Hms) as [H1 H2].
    cbn [map map2]. split.
    + rewrite IH1, H1. reflexivity.
    + rewrite IH2, H2. reflexivity.
Qed.

(** X3. Floats with infinities and NaN, rounding not modelled.  The steps
    that the mask cancels have no influence as long as they hold finite
    features and their score does not overflow: for a well-formed layer,
    two inputs of the same sizes that differ only on such steps give the
    same result, pooled vectors and coefficients. *)
Theorem attention_ignores_masked_steps
        (m : AttentionWithContext.t)
        (x x' : list (list (list F32.t))) (mask : list (list Z)) :
  AttentionWithContext.wf m = true ->
  Forall (Forall (fun r => length r = AttentionWithContext.input_shape m)) x ->
  Forall (Forall (fun r => length r = AttentionWithContext.input_shape m)) x' ->
  Forall2 (fun xs xs' => length xs = length xs') x x' ->
  Forall2 (fun xs ms => length xs = length ms) x mask ->
  AttentionWithContext32.agree_on_valid m mask x x' ->
  AttentionWithContext32.forward m x (Some mask)
  = AttentionWithContext32.forward m x' (Some mask).
Proof.
  intros Hwf Hx Hx' Hlen Hm Hag.
  assert (Hm' : Forall2 (fun xs ms => length xs = length ms) x' mask).
  { clear - Hlen Hm. revert mask Hm.
    induction Hlen as [| xs xs' x x' Hl _ IH]; intros mask Hm;
      inversion Hm; subst; constructor; [lia | apply IH; assumption]. }
  rewrite (forward32_masked m Hwf x mask Hx Hm).
  rewrite (forward32_masked m Hwf x' mask Hx' Hm').
  destruct (wf_parts m Hwf) as (_ & _ & HWi & _). rewrite HWi.
  destruct (masked32_agree m (AttentionWithContext.input_shape m) mask x x'
                           Hx Hx' Hlen Hag) as [H1 H2].
  rewrite <- H1, H2. reflexivity.
Qed.

Lemma attention_ignores_masked_steps_witness :
  AttentionWithContext32.forward Examples.att_flat Examples.att_flat_x32
                                 (Some Examples.att_flat_mask)
  = AttentionWithContext32.forward Examples.att_flat
      (map (map (map F32.Fin)) [[[1; 2]; [3; 4]; [7; 7]]; [[9; 9]; [1; 0]; [8; 8]]])
      (Some Examples.att_flat_mask).
Proof.
  apply (attention_ignores_masked_steps
           Examples.att_flat Examples.att_flat_x32
           (map (map (map F32.Fin)) [[[1; 2]; [3; 4]; [7; 7]]; [[9; 9]; [1; 0]; [8; 8]]])
           Examples.att_flat_mask).
  - reflexivity.
  - repeat constructor.
  - repeat constructor.
  - repeat constructor.
  - repeat constructor.
  - unfold AttentionWithContext32.agree_on_valid, Examples.att_flat_x32,
      Examples.att_flat_x, Examples.att_flat_mask.
    cbn [map map2 combine].
    repeat (first [apply Forall2_nil | apply Forall2_cons]); cbn [fst snd];
      first [ left; reflexivity
            | right; split;
              (split; [reflexivity |
                       split; [repeat constructor
                              | rewrite att_flat_score32; exact I]]) ].
Defined.

(* ================================================================== *)
(** * Further properties of [model/framework_model.py] *)
(* ================================================================== *)

(** ** Which methods build a model, which ones run *)

Lemma init_placeholder (new_encoder : nat -> CorpusEncoder03.t)
      (s : string) (separate : bool) :
  s = "bow"%string \/ s = "max_pooling"%string \/ s = "hierbert"%string ->
  CorpusEncoder.init new_encoder (Some s) separate
  = CorpusEncoder.mk (Some s) separate None None None
                     (Some (if separate then 2%nat else 1%nat)).
Proof.
  intros [-> | [-> | ->]]; destruct separate; reflexivity.
Qed.

Lemma placeholder_forward (new_encoder : nat -> CorpusEncoder03.t)
      (s : string) (separate : bool) (keep : nat -> nat -> nat -> bool)
      (x : list (list (list (list Z))))
      (x_masks : list (option (list (list (list Z))))) :
  s = "bow"%string \/ s = "max_pooling"%string \/ s = "hierbert"%string ->
  CorpusEncoder.forward (CorpusEncoder.init new_encoder (Some s) separate)
                        keep x x_masks
  = Raise AttributeError.
Proof.
  intros Hs. rewrite (init_placeholder new_encoder s separate Hs).
  unfold CorpusEncoder.forward. destruct separate; reflexivity.
Qed.

(** X12. The methods 'bow', 'max_pooling' and 'hierbert' are placeholders:
    a model is built for them, with a corpus width of 1 (2 with two
    encoders), but no encoder is created, so no pass ever returns a value;
    when the nontextual network accepts its input the pass raises
    [AttributeError]. *)
Theorem placeholder_methods_never_return
        (new_encoder : nat -> CorpusEncoder03.t)
        (s : string) (separate : bool)
        (nontext_network : NontextualNetwork.t)
        (classifier : ClassificationHead.t) :
  s = "bow"%string \/ s = "max_pooling"%string \/ s = "hierbert"%string ->
  exists m,
    MyModel.init new_encoder (Some s) separate nontext_network classifier = Ok m
    /\ CorpusEncoder.corpus_emb_dim (MyModel.corpus_encoder m)
       = Some (if separate then 2%nat else 1%nat)
    /\ forall keep x_text x_masks x_nontext,
        (forall out, MyModel.forward m keep x_text x_masks x_nontext <> Ok out)
        /\ (forall xn, NontextualNetwork.forward nontext_network x_nontext = Ok xn ->
                       MyModel.forward m keep x_text x_masks x_nontext
                       = Raise AttributeError).
Proof.
  intros Hs. unfold MyModel.init.
  rewrite (init_placeholder new_encoder s separate Hs).
  cbn [CorpusEncoder.corpus_emb_dim attr bind Ok].
  eexists. split; [reflexivity |].
  split; [reflexivity |].
  intros keep x_text x_masks x_nontext.
  assert (H : forall xn, NontextualNetwork.forward nontext_network x_nontext = Ok xn ->
                         MyModel.forward
                           (MyModel.mk (Some s) nontext_network
                              (NontextualNetwork.output_dim nontext_network)
                              (CorpusEncoder.mk (Some s) separate None None None
                                 (Some (if separate then 2%nat else 1%nat)))
                              classifier)
                           keep x_text x_masks x_nontext
                         = Raise AttributeError).
  { intros xn Hxn. unfold MyModel.forward.
    cbn [MyModel.nontext_network MyModel.method MyModel.corpus_encoder].
    rewrite Hxn. cbn [bind Ok].
    rewrite <- (init_placeholder new_encoder s separate Hs).
    rewrite (placeholder_forward new_encoder s separate keep x_text x_masks Hs).
    reflexivity. }
  split; [| exact H].
  intros out Hout.
  destruct (NontextualNetwork.forward nontext_network x_nontext) as [e | xn] eqn:Hxn.
  - unfold MyModel.forward in Hout.
    cbn [MyModel.nontext_network] in Hout. rewrite Hxn in Hout. discriminate.
  - rewrite (H xn eq_refl) in Hout. discriminate.
Qed.

Lemma placeholder_methods_never_return_witness :
  exists m,
    MyModel.init (fun _ => Examples.encoder_stub) (Some "bow"%string) true
                 Examples.nontext_net1 Examples.head_32_1 = Ok m
    /\ CorpusEncoder.corpus_emb_dim (MyModel.corpus_encoder m) = Some 2%nat
    /\ forall keep x_text x_masks x_nontext,
        (forall out, MyModel.forward m keep x_text x_masks x_nontext <> Ok out)
        /\ (forall xn, NontextualNetwork.forward Examples.nontext_net1 x_nontext = Ok xn ->
                       MyModel.forward m keep x_text x_masks x_nontext
                       = Raise AttributeError).
Proof.
  apply (placeholder_methods_never_return
           (fun _ => Examples.encoder_stub) "bow"%string true
           Examples.nontext_net1 Examples.head_32_1).
  left. reflexivity.
Defined.

Lemma init_unknown (new_encoder : nat -> CorpusEncoder03.t)
      (s : string) (separate : bool) :
  s <> "bow"%string -> s <> "max_pooling"%string -> s <> "hierbert"%string ->
  s <> "model_03"%string ->
  CorpusEncoder.init new_encoder (Some s) separate
  = CorpusEncoder.mk (Some s) separate None None None None.
Proof.
  intros H1 H2 H3 H4. unfold CorpusEncoder.init.
  rewrite (proj2 (String.eqb_neq _ _) H1), (proj2 (String.eqb_neq _ _) H2),
    (proj2 (String.eqb_neq _ _) H3), (proj2 (String.eqb_neq _ _) H4).
  reflexivity.
Qed.

(** X13. A model can be built exactly for the methods [None], 'bow',
    'max_pooling', 'hierbert' and 'model_03': for any other string, among
    them 'model_01' (the default of the corpus encoder) and 'model_02', the
    corpus encoder gets no [corpus_emb_dim] and the constructor of the model
    raises [AttributeError]. *)
Theorem model_supported_methods
        (new_encoder : nat -> CorpusEncoder03.t)
        (method : option string) (separate : bool)
        (nontext_network : NontextualNetwork.t)
        (classifier : ClassificationHead.t) :
  let supported :=
    In method [None; Some "bow"; Some "max_pooling"; Some "hierbert";
               Some "model_03"]%string in
  ((exists m, MyModel.init new_encoder method separate nontext_network classifier
              = Ok m) <-> supported)
  /\ (MyModel.init new_encoder method separate nontext_network classifier
      = Raise AttributeError <-> ~ supported)
  /\ MyModel.init new_encoder (Some "model_01"%string) separate
                  nontext_network classifier = Raise AttributeError
  /\ MyModel.init new_encoder (Some "model_02"%string) separate
                  nontext_network classifier = Raise AttributeError.
Proof.
  intros supported.
  assert (Hyes : supported ->
                 exists m, MyModel.init new_encoder method separate
                                        nontext_network classifier = Ok m).
  { unfold supported. intros [<- | [<- | [<- | [<- | [<- | []]]]]];
      destruct separate; eexists; reflexivity. }
  assert (Hno : ~ supported ->
                MyModel.init new_encoder method separate nontext_network classifier
                = Raise AttributeError).
  { unfold supported. intros Hn. destruct method as [s |].
    - unfold MyModel.init. rewrite init_unknown; [reflexivity | | | |];
        intros ->; apply Hn; simpl; tauto.
    - exfalso. apply Hn. left. reflexivity. }
  assert (Hdec : supported \/ ~ supported).
  { unfold supported. destruct method as [s |]; [| left; left; reflexivity].
    destruct (String.eqb_spec s "bow") as [-> | H1]; [left; simpl; tauto |].
    destruct (String.eqb_spec s "max_pooling") as [-> | H2]; [left; simpl; tauto |].
    destruct (String.eqb_spec s "hierbert") as [-> | H3]; [left; simpl; tauto |].
    destruct (String.eqb_spec s "model_03") as [-> | H4]; [left; simpl; tauto |].
    right. simpl. intros [H | [H | [H | [H | [H | []]]]]];
      try discriminate; injection H as H; congruence. }
  split; [| split; [| split]].
  - split; [| exact Hyes]. intros (m & Hm).
    destruct Hdec as [H | H]; [exact H |]. rewrite (Hno H) in Hm. discriminate.
  - split; [| exact Hno]. intros Hr Hs.
    destruct (Hyes Hs) as (m & Hm). rewrite Hm in Hr. discriminate.
  - destruct separate; reflexivity.
  - destruct separate; reflexivity.
Qed.

(** ** The tuples of the dual corpus encoder *)

(** X14. With one encoder ([separate=False]) only the first element of
    the token tuple and of the mask tuple is read: the other elements are
    ignored, and empty tuples raise [IndexError].  With two encoders
    ([separate=True]) tuples of one element are refused: the pass raises the
    exception of the ECB encoder if that one fails, and [IndexError]
    otherwise. *)
Theorem corpus_encoder_tuple_elements
        (new_encoder : nat -> CorpusEncoder03.t)
        (keep : nat -> nat -> nat -> bool)
        (x0 : list (list (list Z))) (m0 : option (list (list (list Z))))
        (xs : list (list (list (list Z))))
        (ms : list (option (list (list (list Z))))) :
  let single := CorpusEncoder.init new_encoder (Some "model_03"%string) false in
  let dual := CorpusEncoder.init new_encoder (Some "model_03"%string) true in
  CorpusEncoder.forward single keep (x0 :: xs) (m0 :: ms)
  = CorpusEncoder.forward single keep [x0] [m0]
  /\ CorpusEncoder.forward single keep [] ms = Raise IndexError
  /\ CorpusEncoder.forward single keep (x0 :: xs) [] = Raise IndexError
  /\ CorpusEncoder.forward dual keep [x0] [m0]
     = match CorpusEncoder03.forward (new_encoder 0%nat) (keep 0%nat) x0 m0 with
       | inl e => Raise e
       | inr _ => Raise IndexError
       end.
Proof.
  intros single dual. repeat split.
Qed.

(** ** [ClassificationHead]: the width of the corpus embedding *)

Lemma mapM_linear_raises (l : Linear) (x : list (list R)) :
  Exists (fun r => length r <> in_features l) x ->
  mapM (linear l) x = Raise RuntimeError.
Proof.
  induction x as [| r x IH]; intros H; [inversion H |].
  simpl. unfold linear at 1.
  destruct (length r =? in_features l)%nat eqn:E.
  - cbn [bind Ok]. rewrite IH; [reflexivity |].
    inversion H as [? ? Hr | ? ? Hx]; subst; [| exact Hx].
    apply Nat.eqb_eq in E. contradiction.
  - reflexivity.
Qed.

(** X15. With both modalities present the head projects the corpus
    embedding with [proj], built for rows of [corpus_emb_dim] entries: a
    corpus embedding with a row of another width makes the head raise
    [RuntimeError], before the attention and the MLP are called. *)
Theorem head_corpus_width_mismatch
        (cdim ndim : nat) (mlp : MLP) (va : VectorAttention) (w : list (list R))
        (x_corpus : list (list R)) (x_nontext : list (list (list R))) :
  cdim <> 0%nat -> ndim <> 0%nat ->
  Exists (fun r => length r <> cdim) x_corpus ->
  ClassificationHead.forward (ClassificationHead.init cdim ndim mlp va w)
                             (Some x_corpus) (Some x_nontext)
  = Raise RuntimeError.
Proof.
  intros Hc Hn Hex.
  rewrite (head_both_present (ClassificationHead.init cdim ndim mlp va w)
             x_corpus x_nontext Hc Hn).
  rewrite mapM_linear_raises; [reflexivity | exact Hex].
Qed.

Lemma head_corpus_width_mismatch_witness :
  ClassificationHead.forward Examples.head_small
                             (Some [[1; 2]; [3; 4; 5]]) (Some Examples.nontext_small)
  = Raise RuntimeError.
Proof.
  apply (head_corpus_width_mismatch 2 3 (Examples.mlp_stub 3) Examples.attention_stub
           [[1; 0]; [0; 1]; [1; 1]] [[1; 2]; [3; 4; 5]] Examples.nontext_small).
  - discriminate.
  - discriminate.
  - right. left. simpl. discriminate.
Defined.

(** ** Evaluation mode and the dropout draws *)

Lemma document_encoder_eval_draws (m : DocumentEncoder.t)
      (keep keep' : nat -> nat -> bool)
      (x : list (list Z)) (attention_mask : option (list (list Z))) :
  DocumentEncoder.training m = false ->
  DocumentEncoder.forward m keep x attention_mask
  = DocumentEncoder.forward m keep' x attention_mask.
Proof.
  intros H. unfold DocumentEncoder.forward, dropout. rewrite H. reflexivity.
Qed.

Lemma corpus03_eval_draws (m : CorpusEncoder03.t)
      (keep keep' : nat -> nat -> bool)
      (x : list (list (list Z))) (attention_mask : option (list (list (list Z)))) :
  DocumentEncoder.training (CorpusEncoder03.doc_encoder m) = false ->
  CorpusEncoder03.forward m keep x attention_mask
  = CorpusEncoder03.forward m keep' x attention_mask.
Proof.
  intros H. unfold CorpusEncoder03.forward.
  destruct (view2 (length x * CorpusEncoder03.size1 x) (concat (concat x)));
    [reflexivity |].
  cbn [bind].
  destruct (match attention_mask with
            | Some msk => view2 (length x * CorpusEncoder03.size1 x) (concat (concat msk))
            | None => Raise AttributeError
            end); [reflexivity |].
  cbn [bind].
  rewrite (document_encoder_eval_draws _ keep keep' _ _ H). reflexivity.
Qed.

Lemma corpus_encoder_eval_draws (m : CorpusEncoder.t)
      (keep keep' : nat -> nat -> nat -> bool)
      (x : list (list (list (list Z))))
      (x_masks : list (option (list (list (list Z))))) :
  CorpusEncoder.evaluating m ->
  CorpusEncoder.forward m keep x x_masks = CorpusEncoder.forward m keep' x x_masks.
Proof.
  intros Heval. unfold CorpusEncoder.forward.
  destruct (CorpusEncoder.method m); [| reflexivity].
  destruct (CorpusEncoder.separate m).
  - destruct (CorpusEncoder.encoder_ecb m) as [ecb |] eqn:Hecb; [| reflexivity].
    cbn [attr bind Ok].
    destruct (item x 0); [reflexivity |]. cbn [bind].
    destruct (item x_masks 0); [reflexivity |]. cbn [bind].
    rewrite (corpus03_eval_draws ecb (keep 0%nat) (keep' 0%nat) _ _
               (Heval ecb (or_intror (or_introl Hecb)))).
    destruct (CorpusEncoder03.forward ecb (keep' 0%nat) l o); [reflexivity |].
    cbn [bind].
    destruct (CorpusEncoder.encoder_fed m) as [fed |] eqn:Hfed; [| reflexivity].
    cbn [attr bind Ok].
    destruct (item x 1); [reflexivity |]. cbn [bind].
    destruct (item x_masks 1); [reflexivity |]. cbn [bind].
    rewrite (corpus03_eval_draws fed (keep 1%nat) (keep' 1%nat) _ _
               (Heval fed (or_intror (or_intror Hfed)))).
    reflexivity.
  - destruct (CorpusEncoder.encoder m) as [enc |] eqn:Henc; [| reflexivity].
    cbn [attr bind Ok].
    destruct (item x 0); [reflexivity |]. cbn [bind].
    destruct (item x_masks 0); [reflexivity |]. cbn [bind].
    rewrite (corpus03_eval_draws enc (keep 0%nat) (keep' 0%nat) _ _
               (Heval enc (or_introl Henc))).
    reflexivity.
Qed.

Lemma eval_evaluating (m : CorpusEncoder.t) :
  CorpusEncoder.evaluating (CorpusEncoder.eval m).
Proof.
  intros e H. unfold CorpusEncoder.eval in H.
  cbn [CorpusEncoder.encoder CorpusEncoder.encoder_ecb CorpusEncoder.encoder_fed] in H.
  destruct H as [H | [H | H]].
  - destruct (CorpusEncoder.encoder m); [| discriminate].
    injection H as <-. reflexivity.
  - destruct (CorpusEncoder.encoder_ecb m); [| discriminate].
    injection H as <-. reflexivity.
  - destruct (CorpusEncoder.encoder_fed m); [| discriminate].
    injection H as <-. reflexivity.
Qed.

(** X18. After [.eval()] a pass of the model does not depend on the
    dropout draws: for every model and every input, two passes return the
    same value or raise the same exception. *)
Theorem eval_mode_ignores_draws
        (m : MyModel.t) (keep keep' : nat -> nat -> nat -> bool)
        (x_text : list (list (list (list Z))))
        (x_masks : list (option (list (list (list Z)))))
        (x_nontext : option (list (list R))) :
  MyModel.forward (MyModel.eval m) keep x_text x_masks x_nontext
  = MyModel.forward (MyModel.eval m) keep' x_text x_masks x_nontext.
Proof.
  unfold MyModel.forward.
  cbn [MyModel.eval MyModel.nontext_network MyModel.method MyModel.corpus_encoder
       MyModel.classifier].
  rewrite (corpus_encoder_eval_draws _ keep keep' x_text x_masks
             (eval_evaluating (MyModel.corpus_encoder m))).
  reflexivity.
Qed.

(** ** [NontextualNetwork] with one channel *)

Opaque firstn skipn.

Lemma channels_one (m : NontextualNetwork.t) (row : list R) :
  NontextualNetwork.wf m = true ->
  NontextualNetwork.input_channels m = 1%nat ->
  NontextualNetwork.channels m row = [firstn 10 row].
Proof.
  intros Hwf H1. destruct (nontextual_wf_parts m Hwf) as (Hl & _ & Hout & _).
  unfold NontextualNetwork.channels.
  pose proof (affine_length (NontextualNetwork.category_embedding m) (skipn 10 row) Hl)
    as Hlen.
  rewrite Hout, H1 in Hlen.
  destruct (affine (NontextualNetwork.category_embedding m) (skipn 10 row));
    [reflexivity | discriminate].
Qed.

(** X19. With [input_channels = 1] the category embedding has no output:
    the extractor receives the numeric series alone, and two batches of
    rows of 19 entries with the same first 10 entries in every row give the
    same result, whatever their 9 category entries. *)
Theorem nontextual_one_channel
        (m : NontextualNetwork.t) (x x' : list (list R)) :
  NontextualNetwork.wf m = true ->
  NontextualNetwork.input_channels m = 1%nat ->
  Forall (fun row => length row = 19%nat) x ->
  Forall (fun row => length row = 19%nat) x' ->
  map (firstn 10) x = map (firstn 10) x' ->
  NontextualNetwork.forward m (Some x)
  = mapM (fun row => NontextualNetwork.cnn m [firstn 10 row]) x
  /\ NontextualNetwork.forward m (Some x) = NontextualNetwork.forward m (Some x').
Proof.
  intros Hwf H1 Hx Hx' E.
  assert (H : forall y, Forall (fun row => length row = 19%nat) y ->
                        NontextualNetwork.forward m (Some y)
                        = mapM (fun s => NontextualNetwork.cnn m [s]) (map (firstn 10) y)).
  { intros y Hy. rewrite (nontextual_forward_rows m y Hwf Hy), mapM_map.
    clear Hy. induction y as [| row y IH]; simpl; [reflexivity |].
    rewrite (channels_one m row Hwf H1), IH. reflexivity. }
  split.
  - rewrite (H x Hx), mapM_map. reflexivity.
  - rewrite (H x Hx), (H x' Hx'), E. reflexivity.
Qed.

Transparent firstn skipn.

Lemma nontextual_one_channel_witness :
  let net := NontextualNetwork.mk 3 19 1 19 (mkLinear 9 0 [] (Some []))
                                  (Examples.cnn_stub 19) in
  NontextualNetwork.forward net (Some [Examples.row19])
  = mapM (fun row => NontextualNetwork.cnn net [firstn 10 row]) [Examples.row19]
  /\ NontextualNetwork.forward net (Some [Examples.row19])
     = NontextualNetwork.forward net
         (Some [[1; 2; 3; 4; 5; 6; 7; 8; 9; 10; 0; 0; 0; 0; 1; 0; 0; 0; 0]]).
Proof.
  apply (nontextual_one_channel
           (NontextualNetwork.mk 3 19 1 19 (mkLinear 9 0 [] (Some []))
                                 (Examples.cnn_stub 19))
           [Examples.row19]
           [[1; 2; 3; 4; 5; 6; 7; 8; 9; 10; 0; 0; 0; 0; 1; 0; 0; 0; 0]]).
  - reflexivity.
  - reflexivity.
  - repeat constructor.
  - repeat constructor.
  - reflexivity.
Defined.

(** ** A model without text *)

(** X17. A model built with method [None] returns one value per sample
    and time step, not one per sample: when the extractor turns the
    channels of a sample into 10 steps of [output_dim] features and the MLP
    of the head maps such a step to one value, a pass over [b] rows of 19
    entries returns [10 * b] values, whatever the text inputs. *)
Theorem model_without_text_output_length
        (m : MyModel.t) (keep : nat -> nat -> nat -> bool)
        (x_text : list (list (list (list Z))))
        (x_masks : list (option (list (list (list Z)))))
        (x : list (list R)) :
  MyModel.method m = None ->
  NontextualNetwork.wf (MyModel.nontext_network m) = true ->
  ClassificationHead.nontext_dim (MyModel.classifier m) <> 0%nat ->
  (forall chans,
      length chans = NontextualNetwork.input_channels (MyModel.nontext_network m) ->
      Forall (fun ch => length ch = 10%nat) chans ->
      exists o, NontextualNetwork.cnn (MyModel.nontext_network m) chans = Ok o
                /\ length o = 10%nat
                /\ Forall (fun e => length e
                                     = NontextualNetwork.output_dim
                                         (MyModel.nontext_network m)) o) ->
  (forall v, length v = NontextualNetwork.output_dim (MyModel.nontext_network m) ->
             exists y, ClassificationHead.mlp (MyModel.classifier m) v = Ok [y]) ->
  Forall (fun row => length row = 19%nat) x ->
  exists out,
    MyModel.forward m keep x_text x_masks (Some x) = Ok out
    /\ length out = (10 * length x)%nat.
Proof.
  intros Hm Hwf Hnd Hcnn Hmlp Hx.
  unfold MyModel.forward. rewrite Hm.
  rewrite (nontextual_forward_rows _ x Hwf Hx).
  destruct (mapM_exists
              (fun o => length o = 10%nat
                        /\ Forall (fun e => length e
                                             = NontextualNetwork.output_dim
                                                 (MyModel.nontext_network m)) o)
              (fun row => NontextualNetwork.cnn (MyModel.nontext_network m)
                            (NontextualNetwork.channels (MyModel.nontext_network m) row))
              x) as (xn & Hxn & Hshape).
  { eapply Forall_impl; [| exact Hx]. intros row Hrow.
    destruct (channels_shape _ row Hwf Hrow) as (H1 & H2 & _).
    apply (Hcnn _ H1 H2). }
  rewrite Hxn. cbn [bind Ok].
  rewrite (head_corpus_absent _ None xn (or_introl eq_refl) Hnd).
  destruct (mapM_exists
              (fun s => length s = 10%nat /\ Forall (fun o => length o = 1%nat) s)
              (mapM (ClassificationHead.mlp (MyModel.classifier m))) xn)
    as (outs & Houts & Hos).
  { eapply Forall_impl; [| exact Hshape]. intros s [Hlen Hw].
    destruct (mapM_exists (fun o => length o = 1%nat)
                (ClassificationHead.mlp (MyModel.classifier m)) s)
      as (os & Hos & H1).
    - eapply Forall_impl; [| exact Hw]. intros v Hv.
      destruct (Hmlp v Hv) as (y & Hy). exists [y]. split; [exact Hy | reflexivity].
    - exists os. split; [exact Hos |]. split; [| exact H1].
      rewrite (mapM_length _ _ _ Hos). exact Hlen. }
  rewrite Houts. cbn [bind Ok]. eexists. split; [reflexivity |].
  rewrite concat_singletons.
  - rewrite (length_concat_uniform 10).
    + rewrite (mapM_length _ _ _ Houts), (mapM_length _ _ _ Hxn). lia.
    + eapply Forall_impl; [| exact Hos]. intros s [H _]. exact H.
  - apply Forall_concat. eapply Forall_impl; [| exact Hos]. intros s [_ H]. exact H.
Qed.

Lemma cnn_stub_steps (d : nat) (chans : list (list R)) :
  chans <> [] ->
  Forall (fun ch => length ch = 10%nat) chans ->
  exists o, Examples.cnn_stub d chans = Ok o
            /\ length o = 10%nat /\ Forall (fun e => length e = d) o.
Proof.
  intros Hne Hc. unfold Examples.cnn_stub. eexists. split; [reflexivity |].
  destruct chans as [| ch chans]; [congruence |].
  inversion Hc as [| ? ? Hch _]; subst. split.
  - rewrite length_map, length_seq. exact Hch.
  - apply Forall_map. apply Forall_forall. intros t _. apply repeat_length.
Qed.

Lemma model_without_text_output_length_witness :
  exists out,
    MyModel.forward
      (MyModel.mk None Examples.nontext_net1 1
                  (CorpusEncoder.init (fun _ => Examples.encoder_stub) None true)
                  Examples.head_32_1)
      Examples.keep_all [] [] (Some [Examples.row19; Examples.row19'])
    = Ok out
    /\ length out = 20%nat.
Proof.
  apply (model_without_text_output_length
           (MyModel.mk None Examples.nontext_net1 1
                       (CorpusEncoder.init (fun _ => Examples.encoder_stub) None true)
                       Examples.head_32_1)
           Examples.keep_all [] [] [Examples.row19; Examples.row19']).
  - reflexivity.
  - reflexivity.
  - discriminate.
  - intros chans Hlen Hc. apply cnn_stub_steps; [| exact Hc].
    destruct chans; [discriminate | discriminate].
  - intros v Hv. exists (Rsum v).
    cbn [MyModel.classifier Examples.head_32_1 ClassificationHead.init
         ClassificationHead.mlp].
    unfold Examples.mlp_stub.
    cbn [MyModel.nontext_network Examples.nontext_net1 NontextualNetwork.output_dim] in Hv.
    rewrite Hv. reflexivity.
  - repeat constructor.
Defined.

(** ** The head is built apart from the corpus encoder *)

Lemma chunks_length {A : Type} (n k : nat) (l : list A) :
  length (chunks n k l) = k.
Proof.
  revert l. induction k as [| k IH]; intros l; simpl; [reflexivity |].
  rewrite IH. reflexivity.
Qed.

Lemma view2_Ok_rows {A : Type} (rows : nat) (flat : list A) (out : list (list A)) :
  view2 rows flat = Ok out -> rows <> 0%nat.
Proof.
  unfold view2. destruct (rows =? 0)%nat eqn:E; [discriminate |].
  intros _. apply Nat.eqb_neq. exact E.
Qed.

Lemma corpus03_out_length (m : CorpusEncoder03.t) (keep : nat -> nat -> bool)
      (x : list (list (list Z))) (mask : option (list (list (list Z))))
      (out : list (list R)) :
  CorpusEncoder03.forward m keep x mask = Ok out ->
  length out = length x /\ out <> [].
Proof.
  intros H. unfold CorpusEncoder03.forward in H.
  apply bind_Ok in H. destruct H as (rows & Hrows & H).
  apply bind_Ok in H. destruct H as (? & _ & H).
  apply bind_Ok in H. destruct H as (? & _ & H).
  apply bind_Ok in H. destruct H as (g & Hg & H).
  apply bind_Ok in H. destruct H as (pooled & Hp & H).
  apply view2_Ok_rows in Hrows.
  unfold view3 in Hg. apply bind_Ok in Hg. destruct Hg as (r & _ & Hg).
  assert (E : chunks (CorpusEncoder03.size1 x) (length x) r = g)
    by (unfold Ok in Hg; congruence).
  apply mapM_length in Hp. apply mapM_length in H.
  rewrite <- E, chunks_length in Hp.
  split; [lia |].
  intros ->. simpl in H. destruct x; simpl in *; [lia | lia].
Qed.

Lemma model_03_corpus_shape (new_encoder : nat -> CorpusEncoder03.t)
      (separate : bool) (keep : nat -> nat -> nat -> bool)
      (x : list (list (list (list Z))))
      (x_masks : list (option (list (list (list Z)))))
      (r : option (list (list R))) :
  (forall k, CorpusEncoder03.wf (new_encoder k) = true) ->
  CorpusEncoder.forward (CorpusEncoder.init new_encoder (Some "model_03"%string) separate)
                        keep x x_masks = Ok r ->
  exists c, r = Some c /\ c <> []
            /\ Forall (fun row => length row = if separate then 64%nat else 32%nat) c.
Proof.
  intros Hwf H.
  assert (Hw : forall k e keep0 x0 m0 out,
             e = new_encoder k ->
             CorpusEncoder03.forward e keep0 x0 m0 = Ok out ->
             out <> [] /\ Forall (fun row => length row = 32%nat) out).
  { intros k e keep0 x0 m0 out -> Ho.
    destruct (corpus03_wf_parts _ (Hwf k)) as (HW & _ & Hout & _).
    split; [apply (corpus03_out_length _ _ _ _ _ Ho) |].
    rewrite <- Hout. apply (corpus03_rows_width _ _ _ _ _ HW Ho). }
  unfold CorpusEncoder.forward in H. destruct separate.
  - cbn [CorpusEncoder.init String.eqb Ascii.eqb Bool.eqb negb CorpusEncoder.method
         CorpusEncoder.separate CorpusEncoder.encoder_ecb CorpusEncoder.encoder_fed
         attr] in H.
    apply bind_Ok in H. destruct H as (ecb & Hecb & H). injection Hecb as <-.
    apply bind_Ok in H. destruct H as (x0 & _ & H).
    apply bind_Ok in H. destruct H as (m0 & _ & H).
    apply bind_Ok in H. destruct H as (a & Ha & H).
    apply bind_Ok in H. destruct H as (fed & Hfed & H). injection Hfed as <-.
    apply bind_Ok in H. destruct H as (x1 & _ & H).
    apply bind_Ok in H. destruct H as (m1 & _ & H).
    apply bind_Ok in H. destruct H as (c & Hc & H).
    apply bind_Ok in H. destruct H as (out & Hcat & H). injection H as <-.
    destruct (Hw 0%nat _ _ _ _ _ eq_refl Ha) as [Hane Haw].
    destruct (Hw 1%nat _ _ _ _ _ eq_refl Hc) as [_ Hcw].
    exists out. split; [reflexivity |]. unfold CorpusEncoder.cat1 in Hcat. split.
    + apply zipWithM_length in Hcat. destruct Hcat as [_ Hl].
      intros ->. destruct a; [congruence | discriminate].
    + apply (zipWithM_out _ _ _ _ _ Hcat). intros ra rc row Hra Hrc Hrow.
      assert (E : ra ++ rc = row) by (unfold Ok in Hrow; congruence).
      rewrite Forall_forall in Haw, Hcw.
      rewrite <- E, length_app, (Haw ra Hra), (Hcw rc Hrc). reflexivity.
  - cbn [CorpusEncoder.init String.eqb Ascii.eqb Bool.eqb negb CorpusEncoder.method
         CorpusEncoder.separate CorpusEncoder.encoder attr] in H.
    apply bind_Ok in H. destruct H as (enc & Henc & H). injection Henc as <-.
    apply bind_Ok in H. destruct H as (x0 & _ & H).
    apply bind_Ok in H. destruct H as (m0 & _ & H).
    apply bind_Ok in H. destruct H as (a & Ha & H). injection H as <-.
    destruct (Hw 0%nat _ _ _ _ _ eq_refl Ha) as [Hane Haw].
    exists a. split; [reflexivity |]. split; assumption.
Qed.

(** X16. The constructor of the model computes the width of the corpus
    embedding and does not use it: the head is built from its own
    arguments.  A model 'model_03' whose head was built for another non-zero
    width than 32 (64 with two encoders) is constructed without complaint
    and never returns a value: when the nontextual network and the corpus
    encoder accept the input, the projection of the head raises
    [RuntimeError]. *)
Theorem model_head_width_unchecked
        (new_encoder : nat -> CorpusEncoder03.t) (separate : bool)
        (nontext_network : NontextualNetwork.t)
        (cdim ndim : nat) (mlp : MLP) (va : VectorAttention) (w : list (list R)) :
  (forall k, CorpusEncoder03.wf (new_encoder k) = true) ->
  cdim <> 0%nat -> ndim <> 0%nat ->
  cdim <> (if separate then 64%nat else 32%nat) ->
  exists m,
    MyModel.init new_encoder (Some "model_03"%string) separate nontext_network
                 (ClassificationHead.init cdim ndim mlp va w) = Ok m
    /\ forall keep x_text x_masks x_nontext,
        (forall out, MyModel.forward m keep x_text x_masks x_nontext <> Ok out)
        /\ (forall xn r,
               NontextualNetwork.forward nontext_network x_nontext = Ok xn ->
               CorpusEncoder.forward (MyModel.corpus_encoder m) keep x_text x_masks
               = Ok r ->
               MyModel.forward m keep x_text x_masks x_nontext = Raise RuntimeError).
Proof.
  intros Hwf Hc Hn Hdiff.
  assert (Hinit : MyModel.init new_encoder (Some "model_03"%string) separate
                    nontext_network (ClassificationHead.init cdim ndim mlp va w)
                  = Ok (MyModel.mk (Some "model_03"%string) nontext_network
                          (NontextualNetwork.output_dim nontext_network)
                          (CorpusEncoder.init new_encoder (Some "model_03"%string) separate)
                          (ClassificationHead.init cdim ndim mlp va w)))
    by (destruct separate; reflexivity).
  eexists. split; [exact Hinit |].
  intros keep x_text x_masks x_nontext.
  assert (H : forall xn r,
             NontextualNetwork.forward nontext_network x_nontext = Ok xn ->
             CorpusEncoder.forward
               (CorpusEncoder.init new_encoder (Some "model_03"%string) separate)
               keep x_text x_masks = Ok r ->
             MyModel.forward
               (MyModel.mk (Some "model_03"%string) nontext_network
                  (NontextualNetwork.output_dim nontext_network)
                  (CorpusEncoder.init new_encoder (Some "model_03"%string) separate)
                  (ClassificationHead.init cdim ndim mlp va w))
               keep x_text x_masks x_nontext = Raise RuntimeError).
  { intros xn r Hxn Hr. unfold MyModel.forward.
    cbn [MyModel.nontext_network MyModel.method MyModel.corpus_encoder
         MyModel.classifier].
    rewrite Hxn. cbn [bind Ok]. rewrite Hr. cbn [bind Ok].
    destruct (model_03_corpus_shape _ _ _ _ _ _ Hwf Hr) as (c & -> & Hne & Hw).
    rewrite (head_both_present (ClassificationHead.init cdim ndim mlp va w)
               c xn Hc Hn).
    rewrite mapM_linear_raises; [reflexivity |].
    destruct c as [| row c]; [congruence |].
    left. inversion Hw as [| ? ? Hrow _]; subst.
    cbn [ClassificationHead.proj ClassificationHead.init in_features]. lia. }
  split; [| exact H].
  intros out Hout.
  destruct (NontextualNetwork.forward nontext_network x_nontext) as [e | xn] eqn:Hxn.
  - unfold MyModel.forward in Hout. cbn [MyModel.nontext_network] in Hout.
    rewrite Hxn in Hout. discriminate.
  - destruct (CorpusEncoder.forward
                (CorpusEncoder.init new_encoder (Some "model_03"%string) separate)
                keep x_text x_masks) as [e | r] eqn:Hr.
    + unfold MyModel.forward in Hout.
      cbn [MyModel.nontext_network MyModel.method MyModel.corpus_encoder] in Hout.
      rewrite Hxn in Hout. cbn [bind Ok] in Hout. rewrite Hr in Hout. discriminate.
    + rewrite (H xn r eq_refl eq_refl) in Hout. discriminate.
Qed.

Lemma model_head_width_unchecked_witness :
  exists m,
    MyModel.init (fun _ => Examples.encoder_stub) (Some "model_03"%string) false
                 Examples.nontext_net1
                 (ClassificationHead.init 2 3 (Examples.mlp_stub 3)
                                          Examples.attention_stub
                                          [[1; 0]; [0; 1]; [1; 1]]) = Ok m
    /\ forall keep x_text x_masks x_nontext,
        (forall out, MyModel.forward m keep x_text x_masks x_nontext <> Ok out)
        /\ (forall xn r,
               NontextualNetwork.forward Examples.nontext_net1 x_nontext = Ok xn ->
               CorpusEncoder.forward (MyModel.corpus_encoder m) keep x_text x_masks
               = Ok r ->
               MyModel.forward m keep x_text x_masks x_nontext = Raise RuntimeError).
Proof.
  apply (model_head_width_unchecked
           (fun _ => Examples.encoder_stub) false Examples.nontext_net1
           2 3 (Examples.mlp_stub 3) Examples.attention_stub
           [[1; 0]; [0; 1]; [1; 1]]).
  - intros _. reflexivity.
  - discriminate.
  - discriminate.
  - discriminate.
Defined.
